(** * StoryStash: the in-memory store, the favourites route and the
    new-release matcher, embedded from [server/storage.ts],
    [server/routes.ts], [server/services/notification-service.ts] and
    [shared/schema.ts].

    Conventions of the embedding.
    - A JavaScript [number] that holds an id, a count or a slice bound is a
      [Z]; the id counters start at 1 and only grow.
    - A column that drizzle declares nullable, and an optional property, is an
      [option]: [None] stands for [null] and for [undefined] alike (both are
      falsy and both differ from every value under [===]).
    - [new Date()] is a clock reading passed to the operation as [now : Z].
    - A [Map<number, T>] is an insertion-ordered association list ([JsMap]):
      [Array.from(m.values())] is the list of its values in that order.
    - A call of a method the object does not have throws; a [try] block is a
      function to the store it leaves and a [Completion]. *)

From Stdlib Require Import String Ascii List ZArith Bool Lia Permutation Sorted.
Import ListNotations.
Open Scope Z_scope.

(** ** JavaScript [Map] with number keys *)

Module JsMap.
Section Defs.
Context {V : Type}.

Definition t : Type := list (Z * V).

Definition empty : t := [].

(** [m.get(k)] *)
Fixpoint get (k : Z) (m : t) : option V :=
  match m with
  | [] => None
  | (k', v) :: m' => if k =? k' then Some v else get k m'
  end.

(** [m.set(k, v)]: an existing key keeps its position, a new key goes last. *)
Fixpoint set (k : Z) (v : V) (m : t) : t :=
  match m with
  | [] => [(k, v)]
  | (k', v') :: m' => if k =? k' then (k, v) :: m' else (k', v') :: set k v m'
  end.

(** [m.delete(k)] *)
Fixpoint delete (k : Z) (m : t) : t :=
  match m with
  | [] => []
  | (k', v') :: m' => if k =? k' then m' else (k', v') :: delete k m'
  end.

(** [Array.from(m.values())] and [Array.from(m.keys())] *)
Definition values (m : t) : list V := map snd m.
Definition keys (m : t) : list Z := map fst m.

End Defs.
Arguments t : clear implicits.
End JsMap.

(** ** Array and string helpers *)

(** [arr.includes(s)] on an array of strings *)
Definition includes (arr : list string) (s : string) : bool :=
  existsb (String.eqb s) arr.

(** [s.includes(sub)] on strings *)
Fixpoint str_includes (s sub : string) : bool :=
  if String.prefix sub s then true
  else match s with
       | EmptyString => false
       | String _ s' => str_includes s' sub
       end.

(** [s.toLowerCase()]. Strings are byte strings here: the letters A-Z go to
    a-z and every other byte stays, which is what JavaScript does on ASCII
    text. *)
Definition lowerAscii (c : ascii) : ascii :=
  let n := nat_of_ascii c in
  if (65 <=? n)%nat && (n <=? 90)%nat then ascii_of_nat (n + 32) else c.

Fixpoint toLowerCase (s : string) : string :=
  match s with
  | EmptyString => EmptyString
  | String c s' => String (lowerAscii c) (toLowerCase s')
  end.

(** Truthiness of an optional string and of an optional number. *)
Definition truthy_string (s : option string) : bool :=
  match s with
  | Some s => negb (String.eqb s EmptyString)
  | None => false
  end.

Definition truthy_number (n : option Z) : bool :=
  match n with
  | Some n => negb (n =? 0)
  | None => false
  end.

(** [arr.slice(start, stop)] for integer bounds: a negative bound counts from
    the end, both are clamped to [0, length]. *)
Definition slice_index (len i : Z) : Z :=
  if i <? 0 then Z.max (len + i) 0 else Z.min i len.

Definition slice {A : Type} (l : list A) (start stop : Z) : list A :=
  let len := Z.of_nat (length l) in
  let k := slice_index len start in
  let final := slice_index len stop in
  firstn (Z.to_nat (final - k)) (skipn (Z.to_nat k) l).

(** [arr.sort((a, b) => key(b) - key(a))]: a stable sort by descending key
    (Array.prototype.sort is stable), written as an insertion sort. *)
Fixpoint insert_desc {A : Type} (key : A -> Z) (x : A) (l : list A) : list A :=
  match l with
  | [] => [x]
  | y :: l' => if key y <=? key x then x :: l else y :: insert_desc key x l'
  end.

Definition sort_desc {A : Type} (key : A -> Z) (l : list A) : list A :=
  fold_right (insert_desc key) [] l.

(** [{...old, ...update}] for one property. *)
Definition override {A : Type} (old : A) (upd : option A) : A :=
  match upd with
  | Some v => v
  | None => old
  end.

(** ** shared/schema.ts: the rows *)

Module User.
Record t := mk { id : Z; username : string; password : string }.
End User.

Module InsertUser.
Record t := mk { username : string; password : string }.
End InsertUser.

Module Book.
Record t := mk {
  id : Z;
  googleId : string;
  title : string;
  author : string;
  description : option string;
  thumbnail : option string;
  categories : option (list string);
  ageRange : option string;
  publishedDate : option string;
  rating : option Z;
  isNew : option bool
}.
End Book.

Module InsertBook.
Record t := mk {
  googleId : string;
  title : string;
  author : string;
  description : option string;
  thumbnail : option string;
  categories : option (list string);
  ageRange : option string;
  publishedDate : option string;
  rating : option Z;
  isNew : option bool
}.
End InsertBook.

(** [Partial<InsertBook>] *)
Module BookUpdate.
Record t := mk {
  googleId : option string;
  title : option string;
  author : option string;
  description : option (option string);
  thumbnail : option (option string);
  categories : option (option (list string));
  ageRange : option (option string);
  publishedDate : option (option string);
  rating : option (option Z);
  isNew : option (option bool)
}.
End BookUpdate.

Module UserPreferences.
Record t := mk {
  id : Z;
  userId : Z;
  preferredCategories : option (list string);
  preferredAgeRanges : option (list string);
  notificationsEnabled : option bool
}.
End UserPreferences.

Module InsertUserPreferences.
Record t := mk {
  userId : Z;
  preferredCategories : option (list string);
  preferredAgeRanges : option (list string);
  notificationsEnabled : option bool
}.
End InsertUserPreferences.

(** [Partial<InsertUserPreferences>] *)
Module UserPreferencesUpdate.
Record t := mk {
  userId : option Z;
  preferredCategories : option (option (list string));
  preferredAgeRanges : option (option (list string));
  notificationsEnabled : option (option bool)
}.
End UserPreferencesUpdate.

Module Favorite.
Record t := mk { id : Z; userId : Z; bookId : Z; createdAt : Z }.
End Favorite.

Module InsertFavorite.
Record t := mk { userId : Z; bookId : Z }.
End InsertFavorite.

Module Notification.
Record t := mk {
  id : Z;
  userId : Z;
  title : string;
  message : string;
  type : option string;
  isRead : bool;
  createdAt : Z;
  bookId : option Z
}.
End Notification.

(** The insert schema omits [id], [isRead] and [createdAt]; the matcher
    builds its object without [type], hence the option. *)
Module InsertNotification.
Record t := mk {
  userId : Z;
  title : string;
  message : string;
  type : option string;
  bookId : option Z
}.
End InsertNotification.

Module RecentlyViewed.
Record t := mk { id : Z; userId : Z; bookId : Z; viewedAt : Z }.
End RecentlyViewed.

Module InsertRecentlyViewed.
Record t := mk { userId : Z; bookId : Z }.
End InsertRecentlyViewed.

Module Author.
Record t := mk { id : Z; name : string; bio : option string; photo : option string }.
End Author.

Module InsertAuthor.
Record t := mk { name : string; bio : option string; photo : option string }.
End InsertAuthor.

Module BookSeries.
Record t := mk { id : Z; name : string; description : option string }.
End BookSeries.

Module InsertBookSeries.
Record t := mk { name : string; description : option string }.
End InsertBookSeries.

Module FollowingAuthor.
Record t := mk { id : Z; userId : Z; authorId : Z; followedAt : Z }.
End FollowingAuthor.

Module InsertFollowingAuthor.
Record t := mk { userId : Z; authorId : Z }.
End InsertFollowingAuthor.

Module FollowingSeries.
Record t := mk { id : Z; userId : Z; seriesId : Z; followedAt : Z }.
End FollowingSeries.

Module InsertFollowingSeries.
Record t := mk { userId : Z; seriesId : Z }.
End InsertFollowingSeries.

Module FollowingCategory.
Record t := mk { id : Z; userId : Z; category : string; followedAt : Z }.
End FollowingCategory.

Module InsertFollowingCategory.
Record t := mk { userId : Z; category : string }.
End InsertFollowingCategory.

(** Options of [getBooks]. *)
Module BookOptions.
Record t := mk {
  category : option string;
  ageRange : option string;
  isNew : option bool;
  limit : option Z;
  offset : option Z
}.
End BookOptions.
(** ** server/storage.ts: [MemStorage] *)

Module MemStorage.

(** The eleven collections and their id counters. *)
Record t := mk {
  users : JsMap.t User.t;
  books : JsMap.t Book.t;
  userPreferences : JsMap.t UserPreferences.t;
  favorites : JsMap.t Favorite.t;
  notifications : JsMap.t Notification.t;
  recentlyViewed : JsMap.t RecentlyViewed.t;
  authors : JsMap.t Author.t;
  bookSeries : JsMap.t BookSeries.t;
  followingAuthors : JsMap.t FollowingAuthor.t;
  followingSeries : JsMap.t FollowingSeries.t;
  followingCategories : JsMap.t FollowingCategory.t;
  userId : Z;
  bookId : Z;
  userPreferencesId : Z;
  favoriteId : Z;
  notificationId : Z;
  recentlyViewedId : Z;
  authorId : Z;
  bookSeriesId : Z;
  followingAuthorId : Z;
  followingSeriesId : Z;
  followingCategoryId : Z
}.

(** Assignments to one field: [this.f = v]. *)
Definition set_users (v : JsMap.t User.t) (st : t) : t :=
  mk v (books st) (userPreferences st) (favorites st) (notifications st) (recentlyViewed st) (authors st) (bookSeries st) (followingAuthors st) (followingSeries st) (followingCategories st) (userId st) (bookId st) (userPreferencesId st) (favoriteId st) (notificationId st) (recentlyViewedId st) (authorId st) (bookSeriesId st) (followingAuthorId st) (followingSeriesId st) (followingCategoryId st).
Definition set_books (v : JsMap.t Book.t) (st : t) : t :=
  mk (users st) v (userPreferences st) (favorites st) (notifications st) (recentlyViewed st) (authors st) (bookSeries st) (followingAuthors st) (followingSeries st) (followingCategories st) (userId st) (bookId st) (userPreferencesId st) (favoriteId st) (notificationId st) (recentlyViewedId st) (authorId st) (bookSeriesId st) (followingAuthorId st) (followingSeriesId st) (followingCategoryId st).
Definition set_userPreferences (v : JsMap.t UserPreferences.t) (st : t) : t :=
  mk (users st) (books st) v (favorites st) (notifications st) (recentlyViewed st) (authors st) (bookSeries st) (followingAuthors st) (followingSeries st) (followingCategories st) (userId st) (bookId st) (userPreferencesId st) (favoriteId st) (notificationId st) (recentlyViewedId st) (authorId st) (bookSeriesId st) (followingAuthorId st) (followingSeriesId st) (followingCategoryId st).
Definition set_favorites (v : JsMap.t Favorite.t) (st : t) : t :=
  mk (users st) (books st) (userPreferences st) v (notifications st) (recentlyViewed st) (authors st) (bookSeries st) (followingAuthors st) (followingSeries st) (followingCategories st) (userId st) (bookId st) (userPreferencesId st) (favoriteId st) (notificationId st) (recentlyViewedId st) (authorId st) (bookSeriesId st) (followingAuthorId st) (followingSeriesId st) (followingCategoryId st).
Definition set_notifications (v : JsMap.t Notification.t) (st : t) : t :=
  mk (users st) (books st) (userPreferences st) (favorites st) v (recentlyViewed st) (authors st) (bookSeries st) (followingAuthors st) (followingSeries st) (followingCategories st) (userId st) (bookId st) (userPreferencesId st) (favoriteId st) (notificationId st) (recentlyViewedId st) (authorId st) (bookSeriesId st) (followingAuthorId st) (followingSeriesId st) (followingCategoryId st).
Definition set_recentlyViewed (v : JsMap.t RecentlyViewed.t) (st : t) : t :=
  mk (users st) (books st) (userPreferences st) (favorites st) (notifications st) v (authors st) (bookSeries st) (followingAuthors st) (followingSeries st) (followingCategories st) (userId st) (bookId st) (userPreferencesId st) (favoriteId st) (notificationId st) (recentlyViewedId st) (authorId st) (bookSeriesId st) (followingAuthorId st) (followingSeriesId st) (followingCategoryId st).
Definition set_authors (v : JsMap.t Author.t) (st : t) : t :=
  mk (users st) (books st) (userPreferences st) (favorites st) (notifications st) (recentlyViewed st) v (bookSeries st) (followingAuthors st) (followingSeries st) (followingCategories st) (userId st) (bookId st) (userPreferencesId st) (favoriteId st) (notificationId st) (recentlyViewedId st) (authorId st) (bookSeriesId st) (followingAuthorId st) (followingSeriesId st) (followingCategoryId st).
Definition set_bookSeries (v : JsMap.t BookSeries.t) (st : t) : t :=
  mk (users st) (books st) (userPreferences st) (favorites st) (notifications st) (recentlyViewed st) (authors st) v (followingAuthors st) (followingSeries st) (followingCategories st) (userId st) (bookId st) (userPreferencesId st) (favoriteId st) (notificationId st) (recentlyViewedId st) (authorId st) (bookSeriesId st) (followingAuthorId st) (followingSeriesId st) (followingCategoryId st).
Definition set_followingAuthors (v : JsMap.t FollowingAuthor.t) (st : t) : t :=
  mk (users st) (books st) (userPreferences st) (favorites st) (notifications st) (recentlyViewed st) (authors st) (bookSeries st) v (followingSeries st) (followingCategories st) (userId st) (bookId st) (userPreferencesId st) (favoriteId st) (notificationId st) (recentlyViewedId st) (authorId st) (bookSeriesId st) (followingAuthorId st) (followingSeriesId st) (followingCategoryId st).
Definition set_followingSeries (v : JsMap.t FollowingSeries.t) (st : t) : t :=
  mk (users st) (books st) (userPreferences st) (favorites st) (notifications st) (recentlyViewed st) (authors st) (bookSeries st) (followingAuthors st) v (followingCategories st) (userId st) (bookId st) (userPreferencesId st) (favoriteId st) (notificationId st) (recentlyViewedId st) (authorId st) (bookSeriesId st) (followingAuthorId st) (followingSeriesId st) (followingCategoryId st).
Definition set_followingCategories (v : JsMap.t FollowingCategory.t) (st : t) : t :=
  mk (users st) (books st) (userPreferences st) (favorites st) (notifications st) (recentlyViewed st) (authors st) (bookSeries st) (followingAuthors st) (followingSeries st) v (userId st) (bookId st) (userPreferencesId st) (favoriteId st) (notificationId st) (recentlyViewedId st) (authorId st) (bookSeriesId st) (followingAuthorId st) (followingSeriesId st) (followingCategoryId st).
Definition set_userId (v : Z) (st : t) : t :=
  mk (users st) (books st) (userPreferences st) (favorites st) (notifications st) (recentlyViewed st) (authors st) (bookSeries st) (followingAuthors st) (followingSeries st) (followingCategories st) v (bookId st) (userPreferencesId st) (favoriteId st) (notificationId st) (recentlyViewedId st) (authorId st) (bookSeriesId st) (followingAuthorId st) (followingSeriesId st) (followingCategoryId st).
Definition set_bookId (v : Z) (st : t) : t :=
  mk (users st) (books st) (userPreferences st) (favorites st) (notifications st) (recentlyViewed st) (authors st) (bookSeries st) (followingAuthors st) (followingSeries st) (followingCategories st) (userId st) v (userPreferencesId st) (favoriteId st) (notificationId st) (recentlyViewedId st) (authorId st) (bookSeriesId st) (followingAuthorId st) (followingSeriesId st) (followingCategoryId st).
Definition set_userPreferencesId (v : Z) (st : t) : t :=
  mk (users st) (books st) (userPreferences st) (favorites st) (notifications st) (recentlyViewed st) (authors st) (bookSeries st) (followingAuthors st) (followingSeries st) (followingCategories st) (userId st) (bookId st) v (favoriteId st) (notificationId st) (recentlyViewedId st) (authorId st) (bookSeriesId st) (followingAuthorId st) (followingSeriesId st) (followingCategoryId st).
Definition set_favoriteId (v : Z) (st : t) : t :=
  mk (users st) (books st) (userPreferences st) (favorites st) (notifications st) (recentlyViewed st) (authors st) (bookSeries st) (followingAuthors st) (followingSeries st) (followingCategories st) (userId st) (bookId st) (userPreferencesId st) v (notificationId st) (recentlyViewedId st) (authorId st) (bookSeriesId st) (followingAuthorId st) (followingSeriesId st) (followingCategoryId st).
Definition set_notificationId (v : Z) (st : t) : t :=
  mk (users st) (books st) (userPreferences st) (favorites st) (notifications st) (recentlyViewed st) (authors st) (bookSeries st) (followingAuthors st) (followingSeries st) (followingCategories st) (userId st) (bookId st) (userPreferencesId st) (favoriteId st) v (recentlyViewedId st) (authorId st) (bookSeriesId st) (followingAuthorId st) (followingSeriesId st) (followingCategoryId st).
Definition set_recentlyViewedId (v : Z) (st : t) : t :=
  mk (users st) (books st) (userPreferences st) (favorites st) (notifications st) (recentlyViewed st) (authors st) (bookSeries st) (followingAuthors st) (followingSeries st) (followingCategories st) (userId st) (bookId st) (userPreferencesId st) (favoriteId st) (notificationId st) v (authorId st) (bookSeriesId st) (followingAuthorId st) (followingSeriesId st) (followingCategoryId st).
Definition set_authorId (v : Z) (st : t) : t :=
  mk (users st) (books st) (userPreferences st) (favorites st) (notifications st) (recentlyViewed st) (authors st) (bookSeries st) (followingAuthors st) (followingSeries st) (followingCategories st) (userId st) (bookId st) (userPreferencesId st) (favoriteId st) (notificationId st) (recentlyViewedId st) v (bookSeriesId st) (followingAuthorId st) (followingSeriesId st) (followingCategoryId st).
Definition set_bookSeriesId (v : Z) (st : t) : t :=
  mk (users st) (books st) (userPreferences st) (favorites st) (notifications st) (recentlyViewed st) (authors st) (bookSeries st) (followingAuthors st) (followingSeries st) (followingCategories st) (userId st) (bookId st) (userPreferencesId st) (favoriteId st) (notificationId st) (recentlyViewedId st) (authorId st) v (followingAuthorId st) (followingSeriesId st) (followingCategoryId st).
Definition set_followingAuthorId (v : Z) (st : t) : t :=
  mk (users st) (books st) (userPreferences st) (favorites st) (notifications st) (recentlyViewed st) (authors st) (bookSeries st) (followingAuthors st) (followingSeries st) (followingCategories st) (userId st) (bookId st) (userPreferencesId st) (favoriteId st) (notificationId st) (recentlyViewedId st) (authorId st) (bookSeriesId st) v (followingSeriesId st) (followingCategoryId st).
Definition set_followingSeriesId (v : Z) (st : t) : t :=
  mk (users st) (books st) (userPreferences st) (favorites st) (notifications st) (recentlyViewed st) (authors st) (bookSeries st) (followingAuthors st) (followingSeries st) (followingCategories st) (userId st) (bookId st) (userPreferencesId st) (favoriteId st) (notificationId st) (recentlyViewedId st) (authorId st) (bookSeriesId st) (followingAuthorId st) v (followingCategoryId st).
Definition set_followingCategoryId (v : Z) (st : t) : t :=
  mk (users st) (books st) (userPreferences st) (favorites st) (notifications st) (recentlyViewed st) (authors st) (bookSeries st) (followingAuthors st) (followingSeries st) (followingCategories st) (userId st) (bookId st) (userPreferencesId st) (favoriteId st) (notificationId st) (recentlyViewedId st) (authorId st) (bookSeriesId st) (followingAuthorId st) (followingSeriesId st) v.

(** *** User methods *)

Definition getUser (st : t) (id : Z) : option User.t :=
  JsMap.get id (users st).

Definition getUserByUsername (st : t) (username : string) : option User.t :=
  find (fun user => String.eqb (User.username user) username)
       (JsMap.values (users st)).

(** *** User preferences methods *)

Definition getUserPreferences (st : t) (userId : Z) : option UserPreferences.t :=
  find (fun prefs => UserPreferences.userId prefs =? userId)
       (JsMap.values (userPreferences st)).

Definition createUserPreferences (st : t) (prefs : InsertUserPreferences.t)
  : t * UserPreferences.t :=
  let id := userPreferencesId st in
  let st := set_userPreferencesId (id + 1) st in
  let userPrefs :=
    UserPreferences.mk id
      (InsertUserPreferences.userId prefs)
      (InsertUserPreferences.preferredCategories prefs)
      (InsertUserPreferences.preferredAgeRanges prefs)
      (InsertUserPreferences.notificationsEnabled prefs) in
  (set_userPreferences (JsMap.set id userPrefs (userPreferences st)) st, userPrefs).

Definition updateUserPreferences (st : t) (userId : Z)
    (prefsUpdate : UserPreferencesUpdate.t) : t * option UserPreferences.t :=
  match find (fun p => UserPreferences.userId p =? userId)
             (JsMap.values (userPreferences st)) with
  | None => (st, None)
  | Some prefs =>
      let updatedPrefs :=
        UserPreferences.mk (UserPreferences.id prefs)
          (override (UserPreferences.userId prefs)
                    (UserPreferencesUpdate.userId prefsUpdate))
          (override (UserPreferences.preferredCategories prefs)
                    (UserPreferencesUpdate.preferredCategories prefsUpdate))
          (override (UserPreferences.preferredAgeRanges prefs)
                    (UserPreferencesUpdate.preferredAgeRanges prefsUpdate))
          (override (UserPreferences.notificationsEnabled prefs)
                    (UserPreferencesUpdate.notificationsEnabled prefsUpdate)) in
      (set_userPreferences
         (JsMap.set (UserPreferences.id prefs) updatedPrefs (userPreferences st)) st,
       Some updatedPrefs)
  end.

(** [createUser] stores the user, then the default preferences row. *)
Definition createUser (st : t) (insertUser : InsertUser.t) : t * User.t :=
  let id := userId st in
  let st := set_userId (id + 1) st in
  let user := User.mk id (InsertUser.username insertUser)
                         (InsertUser.password insertUser) in
  let st := set_users (JsMap.set id user (users st)) st in
  let '(st, _) :=
    createUserPreferences st (InsertUserPreferences.mk id (Some []) (Some []) (Some true)) in
  (st, user).

(** *** Book methods *)

Definition getBook (st : t) (id : Z) : option Book.t :=
  JsMap.get id (books st).

Definition getBookByGoogleId (st : t) (googleId : string) : option Book.t :=
  find (fun book => String.eqb (Book.googleId book) googleId)
       (JsMap.values (books st)).

Definition createBook (st : t) (insertBook : InsertBook.t) : t * Book.t :=
  let id := bookId st in
  let st := set_bookId (id + 1) st in
  let book :=
    Book.mk id
      (InsertBook.googleId insertBook) (InsertBook.title insertBook)
      (InsertBook.author insertBook) (InsertBook.description insertBook)
      (InsertBook.thumbnail insertBook) (InsertBook.categories insertBook)
      (InsertBook.ageRange insertBook) (InsertBook.publishedDate insertBook)
      (InsertBook.rating insertBook) (InsertBook.isNew insertBook) in
  (set_books (JsMap.set id book (books st)) st, book).

Definition updateBook (st : t) (id : Z) (bookUpdate : BookUpdate.t)
  : t * option Book.t :=
  match JsMap.get id (books st) with
  | None => (st, None)
  | Some book =>
      let updatedBook :=
        Book.mk (Book.id book)
          (override (Book.googleId book) (BookUpdate.googleId bookUpdate))
          (override (Book.title book) (BookUpdate.title bookUpdate))
          (override (Book.author book) (BookUpdate.author bookUpdate))
          (override (Book.description book) (BookUpdate.description bookUpdate))
          (override (Book.thumbnail book) (BookUpdate.thumbnail bookUpdate))
          (override (Book.categories book) (BookUpdate.categories bookUpdate))
          (override (Book.ageRange book) (BookUpdate.ageRange bookUpdate))
          (override (Book.publishedDate book) (BookUpdate.publishedDate bookUpdate))
          (override (Book.rating book) (BookUpdate.rating bookUpdate))
          (override (Book.isNew book) (BookUpdate.isNew bookUpdate)) in
      (set_books (JsMap.set id updatedBook (books st)) st, Some updatedBook)
  end.

(** The three filters of [getBooks]; each is applied only when its option is
    truthy ([category], [ageRange]) or defined ([isNew]). *)
Definition hasCategory (category : string) (book : Book.t) : bool :=
  match Book.categories book with
  | Some cs => includes cs category
  | None => false
  end.

Definition hasAgeRange (ageRange : string) (book : Book.t) : bool :=
  match Book.ageRange book with
  | Some a => String.eqb a ageRange
  | None => false
  end.

Definition hasIsNew (isNew : bool) (book : Book.t) : bool :=
  match Book.isNew book with
  | Some b => Bool.eqb b isNew
  | None => false
  end.

Definition getBooks (st : t) (options : BookOptions.t) : list Book.t :=
  let books := JsMap.values (books st) in
  let books :=
    if truthy_string (BookOptions.category options)
    then match BookOptions.category options with
         | Some c => filter (hasCategory c) books
         | None => books
         end
    else books in
  let books :=
    if truthy_string (BookOptions.ageRange options)
    then match BookOptions.ageRange options with
         | Some a => filter (hasAgeRange a) books
         | None => books
         end
    else books in
  let books :=
    match BookOptions.isNew options with
    | Some n => filter (hasIsNew n) books
    | None => books
    end in
  let books := sort_desc Book.id books in
  match BookOptions.offset options, BookOptions.limit options with
  | Some offset, Some limit =>
      if truthy_number (Some offset) && truthy_number (Some limit)
      then slice books offset (offset + limit)
      else if truthy_number (Some limit) then slice books 0 limit
      else books
  | None, Some limit =>
      if truthy_number (Some limit) then slice books 0 limit else books
  | _, None => books
  end.

Definition searchBooks (st : t) (query : string) : list Book.t :=
  let lowercaseQuery := toLowerCase query in
  filter
    (fun book =>
       str_includes (toLowerCase (Book.title book)) lowercaseQuery
       || str_includes (toLowerCase (Book.author book)) lowercaseQuery
       || match Book.description book with
          | Some d => str_includes (toLowerCase d) lowercaseQuery
          | None => false
          end)
    (JsMap.values (books st)).

(** *** Favorites methods *)

Definition sameFavorite (userId bookId : Z) (fav : Favorite.t) : bool :=
  (Favorite.userId fav =? userId) && (Favorite.bookId fav =? bookId).

Definition getFavorites (st : t) (userId : Z) : list Book.t :=
  let favoriteEntries :=
    filter (fun fav => Favorite.userId fav =? userId) (JsMap.values (favorites st)) in
  flat_map (fun fav => match JsMap.get (Favorite.bookId fav) (books st) with
                       | Some book => [book]
                       | None => []
                       end) favoriteEntries.

Definition addFavorite (st : t) (now : Z) (favorite : InsertFavorite.t)
  : t * Favorite.t :=
  let id := favoriteId st in
  let st := set_favoriteId (id + 1) st in
  let newFavorite :=
    Favorite.mk id (InsertFavorite.userId favorite)
                   (InsertFavorite.bookId favorite) now in
  (set_favorites (JsMap.set id newFavorite (favorites st)) st, newFavorite).

Definition removeFavorite (st : t) (userId bookId : Z) : t * bool :=
  match find (sameFavorite userId bookId) (JsMap.values (favorites st)) with
  | None => (st, false)
  | Some favoriteToRemove =>
      (set_favorites (JsMap.delete (Favorite.id favoriteToRemove) (favorites st)) st,
       true)
  end.

Definition isFavorite (st : t) (userId bookId : Z) : bool :=
  existsb (sameFavorite userId bookId) (JsMap.values (favorites st)).

(** *** Notifications methods *)

Definition getNotifications (st : t) (userId : Z) : list Notification.t :=
  sort_desc Notification.createdAt
    (filter (fun n => Notification.userId n =? userId)
            (JsMap.values (notifications st))).

Definition createNotification (st : t) (now : Z)
    (notification : InsertNotification.t) : t * Notification.t :=
  let id := notificationId st in
  let st := set_notificationId (id + 1) st in
  let newNotification :=
    Notification.mk id
      (InsertNotification.userId notification)
      (InsertNotification.title notification)
      (InsertNotification.message notification)
      (InsertNotification.type notification)
      false now
      (InsertNotification.bookId notification) in
  (set_notifications (JsMap.set id newNotification (notifications st)) st,
   newNotification).

(** [{ ...notification, isRead: true }] *)
Definition withIsReadTrue (n : Notification.t) : Notification.t :=
  Notification.mk (Notification.id n) (Notification.userId n)
    (Notification.title n) (Notification.message n) (Notification.type n)
    true (Notification.createdAt n) (Notification.bookId n).

Definition markNotificationAsRead (st : t) (id : Z) : t * option Notification.t :=
  match JsMap.get id (notifications st) with
  | None => (st, None)
  | Some notification =>
      let updatedNotification := withIsReadTrue notification in
      (set_notifications (JsMap.set id updatedNotification (notifications st)) st,
       Some updatedNotification)
  end.

(** The rows are collected first, then each is written back by its own id. *)
Definition markAllNotificationsAsRead (st : t) (userId : Z) : t * bool :=
  let userNotifications :=
    filter (fun n => Notification.userId n =? userId)
           (JsMap.values (notifications st)) in
  (fold_left
     (fun st notification =>
        set_notifications
          (JsMap.set (Notification.id notification) (withIsReadTrue notification)
                     (notifications st)) st)
     userNotifications st,
   true).

Definition getUnreadNotificationCount (st : t) (userId : Z) : Z :=
  Z.of_nat
    (List.length
       (filter (fun n => (Notification.userId n =? userId) && negb (Notification.isRead n))
               (JsMap.values (notifications st)))).

(** *** Recently viewed methods *)

Definition sameViewed (userId bookId : Z) (entry : RecentlyViewed.t) : bool :=
  (RecentlyViewed.userId entry =? userId) && (RecentlyViewed.bookId entry =? bookId).

Definition getRecentlyViewed (st : t) (userId : Z) (limit : Z) : list Book.t :=
  let recentlyViewedEntries :=
    slice (sort_desc RecentlyViewed.viewedAt
             (filter (fun entry => RecentlyViewed.userId entry =? userId)
                     (JsMap.values (recentlyViewed st))))
          0 limit in
  flat_map (fun entry => match JsMap.get (RecentlyViewed.bookId entry) (books st) with
                         | Some book => [book]
                         | None => []
                         end) recentlyViewedEntries.

Definition addRecentlyViewed (st : t) (now : Z) (rv : InsertRecentlyViewed.t)
  : t * RecentlyViewed.t :=
  match find (sameViewed (InsertRecentlyViewed.userId rv) (InsertRecentlyViewed.bookId rv))
             (JsMap.values (recentlyViewed st)) with
  | Some existingEntry =>
      let updatedEntry :=
        RecentlyViewed.mk (RecentlyViewed.id existingEntry)
          (RecentlyViewed.userId existingEntry)
          (RecentlyViewed.bookId existingEntry) now in
      (set_recentlyViewed
         (JsMap.set (RecentlyViewed.id existingEntry) updatedEntry (recentlyViewed st)) st,
       updatedEntry)
  | None =>
      let id := recentlyViewedId st in
      let st := set_recentlyViewedId (id + 1) st in
      let newEntry :=
        RecentlyViewed.mk id (InsertRecentlyViewed.userId rv)
                             (InsertRecentlyViewed.bookId rv) now in
      (set_recentlyViewed (JsMap.set id newEntry (recentlyViewed st)) st, newEntry)
  end.

Definition clearRecentlyViewed (st : t) (userId : Z) : t * bool :=
  let entriesToRemove :=
    filter (fun entry => RecentlyViewed.userId entry =? userId)
           (JsMap.values (recentlyViewed st)) in
  (fold_left
     (fun st entry =>
        set_recentlyViewed (JsMap.delete (RecentlyViewed.id entry) (recentlyViewed st)) st)
     entriesToRemove st,
   true).

(** *** Author and series methods *)

Definition getAuthors (st : t) : list Author.t := JsMap.values (authors st).

Definition getAuthor (st : t) (id : Z) : option Author.t :=
  JsMap.get id (authors st).

Definition getAuthorByName (st : t) (name : string) : option Author.t :=
  find (fun author => String.eqb (Author.name author) name) (JsMap.values (authors st)).

Definition createAuthor (st : t) (authorData : InsertAuthor.t) : t * Author.t :=
  let id := authorId st in
  let st := set_authorId (id + 1) st in
  let author := Author.mk id (InsertAuthor.name authorData)
                  (InsertAuthor.bio authorData) (InsertAuthor.photo authorData) in
  (set_authors (JsMap.set id author (authors st)) st, author).

Definition getBookSeries (st : t) : list BookSeries.t := JsMap.values (bookSeries st).

Definition getBookSeriesById (st : t) (id : Z) : option BookSeries.t :=
  JsMap.get id (bookSeries st).

Definition getBookSeriesByName (st : t) (name : string) : option BookSeries.t :=
  find (fun series => String.eqb (BookSeries.name series) name)
       (JsMap.values (bookSeries st)).

Definition createBookSeries (st : t) (seriesData : InsertBookSeries.t)
  : t * BookSeries.t :=
  let id := bookSeriesId st in
  let st := set_bookSeriesId (id + 1) st in
  let series := BookSeries.mk id (InsertBookSeries.name seriesData)
                  (InsertBookSeries.description seriesData) in
  (set_bookSeries (JsMap.set id series (bookSeries st)) st, series).

(** *** Following authors methods *)

Definition sameFollowedAuthor (userId authorId : Z) (entry : FollowingAuthor.t) : bool :=
  (FollowingAuthor.userId entry =? userId) && (FollowingAuthor.authorId entry =? authorId).

Definition getFollowingAuthors (st : t) (userId : Z) : list Author.t :=
  let followingEntries :=
    filter (fun entry => FollowingAuthor.userId entry =? userId)
           (JsMap.values (followingAuthors st)) in
  flat_map (fun entry => match JsMap.get (FollowingAuthor.authorId entry) (authors st) with
                         | Some author => [author]
                         | None => []
                         end) followingEntries.

Definition followAuthor (st : t) (now : Z) (follow : InsertFollowingAuthor.t)
  : t * FollowingAuthor.t :=
  match find (sameFollowedAuthor (InsertFollowingAuthor.userId follow)
                                 (InsertFollowingAuthor.authorId follow))
             (JsMap.values (followingAuthors st)) with
  | Some existingEntry => (st, existingEntry)
  | None =>
      let id := followingAuthorId st in
      let st := set_followingAuthorId (id + 1) st in
      let newEntry :=
        FollowingAuthor.mk id (InsertFollowingAuthor.userId follow)
                              (InsertFollowingAuthor.authorId follow) now in
      (set_followingAuthors (JsMap.set id newEntry (followingAuthors st)) st, newEntry)
  end.

Definition unfollowAuthor (st : t) (userId authorId : Z) : t * bool :=
  match find (sameFollowedAuthor userId authorId) (JsMap.values (followingAuthors st)) with
  | None => (st, false)
  | Some entryToRemove =>
      (set_followingAuthors
         (JsMap.delete (FollowingAuthor.id entryToRemove) (followingAuthors st)) st,
       true)
  end.

Definition isFollowingAuthor (st : t) (userId authorId : Z) : bool :=
  existsb (sameFollowedAuthor userId authorId) (JsMap.values (followingAuthors st)).

(** *** Following series methods *)

Definition sameFollowedSeries (userId seriesId : Z) (entry : FollowingSeries.t) : bool :=
  (FollowingSeries.userId entry =? userId) && (FollowingSeries.seriesId entry =? seriesId).

Definition getFollowingSeries (st : t) (userId : Z) : list BookSeries.t :=
  let followingEntries :=
    filter (fun entry => FollowingSeries.userId entry =? userId)
           (JsMap.values (followingSeries st)) in
  flat_map (fun entry => match JsMap.get (FollowingSeries.seriesId entry) (bookSeries st) with
                         | Some series => [series]
                         | None => []
                         end) followingEntries.

Definition followSeries (st : t) (now : Z) (follow : InsertFollowingSeries.t)
  : t * FollowingSeries.t :=
  match find (sameFollowedSeries (InsertFollowingSeries.userId follow)
                                 (InsertFollowingSeries.seriesId follow))
             (JsMap.values (followingSeries st)) with
  | Some existingEntry => (st, existingEntry)
  | None =>
      let id := followingSeriesId st in
      let st := set_followingSeriesId (id + 1) st in
      let newEntry :=
        FollowingSeries.mk id (InsertFollowingSeries.userId follow)
                              (InsertFollowingSeries.seriesId follow) now in
      (set_followingSeries (JsMap.set id newEntry (followingSeries st)) st, newEntry)
  end.

Definition unfollowSeries (st : t) (userId seriesId : Z) : t * bool :=
  match find (sameFollowedSeries userId seriesId) (JsMap.values (followingSeries st)) with
  | None => (st, false)
  | Some entryToRemove =>
      (set_followingSeries
         (JsMap.delete (FollowingSeries.id entryToRemove) (followingSeries st)) st,
       true)
  end.

Definition isFollowingSeries (st : t) (userId seriesId : Z) : bool :=
  existsb (sameFollowedSeries userId seriesId) (JsMap.values (followingSeries st)).

(** *** Following categories methods *)

Definition sameFollowedCategory (userId : Z) (category : string)
    (entry : FollowingCategory.t) : bool :=
  (FollowingCategory.userId entry =? userId)
  && String.eqb (FollowingCategory.category entry) category.

Definition getFollowingCategories (st : t) (userId : Z) : list string :=
  map FollowingCategory.category
      (filter (fun entry => FollowingCategory.userId entry =? userId)
              (JsMap.values (followingCategories st))).

Definition followCategory (st : t) (now : Z) (follow : InsertFollowingCategory.t)
  : t * FollowingCategory.t :=
  match find (sameFollowedCategory (InsertFollowingCategory.userId follow)
                                   (InsertFollowingCategory.category follow))
             (JsMap.values (followingCategories st)) with
  | Some existingEntry => (st, existingEntry)
  | None =>
      let id := followingCategoryId st in
      let st := set_followingCategoryId (id + 1) st in
      let newEntry :=
        FollowingCategory.mk id (InsertFollowingCategory.userId follow)
                                (InsertFollowingCategory.category follow) now in
      (set_followingCategories (JsMap.set id newEntry (followingCategories st)) st,
       newEntry)
  end.

Definition unfollowCategory (st : t) (userId : Z) (category : string) : t * bool :=
  match find (sameFollowedCategory userId category)
             (JsMap.values (followingCategories st)) with
  | None => (st, false)
  | Some entryToRemove =>
      (set_followingCategories
         (JsMap.delete (FollowingCategory.id entryToRemove) (followingCategories st)) st,
       true)
  end.

Definition isFollowingCategory (st : t) (userId : Z) (category : string) : bool :=
  existsb (sameFollowedCategory userId category) (JsMap.values (followingCategories st)).

(** *** The constructor: empty collections, counters at 1, then the demo
    user, five authors and five series. *)

Definition empty : t :=
  mk JsMap.empty JsMap.empty JsMap.empty JsMap.empty JsMap.empty JsMap.empty
     JsMap.empty JsMap.empty JsMap.empty JsMap.empty JsMap.empty
     1 1 1 1 1 1 1 1 1 1 1.

Definition sampleAuthors : list InsertAuthor.t :=
  [ InsertAuthor.mk "Dr. Seuss"
      (Some "Theodor Seuss Geisel was an American children's author and cartoonist.") None;
    InsertAuthor.mk "J.K. Rowling"
      (Some "British author best known for the Harry Potter series.") None;
    InsertAuthor.mk "Roald Dahl"
      (Some "British novelist, short-story writer, poet, and screenwriter.") None;
    InsertAuthor.mk "Beverly Cleary"
      (Some "American writer of children's and young adult fiction.") None;
    InsertAuthor.mk "Rick Riordan"
      (Some "American author known for writing the Percy Jackson & the Olympians series.")
      None ]%string.

Definition sampleSeries : list InsertBookSeries.t :=
  [ InsertBookSeries.mk "Harry Potter"
      (Some "A series of fantasy novels written by British author J. K. Rowling.");
    InsertBookSeries.mk "Percy Jackson & the Olympians"
      (Some "A pentalogy of fantasy adventure novels by American author Rick Riordan.");
    InsertBookSeries.mk "Chronicles of Narnia"
      (Some "A series of fantasy novels by British author C. S. Lewis.");
    InsertBookSeries.mk "Diary of a Wimpy Kid"
      (Some "A series of fiction books written by American author and cartoonist Jeff Kinney.");
    InsertBookSeries.mk "The Magic Tree House"
      (Some "An American series of children's books written by Mary Pope Osborne.") ]%string.

Definition new : t :=
  let st := fst (createUser empty (InsertUser.mk "demo" "password")) in
  let st := fold_left (fun st a => fst (createAuthor st a)) sampleAuthors st in
  fold_left (fun st s => fst (createBookSeries st s)) sampleSeries st.

End MemStorage.

(** ** JavaScript values read by property name

    The matcher reads the preferences object it is handed by property name:
    an object is its own properties, and [undefined] for every other name. *)

Inductive JsValue :=
| JsUndefined
| JsNull
| JsNumber (n : Z)
| JsBoolean (b : bool)
| JsStringArray (a : list string).

Definition JsObject : Type := list (string * JsValue).

Fixpoint js_get (o : JsObject) (name : string) : JsValue :=
  match o with
  | [] => JsUndefined
  | (p, v) :: o' => if String.eqb p name then v else js_get o' name
  end.

Definition js_truthy (v : JsValue) : bool :=
  match v with
  | JsUndefined | JsNull => false
  | JsNumber n => negb (n =? 0)
  | JsBoolean b => b
  | JsStringArray _ => true
  end.

(** [v.length === 0] and [v.includes(s)], for an array of strings. *)
Definition js_length_is_zero (v : JsValue) : bool :=
  match v with
  | JsStringArray a => Z.of_nat (List.length a) =? 0
  | _ => false
  end.

Definition js_includes (v : JsValue) (s : string) : bool :=
  match v with
  | JsStringArray a => includes a s
  | _ => false
  end.

(** ** Method calls that can throw *)

Inductive Completion (A : Type) : Type :=
| Normal (value : A)
| Throw (error : string).

Arguments Normal {A} value.
Arguments Throw {A} error.

(** [this.storage.name(...)]: calling a member the object does not have
    ([undefined]) throws a TypeError. *)
Definition callMember {A : Type} (name : string) (member : option A) : Completion A :=
  match member with
  | Some method => Normal method
  | None => Throw ("TypeError: this.storage." ++ name ++ " is not a function")%string
  end.

(** ** The storage object handed to the notification service

    [checkForNewBooks] calls five methods of [this.storage]. [getUser] and
    [createNotification] are methods of [IStorage] and of [MemStorage]. The
    names [getNewReleases], [getUserPreference] and
    [getNotificationsByUserId] are declared by neither: an object has such a
    member or it has not, and the types say what the call sites read of a
    result (a list of books, an object or [undefined], a list of
    notifications). *)

Module StorageInstance.

Record t := mk {
  getNewReleases : option (MemStorage.t -> list Book.t);
  getUserPreference : option (MemStorage.t -> Z -> option JsObject);
  getNotificationsByUserId : option (MemStorage.t -> Z -> list Notification.t)
}.

(** [new MemStorage()]: the class has the methods of [IStorage] and no
    member under any of the three names. *)
Definition memStorage : t := mk None None None.

End StorageInstance.

(** ** server/services/notification-service.ts: [NotificationService] *)

Module NotificationService.

(** [init]: the [storage] field, [null] before. *)
Definition init (storageInstance : StorageInstance.t) : option StorageInstance.t :=
  Some storageInstance.

(** [getAllUsers]: the user with id 1, when there is one. *)
Definition getAllUsers (st : MemStorage.t) : list User.t :=
  match MemStorage.getUser st 1 with
  | Some user => [user]
  | None => []
  end.

Definition ageRangeMatch (preferences : JsObject) (book : Book.t) : bool :=
  let ageRanges := js_get preferences "ageRanges" in
  negb (js_truthy ageRanges)
  || js_length_is_zero ageRanges
  || match Book.ageRange book with
     | Some a => truthy_string (Some a) && js_includes ageRanges a
     | None => false
     end.

Definition categoryMatch (preferences : JsObject) (book : Book.t) : bool :=
  let categories := js_get preferences "categories" in
  negb (js_truthy categories)
  || js_length_is_zero categories
  || match Book.categories book with
     | Some cs => existsb (fun cat => js_includes categories cat) cs
     | None => false
     end.

(** The callback of [newBooks.filter]. *)
Definition matchesPreferences (preferences : JsObject) (book : Book.t) : bool :=
  ageRangeMatch preferences book || categoryMatch preferences book.

Definition newBookRelease : string := "New Book Release".

(** The callback of [existingNotifications.some]. *)
Definition alreadyNotified (existingNotifications : list Notification.t)
    (book : Book.t) : bool :=
  existsb
    (fun n =>
       match Notification.bookId n with
       | Some b => b =? Book.id book
       | None => false
       end
       && str_includes (Notification.title n) newBookRelease)
    existingNotifications.

(** A book has no [authors] property, so the message names
    'Unknown Author'. *)
Definition releaseMessage (book : Book.t) : string :=
  (String "034" (Book.title book)
   ++ String "034" " by Unknown Author is now available!")%string.

(** One turn of the loop over [matchingBooks]; nothing runs after a throw. *)
Definition notifyAbout (storage : StorageInstance.t) (now : Z) (user : User.t)
    (acc : MemStorage.t * Completion unit) (book : Book.t)
  : MemStorage.t * Completion unit :=
  match acc with
  | (st, Throw error) => (st, Throw error)
  | (st, Normal _) =>
      match callMember "getNotificationsByUserId"
              (StorageInstance.getNotificationsByUserId storage) with
      | Throw error => (st, Throw error)
      | Normal getNotificationsByUserId =>
          let existingNotifications := getNotificationsByUserId st (User.id user) in
          if alreadyNotified existingNotifications book then (st, Normal tt)
          else (fst (MemStorage.createNotification st now
                       (InsertNotification.mk (User.id user) newBookRelease
                          (releaseMessage book) None (Some (Book.id book)))),
                Normal tt)
      end
  end.

(** One turn of the loop over [users]. *)
Definition notifyUser (storage : StorageInstance.t) (now : Z) (newBooks : list Book.t)
    (acc : MemStorage.t * Completion unit) (user : User.t)
  : MemStorage.t * Completion unit :=
  match acc with
  | (st, Throw error) => (st, Throw error)
  | (st, Normal _) =>
      match callMember "getUserPreference"
              (StorageInstance.getUserPreference storage) with
      | Throw error => (st, Throw error)
      | Normal getUserPreference =>
          match getUserPreference st (User.id user) with
          | None => (st, Normal tt)
          | Some preferences =>
              let matchingBooks := filter (matchesPreferences preferences) newBooks in
              fold_left (notifyAbout storage now user) matchingBooks (st, Normal tt)
          end
      end
  end.

(** The [try] block: the store when it ends, and how it ends. *)
Definition tryCheckForNewBooks (storage : StorageInstance.t) (st : MemStorage.t)
    (now : Z) : MemStorage.t * Completion unit :=
  match callMember "getNewReleases" (StorageInstance.getNewReleases storage) with
  | Throw error => (st, Throw error)
  | Normal getNewReleases =>
      let newBooks := getNewReleases st in
      if Z.of_nat (List.length newBooks) =? 0 then (st, Normal tt)
      else fold_left (notifyUser storage now newBooks) (getAllUsers st) (st, Normal tt)
  end.

(** [checkForNewBooks] on the service whose [storage] field is [storage]:
    it returns at once when the field is [null], and its [catch] only logs
    what the [try] block threw. *)
Definition checkForNewBooks (storage : option StorageInstance.t) (st : MemStorage.t)
    (now : Z) : MemStorage.t :=
  match storage with
  | None => st
  | Some storage => fst (tryCheckForNewBooks storage st now)
  end.

End NotificationService.

(** ** server/routes.ts: POST /api/favorites *)

Module Routes.

(** The handler on a request body; [None] is a body the insert schema
    rejects. The result is the store and the HTTP status. *)
Definition postFavorites (st : MemStorage.t) (now : Z)
    (body : option InsertFavorite.t) : MemStorage.t * Z :=
  match body with
  | None => (st, 400)
  | Some favoriteData =>
      match MemStorage.getUserByUsername st "demo" with
      | None => (st, 404)
      | Some user =>
          let favoriteData :=
            InsertFavorite.mk (User.id user) (InsertFavorite.bookId favoriteData) in
          match MemStorage.getBook st (InsertFavorite.bookId favoriteData) with
          | None => (st, 404)
          | Some _ =>
              if MemStorage.isFavorite st (User.id user)
                   (InsertFavorite.bookId favoriteData)
              then (st, 400)
              else (fst (MemStorage.addFavorite st now favoriteData), 201)
          end
      end
  end.

(** DELETE /api/favorites/:bookId; [bookId] is [parseInt] of the path
    parameter, [None] when that is NaN. *)
Definition deleteFavorites (st : MemStorage.t) (bookId : option Z) : MemStorage.t * Z :=
  match bookId with
  | None => (st, 400)
  | Some bookId =>
      match MemStorage.getUserByUsername st "demo" with
      | None => (st, 404)
      | Some user =>
          let '(st, removed) := MemStorage.removeFavorite st (User.id user) bookId in
          if negb removed then (st, 404) else (st, 200)
      end
  end.

(** The loop of GET /api/books/search over the books the external source
    returned: a book whose [googleId] is stored is skipped, any other is
    created and pushed on the response. *)
Definition saveNewBooks (st : MemStorage.t) (books : list Book.t)
    (googleBooks : list InsertBook.t) : MemStorage.t * list Book.t :=
  fold_left
    (fun (acc : MemStorage.t * list Book.t) bookData =>
       let '(st, books) := acc in
       match MemStorage.getBookByGoogleId st (InsertBook.googleId bookData) with
       | Some existingBook => (st, books)
       | None =>
           let '(st, newBook) := MemStorage.createBook st bookData in
           (st, books ++ [newBook])
       end)
    googleBooks (st, books).

(** GET /api/books/search. [query] is the query parameter when it is a
    string; [googleBooks] is what [fetchBooksFromGoogle] resolves to, [None]
    when it throws. The result is the store, the status and the books sent. *)
Definition getBooksSearch (st : MemStorage.t) (query : option string)
    (googleBooks : option (list InsertBook.t)) : MemStorage.t * Z * list Book.t :=
  match query with
  | None => (st, 400, [])
  | Some query =>
      if String.eqb query EmptyString then (st, 400, [])
      else
        let books := MemStorage.searchBooks st query in
        if Z.of_nat (List.length books) <? 5
        then match googleBooks with
             | Some googleBooks =>
                 let '(st, books) := saveNewBooks st books googleBooks in
                 (st, 200, books)
             | None => (st, 200, books)
             end
        else (st, 200, books)
  end.

End Routes.

(** ** shared/schema.ts: the fixed enumerations *)

Definition BOOK_CATEGORIES : list string :=
  [ "Picture Books"; "Early Readers"; "Middle Grade"; "Adventure"; "Fantasy";
    "Educational"; "Science Fiction"; "Mystery"; "Biography"; "Fairy Tales";
    "Bedtime Stories" ]%string.

Definition AGE_RANGES : list string :=
  [ "0-2 years"; "3-5 years"; "6-8 years"; "9-12 years" ]%string.

(** ** server/google-books-api.ts: [determineAgeRange] *)

Module GoogleBooksApi.

(** The properties of a volume's [volumeInfo] that [determineAgeRange]
    reads. *)
Record VolumeInfo := mkVolumeInfo {
  categories : option (list string);
  description : option string;
  pageCount : option Z
}.

(** The loop over the categories: the first category that names an age group
    decides. *)
Fixpoint categoryAgeRange (categories : list string) : option string :=
  match categories with
  | [] => None
  | category :: rest =>
      let lowercaseCategory := toLowerCase category in
      if str_includes lowercaseCategory "baby" || str_includes lowercaseCategory "toddler"
      then Some "0-2 years"%string
      else if str_includes lowercaseCategory "preschool"
              || str_includes lowercaseCategory "picture book"
      then Some "3-5 years"%string
      else if str_includes lowercaseCategory "elementary"
              || str_includes lowercaseCategory "early reader"
      then Some "6-8 years"%string
      else if str_includes lowercaseCategory "middle grade"
              || str_includes lowercaseCategory "preteen"
      then Some "9-12 years"%string
      else categoryAgeRange rest
  end.

Definition determineAgeRange (volumeInfo : VolumeInfo) : string :=
  let categories := match categories volumeInfo with Some cs => cs | None => [] end in
  match categoryAgeRange categories with
  | Some ageRange => ageRange
  | None =>
      let description :=
        match description volumeInfo with Some d => d | None => EmptyString end in
      if str_includes description "ages 0-2" || str_includes description "ages 0 to 2"
      then "0-2 years"%string
      else if str_includes description "ages 3-5" || str_includes description "ages 3 to 5"
      then "3-5 years"%string
      else if str_includes description "ages 6-8" || str_includes description "ages 6 to 8"
      then "6-8 years"%string
      else if str_includes description "ages 9-12"
              || str_includes description "ages 9 to 12"
      then "9-12 years"%string
      else
        let pageCount := match pageCount volumeInfo with Some n => n | None => 0 end in
        if pageCount <? 20 then "0-2 years"%string
        else if pageCount <? 50 then "3-5 years"%string
        else if pageCount <? 150 then "6-8 years"%string
        else "9-12 years"%string
  end.

End GoogleBooksApi.


(** ** Sequences of operations on the store *)

Inductive Op :=
| CreateUser (insertUser : InsertUser.t)
| CreateBook (insertBook : InsertBook.t)
| UpdateBook (id : Z) (bookUpdate : BookUpdate.t)
| CreateUserPreferences (prefs : InsertUserPreferences.t)
| UpdateUserPreferences (userId : Z) (prefsUpdate : UserPreferencesUpdate.t)
| AddFavorite (now : Z) (favorite : InsertFavorite.t)
| RemoveFavorite (userId bookId : Z)
| CreateNotification (now : Z) (notification : InsertNotification.t)
| MarkNotificationAsRead (id : Z)
| MarkAllNotificationsAsRead (userId : Z)
| AddRecentlyViewed (now : Z) (recentlyViewed : InsertRecentlyViewed.t)
| ClearRecentlyViewed (userId : Z)
| CreateAuthor (authorData : InsertAuthor.t)
| CreateBookSeries (seriesData : InsertBookSeries.t)
| FollowAuthor (now : Z) (follow : InsertFollowingAuthor.t)
| UnfollowAuthor (userId authorId : Z)
| FollowSeries (now : Z) (follow : InsertFollowingSeries.t)
| UnfollowSeries (userId seriesId : Z)
| FollowCategory (now : Z) (follow : InsertFollowingCategory.t)
| UnfollowCategory (userId : Z) (category : string)
| CheckForNewBooks (now : Z)
| PostFavorites (now : Z) (body : option InsertFavorite.t).

(** The store after one operation (the returned value is dropped). *)
Definition exec (st : MemStorage.t) (op : Op) : MemStorage.t :=
  match op with
  | CreateUser u => fst (MemStorage.createUser st u)
  | CreateBook b => fst (MemStorage.createBook st b)
  | UpdateBook id u => fst (MemStorage.updateBook st id u)
  | CreateUserPreferences p => fst (MemStorage.createUserPreferences st p)
  | UpdateUserPreferences uid u => fst (MemStorage.updateUserPreferences st uid u)
  | AddFavorite now f => fst (MemStorage.addFavorite st now f)
  | RemoveFavorite u b => fst (MemStorage.removeFavorite st u b)
  | CreateNotification now n => fst (MemStorage.createNotification st now n)
  | MarkNotificationAsRead id => fst (MemStorage.markNotificationAsRead st id)
  | MarkAllNotificationsAsRead u => fst (MemStorage.markAllNotificationsAsRead st u)
  | AddRecentlyViewed now rv => fst (MemStorage.addRecentlyViewed st now rv)
  | ClearRecentlyViewed u => fst (MemStorage.clearRecentlyViewed st u)
  | CreateAuthor a => fst (MemStorage.createAuthor st a)
  | CreateBookSeries s => fst (MemStorage.createBookSeries st s)
  | FollowAuthor now f => fst (MemStorage.followAuthor st now f)
  | UnfollowAuthor u a => fst (MemStorage.unfollowAuthor st u a)
  | FollowSeries now f => fst (MemStorage.followSeries st now f)
  | UnfollowSeries u s => fst (MemStorage.unfollowSeries st u s)
  | FollowCategory now f => fst (MemStorage.followCategory st now f)
  | UnfollowCategory u c => fst (MemStorage.unfollowCategory st u c)
  | CheckForNewBooks now =>
      NotificationService.checkForNewBooks
        (NotificationService.init StorageInstance.memStorage) st now
  | PostFavorites now body => fst (Routes.postFavorites st now body)
  end.

Definition run (ops : list Op) (st : MemStorage.t) : MemStorage.t :=
  fold_left exec ops st.

(** ** Well-formed stores

    What every store built by the constructor and the operations satisfies:
    in each collection the keys are distinct, a row sits under its own id, and
    the ids are below the collection's counter. *)

Fixpoint distinct_by {A : Type} (same : A -> A -> bool) (l : list A) : bool :=
  match l with
  | [] => true
  | x :: l' => negb (existsb (same x) l') && distinct_by same l'
  end.

Definition pair_eqb {A B : Type} (ea : A -> A -> bool) (eb : B -> B -> bool)
    (x y : A * B) : bool :=
  ea (fst x) (fst y) && eb (snd x) (snd y).

Definition table_ok {V : Type} (idf : V -> Z) (next : Z) (m : JsMap.t V) : bool :=
  distinct_by Z.eqb (JsMap.keys m)
  && forallb (fun kv => (idf (snd kv) =? fst kv) && (fst kv <? next)) m.

Definition wf (st : MemStorage.t) : bool :=
  table_ok User.id (MemStorage.userId st) (MemStorage.users st)
  && table_ok Book.id (MemStorage.bookId st) (MemStorage.books st)
  && table_ok UserPreferences.id (MemStorage.userPreferencesId st)
       (MemStorage.userPreferences st)
  && table_ok Favorite.id (MemStorage.favoriteId st) (MemStorage.favorites st)
  && table_ok Notification.id (MemStorage.notificationId st) (MemStorage.notifications st)
  && table_ok RecentlyViewed.id (MemStorage.recentlyViewedId st)
       (MemStorage.recentlyViewed st)
  && table_ok Author.id (MemStorage.authorId st) (MemStorage.authors st)
  && table_ok BookSeries.id (MemStorage.bookSeriesId st) (MemStorage.bookSeries st)
  && table_ok FollowingAuthor.id (MemStorage.followingAuthorId st)
       (MemStorage.followingAuthors st)
  && table_ok FollowingSeries.id (MemStorage.followingSeriesId st)
       (MemStorage.followingSeries st)
  && table_ok FollowingCategory.id (MemStorage.followingCategoryId st)
       (MemStorage.followingCategories st).

(** Rows of a link collection for one (user, target) pair, and "at most one
    row per pair". *)
Definition favoriteRows (st : MemStorage.t) (userId bookId : Z) : list Favorite.t :=
  filter (MemStorage.sameFavorite userId bookId) (JsMap.values (MemStorage.favorites st)).

Definition viewedRows (st : MemStorage.t) (userId bookId : Z) : list RecentlyViewed.t :=
  filter (MemStorage.sameViewed userId bookId)
         (JsMap.values (MemStorage.recentlyViewed st)).

Definition followedAuthorRows (st : MemStorage.t) (userId authorId : Z)
  : list FollowingAuthor.t :=
  filter (MemStorage.sameFollowedAuthor userId authorId)
         (JsMap.values (MemStorage.followingAuthors st)).

Definition followedSeriesRows (st : MemStorage.t) (userId seriesId : Z)
  : list FollowingSeries.t :=
  filter (MemStorage.sameFollowedSeries userId seriesId)
         (JsMap.values (MemStorage.followingSeries st)).

Definition followedCategoryRows (st : MemStorage.t) (userId : Z) (category : string)
  : list FollowingCategory.t :=
  filter (MemStorage.sameFollowedCategory userId category)
         (JsMap.values (MemStorage.followingCategories st)).

Definition favoriteKey (f : Favorite.t) : Z * Z :=
  (Favorite.userId f, Favorite.bookId f).

Definition viewedKey (e : RecentlyViewed.t) : Z * Z :=
  (RecentlyViewed.userId e, RecentlyViewed.bookId e).

Definition followedAuthorKey (e : FollowingAuthor.t) : Z * Z :=
  (FollowingAuthor.userId e, FollowingAuthor.authorId e).

Definition followedSeriesKey (e : FollowingSeries.t) : Z * Z :=
  (FollowingSeries.userId e, FollowingSeries.seriesId e).

Definition followedCategoryKey (e : FollowingCategory.t) : Z * string :=
  (FollowingCategory.userId e, FollowingCategory.category e).

Definition uniqueFavorites (st : MemStorage.t) : bool :=
  distinct_by (pair_eqb Z.eqb Z.eqb)
    (map favoriteKey (JsMap.values (MemStorage.favorites st))).

Definition uniqueViewed (st : MemStorage.t) : bool :=
  distinct_by (pair_eqb Z.eqb Z.eqb)
    (map viewedKey (JsMap.values (MemStorage.recentlyViewed st))).

Definition uniqueFollowedAuthors (st : MemStorage.t) : bool :=
  distinct_by (pair_eqb Z.eqb Z.eqb)
    (map followedAuthorKey (JsMap.values (MemStorage.followingAuthors st))).

Definition uniqueFollowedSeries (st : MemStorage.t) : bool :=
  distinct_by (pair_eqb Z.eqb Z.eqb)
    (map followedSeriesKey (JsMap.values (MemStorage.followingSeries st))).

Definition uniqueFollowedCategories (st : MemStorage.t) : bool :=
  distinct_by (pair_eqb Z.eqb String.eqb)
    (map followedCategoryKey (JsMap.values (MemStorage.followingCategories st))).

(** Every stored preferences row belongs to a user id that was already
    handed out (the schema's [references(() => users.id)]). *)
Definition preferencesReferToUsers (st : MemStorage.t) : bool :=
  forallb (fun p => UserPreferences.userId p <? MemStorage.userId st)
          (JsMap.values (MemStorage.userPreferences st)).

(** The match policy in the words of the specification, over the stored
    preference columns. *)
Definition specifiedMatch (prefs : UserPreferences.t) (book : Book.t) : bool :=
  let preferredAgeRanges :=
    match UserPreferences.preferredAgeRanges prefs with Some l => l | None => [] end in
  let preferredCategories :=
    match UserPreferences.preferredCategories prefs with Some l => l | None => [] end in
  ((Z.of_nat (List.length preferredAgeRanges) =? 0)
   || match Book.ageRange book with
      | Some a => includes preferredAgeRanges a
      | None => false
      end)
  || ((Z.of_nat (List.length preferredCategories) =? 0)
      || match Book.categories book with
         | Some cs => existsb (includes preferredCategories) cs
         | None => false
         end).

(** The books that pass the filters [getBooks] applies for [options]. *)
Definition passesFilters (options : BookOptions.t) (book : Book.t) : bool :=
  (if truthy_string (BookOptions.category options)
   then match BookOptions.category options with
        | Some c => MemStorage.hasCategory c book
        | None => true
        end
   else true)
  && (if truthy_string (BookOptions.ageRange options)
      then match BookOptions.ageRange options with
           | Some a => MemStorage.hasAgeRange a book
           | None => true
           end
      else true)
  && match BookOptions.isNew options with
     | Some n => MemStorage.hasIsNew n book
     | None => true
     end.

(** [options] without its paging. *)
Definition withoutPaging (options : BookOptions.t) : BookOptions.t :=
  BookOptions.mk (BookOptions.category options) (BookOptions.ageRange options)
                 (BookOptions.isNew options) None None.

(** The notification stored under [id] exists and is read. *)
Definition isReadAt (st : MemStorage.t) (id : Z) : bool :=
  match JsMap.get id (MemStorage.notifications st) with
  | Some n => Notification.isRead n
  | None => false
  end.

(** The user has a stored notification about the book whose title contains
    "New Book Release". *)
Definition notifiedAbout (st : MemStorage.t) (userId bookId : Z) : bool :=
  existsb
    (fun n =>
       (Notification.userId n =? userId)
       && match Notification.bookId n with
          | Some b => b =? bookId
          | None => false
          end
       && str_includes (Notification.title n) NotificationService.newBookRelease)
    (JsMap.values (MemStorage.notifications st)).

(** A run of the matcher. *)
Definition isCheckForNewBooks (op : Op) : bool :=
  match op with
  | CheckForNewBooks _ => true
  | _ => false
  end.

(** The update that sets nothing. *)
Definition emptyBookUpdate : BookUpdate.t :=
  BookUpdate.mk None None None None None None None None None None.

(** No two stored books share a [googleId] (the schema's [unique()]). *)
Definition uniqueGoogleIds (st : MemStorage.t) : bool :=
  distinct_by String.eqb (map Book.googleId (JsMap.values (MemStorage.books st))).

(** [options] with the given paging. *)
Definition withPaging (options : BookOptions.t) (limit offset : Z) : BookOptions.t :=
  BookOptions.mk (BookOptions.category options) (BookOptions.ageRange options)
                 (BookOptions.isNew options) (Some limit) (Some offset).

(** * Facts about the embedding *)

(** ** Lists *)

Lemma existsb_Zeqb_In (k : Z) (l : list Z) :
  existsb (Z.eqb k) l = true <-> In k l.
Proof.
  rewrite existsb_exists. split.
  - intros [x [Hx He]]. apply Z.eqb_eq in He. now subst.
  - intros H. exists k. split; [assumption | apply Z.eqb_refl].
Qed.

Section DistinctBy.
Context {A : Type} (eqb : A -> A -> bool).
Hypothesis eqb_spec : forall x y, eqb x y = true <-> x = y.

Lemma existsb_eqb_In (x : A) (l : list A) : existsb (eqb x) l = true <-> In x l.
Proof.
  rewrite existsb_exists. split.
  - intros [y [Hy He]]. apply eqb_spec in He. now subst.
  - intros H. exists x. split; [assumption | now apply eqb_spec].
Qed.

Lemma distinct_by_NoDup (l : list A) : distinct_by eqb l = true <-> NoDup l.
Proof.
  induction l as [|x l IH]; simpl.
  - split; [constructor | reflexivity].
  - rewrite andb_true_iff, negb_true_iff, IH. split.
    + intros [Hx Hl]. constructor; [|assumption].
      intros Hin. apply existsb_eqb_In in Hin. congruence.
    + intros Hnd. inversion Hnd as [|? ? Hx Hl]; subst. split; [|assumption].
      destruct (existsb (eqb x) l) eqn:E; [|reflexivity].
      apply existsb_eqb_In in E. contradiction.
Qed.

End DistinctBy.

Lemma pair_eqb_spec {A B : Type} (ea : A -> A -> bool) (eb : B -> B -> bool) :
  (forall x y, ea x y = true <-> x = y) ->
  (forall x y, eb x y = true <-> x = y) ->
  forall x y, pair_eqb ea eb x y = true <-> x = y.
Proof.
  intros Ha Hb [a b] [a' b']. unfold pair_eqb. simpl.
  rewrite andb_true_iff, Ha, Hb. split.
  - intros [-> ->]. reflexivity.
  - intros H. inversion H. auto.
Qed.

Lemma filter_filter {A : Type} (p q : A -> bool) (l : list A) :
  filter p (filter q l) = filter (fun x => q x && p x) l.
Proof.
  induction l as [|x l IH]; simpl; [reflexivity|].
  destruct (q x); simpl; [destruct (p x)|]; now rewrite IH.
Qed.

Lemma filter_nil_iff {A : Type} (p : A -> bool) (l : list A) :
  filter p l = [] <-> forall x, In x l -> p x = false.
Proof.
  induction l as [|x l IH]; simpl.
  - split; [intros _ y [] | reflexivity].
  - destruct (p x) eqn:E.
    + split; [discriminate|]. intros H. specialize (H x (or_introl eq_refl)). congruence.
    + rewrite IH. split.
      * intros H y [<-|Hy]; auto.
      * intros H y Hy. apply H. now right.
Qed.

Lemma find_none_iff {A : Type} (p : A -> bool) (l : list A) :
  find p l = None <-> forall x, In x l -> p x = false.
Proof.
  split; [apply find_none|].
  induction l as [|x l IH]; simpl; [reflexivity|]. intros H.
  rewrite (H x (or_introl eq_refl)). apply IH. intros y Hy. apply H. now right.
Qed.

Lemma find_filter_nil {A : Type} (p : A -> bool) (l : list A) :
  find p l = None <-> filter p l = [].
Proof. now rewrite find_none_iff, filter_nil_iff. Qed.

Lemma existsb_filter {A : Type} (p : A -> bool) (l : list A) :
  existsb p l = negb (Nat.eqb (List.length (filter p l)) 0).
Proof.
  induction l as [|x l IH]; simpl; [reflexivity|].
  destruct (p x); simpl; [reflexivity | assumption].
Qed.

(** In a list whose keys are distinct, at most one element has a given key. *)
Lemma NoDup_map_filter_le1 {A K : Type} (key : A -> K) (p : A -> bool) (k : K)
    (l : list A) :
  (forall x, p x = true -> key x = k) ->
  NoDup (map key l) -> (List.length (filter p l) <= 1)%nat.
Proof.
  intros Hp. induction l as [|x l IH]; simpl; intros Hnd; [lia|].
  inversion Hnd as [|? ? Hx Hl]; subst.
  destruct (p x) eqn:E; [|auto].
  simpl. assert (Hnil : filter p l = []).
  { apply filter_nil_iff. intros y Hy. destruct (p y) eqn:Ey; [|reflexivity].
    exfalso. apply Hx. rewrite (Hp x E), <- (Hp y Ey). now apply in_map. }
  rewrite Hnil. simpl. lia.
Qed.

(** ** The insertion-ordered map *)

Section JsMapFacts.
Context {V : Type}.
Implicit Types (m : JsMap.t V) (k : Z) (v : V).

Lemma get_none_iff k m : JsMap.get k m = None <-> ~ In k (JsMap.keys m).
Proof.
  induction m as [|[k' v'] m IH]; simpl.
  - split; [intros _ [] | reflexivity].
  - destruct (Z.eqb_spec k k').
    + split; [discriminate|]. intros H. exfalso. apply H. left. congruence.
    + rewrite IH. split.
      * intros H [He|Hin]; [congruence | contradiction].
      * intros H Hin. apply H. now right.
Qed.

Lemma get_some_In k v m : JsMap.get k m = Some v -> In (k, v) m.
Proof.
  induction m as [|[k' v'] m IH]; simpl; [discriminate|].
  destruct (Z.eqb_spec k k').
  - intros H. injection H as ->. left. congruence.
  - intros H. right. auto.
Qed.

Lemma In_get k v m : NoDup (JsMap.keys m) -> In (k, v) m -> JsMap.get k m = Some v.
Proof.
  induction m as [|[k' v'] m IH]; simpl; [intros _ []|].
  intros Hnd [He|Hin]; inversion Hnd as [|? ? Hx Hl]; subst.
  - injection He as -> ->. now rewrite Z.eqb_refl.
  - destruct (Z.eqb_spec k k') as [->|Hne]; [|auto].
    exfalso. apply Hx. change k' with (fst (k', v)). now apply in_map.
Qed.

Lemma get_set k' k v m :
  JsMap.get k' (JsMap.set k v m) = if k' =? k then Some v else JsMap.get k' m.
Proof.
  induction m as [|[k0 v0] m IH]; simpl.
  - destruct (k' =? k); reflexivity.
  - destruct (Z.eqb_spec k k0) as [->|Hne]; simpl.
    + destruct (Z.eqb_spec k' k0); reflexivity.
    + rewrite IH. destruct (Z.eqb_spec k' k0) as [->|Hne'].
      * destruct (Z.eqb_spec k0 k); [congruence | reflexivity].
      * reflexivity.
Qed.

Lemma set_fresh k v m : ~ In k (JsMap.keys m) -> JsMap.set k v m = m ++ [(k, v)].
Proof.
  induction m as [|[k' v'] m IH]; simpl; intros H; [reflexivity|].
  destruct (Z.eqb_spec k k') as [->|Hne].
  - exfalso. apply H. now left.
  - rewrite IH; [reflexivity|]. intros Hin. apply H. now right.
Qed.

Lemma keys_set_present k v m :
  In k (JsMap.keys m) -> JsMap.keys (JsMap.set k v m) = JsMap.keys m.
Proof.
  induction m as [|[k' v'] m IH]; simpl; [intros []|].
  intros H. destruct (Z.eqb_spec k k') as [->|Hne]; simpl; [reflexivity|].
  f_equal. apply IH. destruct H; [congruence | assumption].
Qed.

Lemma In_set k v m kv : In kv (JsMap.set k v m) -> kv = (k, v) \/ In kv m.
Proof.
  induction m as [|[k' v'] m IH]; simpl.
  - intros [H|[]]. now left.
  - destruct (Z.eqb_spec k k') as [->|Hne]; simpl.
    + intros [H|H]; [now left | right; now right].
    + intros [H|H]; [right; now left|].
      destruct (IH H); [now left | right; now right].
Qed.

Lemma NoDup_keys_set k v m :
  NoDup (JsMap.keys m) -> NoDup (JsMap.keys (JsMap.set k v m)).
Proof.
  intros Hnd. destruct (in_dec Z.eq_dec k (JsMap.keys m)) as [Hin|Hout].
  - now rewrite keys_set_present.
  - rewrite set_fresh by assumption. unfold JsMap.keys. rewrite map_app. simpl.
    apply NoDup_app; [assumption | repeat constructor; intros [] |].
    intros x Hx [<-|[]]. contradiction.
Qed.

Lemma In_delete k m kv : In kv (JsMap.delete k m) -> In kv m.
Proof.
  induction m as [|[k' v'] m IH]; simpl; [intros []|].
  destruct (k =? k'); simpl; [now right|].
  intros [H|H]; [now left | right; auto].
Qed.

Lemma NoDup_map_delete {K : Type} (f : Z * V -> K) k m :
  NoDup (map f m) -> NoDup (map f (JsMap.delete k m)).
Proof.
  induction m as [|[k' v'] m IH]; simpl; [auto|].
  intros Hnd. inversion Hnd as [|? ? Hx Hl]; subst.
  destruct (k =? k'); simpl; [assumption|].
  constructor; [|auto]. intros Hin. apply Hx.
  apply in_map_iff in Hin. destruct Hin as [kv [He Hkv]].
  apply in_map_iff. exists kv. split; [assumption|]. eapply In_delete; eassumption.
Qed.

Lemma get_delete_other k' k m :
  k' <> k -> JsMap.get k' (JsMap.delete k m) = JsMap.get k' m.
Proof.
  intros Hne. induction m as [|[k0 v0] m IH]; simpl; [reflexivity|].
  destruct (Z.eqb_spec k k0) as [->|Hne0]; simpl.
  - destruct (Z.eqb_spec k' k0); [congruence | reflexivity].
  - now rewrite IH.
Qed.

Lemma values_app (m1 m2 : JsMap.t V) :
  JsMap.values (m1 ++ m2) = JsMap.values m1 ++ JsMap.values m2.
Proof. unfold JsMap.values. apply map_app. Qed.

Lemma In_values v m : In v (JsMap.values m) <-> exists k, In (k, v) m.
Proof.
  unfold JsMap.values. rewrite in_map_iff. split.
  - intros [[k v'] [He Hin]]. simpl in He. subst. eauto.
  - intros [k Hin]. exists (k, v). auto.
Qed.

(** If no stored row satisfies [p] and the written row does, [find p] over
    the values returns the written row. *)
Lemma find_set_only (p : V -> bool) k v m :
  (forall x, In x (JsMap.values m) -> p x = false) -> p v = true ->
  find p (JsMap.values (JsMap.set k v m)) = Some v.
Proof.
  intros Hm Hv. induction m as [|[k' v'] m IH]; simpl.
  - now rewrite Hv.
  - destruct (k =? k'); simpl.
    + now rewrite Hv.
    + rewrite (Hm v') by now left. apply IH. intros x Hx. apply Hm. now right.
Qed.

(** *** Tables: a map whose rows carry their own key as id *)

Variable idf : V -> Z.

Lemma table_ok_iff next m :
  table_ok idf next m = true <->
  NoDup (JsMap.keys m) /\ (forall k v, In (k, v) m -> idf v = k /\ k < next).
Proof.
  unfold table_ok. rewrite andb_true_iff, forallb_forall.
  rewrite (distinct_by_NoDup Z.eqb Z.eqb_eq). split; intros [Hnd Hall]; split; trivial.
  - intros k v Hin. specialize (Hall _ Hin). simpl in Hall.
    apply andb_true_iff in Hall. destruct Hall as [H1 H2].
    apply Z.eqb_eq in H1. apply Z.ltb_lt in H2. auto.
  - intros [k v] Hin. simpl. destruct (Hall _ _ Hin) as [H1 H2].
    apply andb_true_iff. split; [now apply Z.eqb_eq | now apply Z.ltb_lt].
Qed.

Lemma table_ok_empty next : table_ok idf next JsMap.empty = true.
Proof. reflexivity. Qed.

Lemma table_ok_mono next next' m :
  next <= next' -> table_ok idf next m = true -> table_ok idf next' m = true.
Proof.
  rewrite !table_ok_iff. intros Hle [Hnd Hall]. split; [assumption|].
  intros k v Hin. destruct (Hall _ _ Hin). split; [assumption | lia].
Qed.

Lemma table_ok_set next k v m :
  idf v = k -> k < next ->
  table_ok idf next m = true -> table_ok idf next (JsMap.set k v m) = true.
Proof.
  rewrite !table_ok_iff. intros Hid Hlt [Hnd Hall]. split.
  - now apply NoDup_keys_set.
  - intros k' v' Hin. apply In_set in Hin. destruct Hin as [He|Hin]; [|auto].
    injection He as -> ->. auto.
Qed.

(** Writing a new row under the counter's value, then the counter moves on. *)
Lemma table_ok_insert next v m :
  idf v = next ->
  table_ok idf next m = true -> table_ok idf (next + 1) (JsMap.set next v m) = true.
Proof.
  intros Hid Hok. apply table_ok_set; [assumption | lia |].
  apply table_ok_mono with next; [lia | assumption].
Qed.

Lemma table_ok_delete next k m :
  table_ok idf next m = true -> table_ok idf next (JsMap.delete k m) = true.
Proof.
  rewrite !table_ok_iff. intros [Hnd Hall]. split.
  - now apply NoDup_map_delete.
  - intros k' v' Hin. apply Hall. eapply In_delete; eassumption.
Qed.

Lemma table_ok_fresh next m :
  table_ok idf next m = true -> ~ In next (JsMap.keys m).
Proof.
  rewrite table_ok_iff. intros [_ Hall] Hin.
  unfold JsMap.keys in Hin. apply in_map_iff in Hin.
  destruct Hin as [[k v] [He Hin]]. simpl in He. subst.
  destruct (Hall _ _ Hin). lia.
Qed.

Lemma table_ok_value next m v :
  table_ok idf next m = true -> In v (JsMap.values m) ->
  In (idf v, v) m /\ idf v < next.
Proof.
  rewrite table_ok_iff. intros [_ Hall] Hin. apply In_values in Hin.
  destruct Hin as [k Hin]. destruct (Hall _ _ Hin) as [He Hlt]. subst. auto.
Qed.

Lemma table_ok_find_get next m (p : V -> bool) v :
  table_ok idf next m = true -> find p (JsMap.values m) = Some v ->
  JsMap.get (idf v) m = Some v /\ idf v < next.
Proof.
  intros Hok Hf. apply find_some in Hf. destruct Hf as [Hin _].
  destruct (table_ok_value _ _ _ Hok Hin) as [Hin' Hlt]. split; [|assumption].
  apply In_get; [|assumption]. apply table_ok_iff in Hok. tauto.
Qed.

(** The row [find] returns is the first one that satisfies [p]; writing or
    deleting under its id touches exactly that position. *)
Lemma table_find_split next m (p : V -> bool) v :
  table_ok idf next m = true -> find p (JsMap.values m) = Some v ->
  exists m1 m2,
    m = m1 ++ (idf v, v) :: m2
    /\ (forall x, In x (JsMap.values m1) -> p x = false)
    /\ p v = true
    /\ JsMap.delete (idf v) m = m1 ++ m2
    /\ (forall v', JsMap.set (idf v) v' m = m1 ++ (idf v, v') :: m2).
Proof.
  rewrite table_ok_iff. intros [Hnd Hall].
  induction m as [|[k0 v0] m IH]; simpl; [discriminate|].
  inversion Hnd as [|? ? Hx Hl]; subst.
  assert (Hk0 : idf v0 = k0) by (apply (Hall k0 v0); now left).
  destruct (p v0) eqn:E.
  - intros H. injection H as <-. exists [], m. rewrite Hk0, Z.eqb_refl. simpl.
    repeat split; auto. intros x [].
  - intros Hf.
    destruct (IH Hl) as [m1 [m2 [Hm [Hno [Hp [Hdel Hset]]]]]]; [|assumption|].
    { intros k v' Hin. apply Hall. now right. }
    assert (Hne : idf v <> k0).
    { intros He. apply Hx. rewrite <- He. unfold JsMap.keys.
      change (idf v) with (fst (idf v, v)). apply in_map. rewrite Hm.
      apply in_or_app. right. now left. }
    exists ((k0, v0) :: m1), m2.
    destruct (Z.eqb_spec (idf v) k0) as [He|_]; [contradiction|].
    simpl. repeat split.
    + now rewrite Hm at 1.
    + intros x [<-|Hx']; auto.
    + assumption.
    + now rewrite Hdel.
    + intros v'. now rewrite Hset.
Qed.

(** A fold of writes over rows that all sit further down leaves the head. *)
Lemma fold_set_cons (g : V -> V) (l : list V) k0 v0 m :
  (forall n, In n l -> idf n <> k0) ->
  fold_left (fun m n => JsMap.set (idf n) (g n) m) l ((k0, v0) :: m)
  = (k0, v0) :: fold_left (fun m n => JsMap.set (idf n) (g n) m) l m.
Proof.
  revert m. induction l as [|n l IH]; intros m Hl; simpl; [reflexivity|].
  destruct (Z.eqb_spec (idf n) k0) as [He|_].
  - exfalso. apply (Hl n); [now left | assumption].
  - apply IH. intros n' Hn'. apply Hl. now right.
Qed.

(** Collect the rows that satisfy [p], then write [g row] back under each
    row's id: every such row is replaced in place, nothing else moves. *)
Lemma fold_set_filter (p : V -> bool) (g : V -> V) next m :
  table_ok idf next m = true ->
  fold_left (fun m n => JsMap.set (idf n) (g n) m) (filter p (JsMap.values m)) m
  = map (fun kv => (fst kv, if p (snd kv) then g (snd kv) else snd kv)) m.
Proof.
  rewrite table_ok_iff. intros [Hnd Hall].
  induction m as [|[k0 v0] m IH]; simpl; [reflexivity|].
  inversion Hnd as [|? ? Hx Hl]; subst.
  assert (Hk0 : idf v0 = k0) by (apply (Hall k0 v0); now left).
  assert (Hrest : forall n, In n (filter p (JsMap.values m)) -> idf n <> k0).
  { intros n Hn. apply filter_In in Hn. destruct Hn as [Hn _].
    apply In_values in Hn. destruct Hn as [k Hin].
    assert (idf n = k) by (apply (Hall k n); now right). subst k.
    intros He. apply Hx. rewrite <- He. unfold JsMap.keys.
    change (idf n) with (fst (idf n, n)). now apply in_map. }
  assert (IH' := IH Hl (fun k v Hin => Hall k v (or_intror Hin))).
  destruct (p v0); simpl.
  - rewrite Hk0, Z.eqb_refl. rewrite fold_set_cons by assumption. now rewrite IH'.
  - rewrite fold_set_cons by assumption. now rewrite IH'.
Qed.

End JsMapFacts.

(** ** Well-formedness is kept by every operation *)

Arguments table_ok {V} idf next m : simpl never.

Lemma table_ok_get {V : Type} (idf : V -> Z) next (m : JsMap.t V) k v :
  table_ok idf next m = true -> JsMap.get k m = Some v -> idf v = k /\ k < next.
Proof.
  intros Hok Hg. apply get_some_In in Hg. apply table_ok_iff in Hok.
  destruct Hok as [_ Hall]. auto.
Qed.

Lemma table_ok_map {V : Type} (idf : V -> Z) (f : V -> V) next (m : JsMap.t V) :
  (forall v, idf (f v) = idf v) ->
  table_ok idf next m = true ->
  table_ok idf next (map (fun kv => (fst kv, f (snd kv))) m) = true.
Proof.
  rewrite !table_ok_iff. intros Hf [Hnd Hall]. split.
  - unfold JsMap.keys. rewrite map_map. simpl. exact Hnd.
  - intros k v Hin. apply in_map_iff in Hin. destruct Hin as [[k' v'] [He Hin]].
    simpl in He. injection He as <- <-. rewrite Hf. auto.
Qed.

Lemma table_ok_fold_delete {V : Type} (idf : V -> Z) (A : Type) (key : A -> Z)
    next (l : list A) (m : JsMap.t V) :
  table_ok idf next m = true ->
  table_ok idf next (fold_left (fun m x => JsMap.delete (key x) m) l m) = true.
Proof.
  revert m. induction l as [|x l IH]; intros m Hok; simpl; [assumption|].
  apply IH. now apply table_ok_delete.
Qed.

(** The per-row writes of [markAllNotificationsAsRead] and the per-row
    deletes of [clearRecentlyViewed], gathered on the collection. *)
Lemma markAll_fold (l : list Notification.t) (st : MemStorage.t) :
  fold_left
    (fun st n =>
       MemStorage.set_notifications
         (JsMap.set (Notification.id n) (MemStorage.withIsReadTrue n)
                    (MemStorage.notifications st)) st) l st
  = MemStorage.set_notifications
      (fold_left (fun m n => JsMap.set (Notification.id n) (MemStorage.withIsReadTrue n) m)
                 l (MemStorage.notifications st)) st.
Proof.
  revert st. induction l as [|n l IH]; intros st; simpl.
  - now destruct st.
  - rewrite IH. reflexivity.
Qed.

Lemma clear_fold (l : list RecentlyViewed.t) (st : MemStorage.t) :
  fold_left
    (fun st entry =>
       MemStorage.set_recentlyViewed
         (JsMap.delete (RecentlyViewed.id entry) (MemStorage.recentlyViewed st)) st) l st
  = MemStorage.set_recentlyViewed
      (fold_left (fun m entry => JsMap.delete (RecentlyViewed.id entry) m)
                 l (MemStorage.recentlyViewed st)) st.
Proof.
  revert st. induction l as [|n l IH]; intros st; simpl.
  - now destruct st.
  - rewrite IH. reflexivity.
Qed.

Lemma markAll_notifications (st : MemStorage.t) (userId : Z) :
  wf st = true ->
  fst (MemStorage.markAllNotificationsAsRead st userId)
  = MemStorage.set_notifications
      (map (fun kv => (fst kv,
                       if Notification.userId (snd kv) =? userId
                       then MemStorage.withIsReadTrue (snd kv) else snd kv))
           (MemStorage.notifications st)) st.
Proof.
  intros Hwf. unfold MemStorage.markAllNotificationsAsRead. simpl.
  rewrite markAll_fold. f_equal.
  apply (fold_set_filter Notification.id
           (fun n => Notification.userId n =? userId) MemStorage.withIsReadTrue
           (MemStorage.notificationId st)).
  unfold wf in Hwf. rewrite !andb_true_iff in Hwf. tauto.
Qed.

Ltac wf_open :=
  let H := fresh "Hwf" in
  intros H; unfold wf in H; rewrite !andb_true_iff in H;
  destruct H as [[[[[[[[[[Husers Hbooks] Hprefs] Hfavs] Hnotifs] Hviewed]
                       Hauthors] Hseries] Hfauthors] Hfseries] Hfcats].

Ltac wf_close :=
  unfold wf; rewrite !andb_true_iff; repeat split; simpl;
  try assumption;
  try (apply table_ok_insert; [reflexivity | assumption]);
  try (apply table_ok_delete; assumption).

Lemma wf_createUserPreferences st p :
  wf st = true -> wf (fst (MemStorage.createUserPreferences st p)) = true.
Proof. wf_open. wf_close. Qed.

Lemma wf_createUser st u : wf st = true -> wf (fst (MemStorage.createUser st u)) = true.
Proof. wf_open. wf_close. Qed.

Lemma wf_createBook st b : wf st = true -> wf (fst (MemStorage.createBook st b)) = true.
Proof. wf_open. wf_close. Qed.

Lemma wf_updateBook st id u :
  wf st = true -> wf (fst (MemStorage.updateBook st id u)) = true.
Proof.
  wf_open. unfold MemStorage.updateBook.
  destruct (JsMap.get id (MemStorage.books st)) as [book|] eqn:E; wf_close.
  destruct (table_ok_get _ _ _ _ _ Hbooks E) as [Hid Hlt].
  apply table_ok_set; assumption.
Qed.

Lemma wf_updateUserPreferences st uid u :
  wf st = true -> wf (fst (MemStorage.updateUserPreferences st uid u)) = true.
Proof.
  wf_open. unfold MemStorage.updateUserPreferences.
  destruct (find _ _) as [prefs|] eqn:E; wf_close.
  destruct (table_ok_find_get _ _ _ _ _ Hprefs E) as [_ Hlt].
  apply table_ok_set; [reflexivity | assumption | assumption].
Qed.

Lemma wf_addFavorite st now f :
  wf st = true -> wf (fst (MemStorage.addFavorite st now f)) = true.
Proof. wf_open. wf_close. Qed.

Lemma wf_removeFavorite st u b :
  wf st = true -> wf (fst (MemStorage.removeFavorite st u b)) = true.
Proof.
  wf_open. unfold MemStorage.removeFavorite. destruct (find _ _); wf_close.
Qed.

Lemma wf_createNotification st now n :
  wf st = true -> wf (fst (MemStorage.createNotification st now n)) = true.
Proof. wf_open. wf_close. Qed.

Lemma wf_markNotificationAsRead st id :
  wf st = true -> wf (fst (MemStorage.markNotificationAsRead st id)) = true.
Proof.
  wf_open. unfold MemStorage.markNotificationAsRead.
  destruct (JsMap.get id (MemStorage.notifications st)) as [n|] eqn:E; wf_close.
  destruct (table_ok_get _ _ _ _ _ Hnotifs E) as [Hid Hlt].
  apply table_ok_set; assumption.
Qed.

Lemma wf_markAllNotificationsAsRead st u :
  wf st = true -> wf (fst (MemStorage.markAllNotificationsAsRead st u)) = true.
Proof.
  intros Hwf. rewrite markAll_notifications by assumption. revert Hwf.
  wf_open. wf_close.
  apply (table_ok_map Notification.id
           (fun n => if Notification.userId n =? u then MemStorage.withIsReadTrue n else n));
    [|assumption].
  intros v. destruct (Notification.userId v =? u); reflexivity.
Qed.

Lemma wf_addRecentlyViewed st now rv :
  wf st = true -> wf (fst (MemStorage.addRecentlyViewed st now rv)) = true.
Proof.
  wf_open. unfold MemStorage.addRecentlyViewed.
  destruct (find _ _) as [e|] eqn:E; wf_close.
  destruct (table_ok_find_get _ _ _ _ _ Hviewed E) as [_ Hlt].
  apply table_ok_set; [reflexivity | assumption | assumption].
Qed.

Lemma wf_clearRecentlyViewed st u :
  wf st = true -> wf (fst (MemStorage.clearRecentlyViewed st u)) = true.
Proof.
  wf_open. unfold MemStorage.clearRecentlyViewed. simpl. rewrite clear_fold.
  wf_close. now apply table_ok_fold_delete.
Qed.

Lemma wf_createAuthor st a : wf st = true -> wf (fst (MemStorage.createAuthor st a)) = true.
Proof. wf_open. wf_close. Qed.

Lemma wf_createBookSeries st s :
  wf st = true -> wf (fst (MemStorage.createBookSeries st s)) = true.
Proof. wf_open. wf_close. Qed.

Lemma wf_followAuthor st now f :
  wf st = true -> wf (fst (MemStorage.followAuthor st now f)) = true.
Proof. wf_open. unfold MemStorage.followAuthor. destruct (find _ _); wf_close. Qed.

Lemma wf_unfollowAuthor st u a :
  wf st = true -> wf (fst (MemStorage.unfollowAuthor st u a)) = true.
Proof. wf_open. unfold MemStorage.unfollowAuthor. destruct (find _ _); wf_close. Qed.

Lemma wf_followSeries st now f :
  wf st = true -> wf (fst (MemStorage.followSeries st now f)) = true.
Proof. wf_open. unfold MemStorage.followSeries. destruct (find _ _); wf_close. Qed.

Lemma wf_unfollowSeries st u s :
  wf st = true -> wf (fst (MemStorage.unfollowSeries st u s)) = true.
Proof. wf_open. unfold MemStorage.unfollowSeries. destruct (find _ _); wf_close. Qed.

Lemma wf_followCategory st now f :
  wf st = true -> wf (fst (MemStorage.followCategory st now f)) = true.
Proof. wf_open. unfold MemStorage.followCategory. destruct (find _ _); wf_close. Qed.

Lemma wf_unfollowCategory st u c :
  wf st = true -> wf (fst (MemStorage.unfollowCategory st u c)) = true.
Proof. wf_open. unfold MemStorage.unfollowCategory. destruct (find _ _); wf_close. Qed.

Lemma wf_fold {A : Type} (step : MemStorage.t -> A -> MemStorage.t) (l : list A) :
  (forall st x, wf st = true -> wf (step st x) = true) ->
  forall st, wf st = true -> wf (fold_left step l st) = true.
Proof.
  intros Hstep. induction l as [|x l IH]; intros st Hwf; simpl; auto.
Qed.

(** The storage object of the program has no [getNewReleases]: the [try]
    block throws at its first statement, before any write, and the run
    leaves the store as it is. *)
Lemma tryCheckForNewBooks_memStorage st now :
  NotificationService.tryCheckForNewBooks StorageInstance.memStorage st now
  = (st, Throw "TypeError: this.storage.getNewReleases is not a function").
Proof. reflexivity. Qed.

Lemma checkForNewBooks_memStorage st now :
  NotificationService.checkForNewBooks
    (NotificationService.init StorageInstance.memStorage) st now = st.
Proof.
  unfold NotificationService.checkForNewBooks, NotificationService.init.
  now rewrite tryCheckForNewBooks_memStorage.
Qed.

Lemma wf_checkForNewBooks st now :
  wf st = true ->
  wf (NotificationService.checkForNewBooks
        (NotificationService.init StorageInstance.memStorage) st now) = true.
Proof. now rewrite checkForNewBooks_memStorage. Qed.

Lemma wf_postFavorites st now body :
  wf st = true -> wf (fst (Routes.postFavorites st now body)) = true.
Proof.
  intros Hwf. unfold Routes.postFavorites.
  destruct body as [f|]; [|assumption].
  destruct (MemStorage.getUserByUsername st "demo"); [|assumption].
  cbv zeta. destruct (MemStorage.getBook _ _); [|assumption].
  destruct (MemStorage.isFavorite _ _ _); [assumption|].
  cbn [fst]. now apply wf_addFavorite.
Qed.

Lemma wf_exec st op : wf st = true -> wf (exec st op) = true.
Proof.
  destruct op; unfold exec;
    [ apply wf_createUser | apply wf_createBook | apply wf_updateBook
    | apply wf_createUserPreferences | apply wf_updateUserPreferences
    | apply wf_addFavorite | apply wf_removeFavorite | apply wf_createNotification
    | apply wf_markNotificationAsRead | apply wf_markAllNotificationsAsRead
    | apply wf_addRecentlyViewed | apply wf_clearRecentlyViewed
    | apply wf_createAuthor | apply wf_createBookSeries | apply wf_followAuthor
    | apply wf_unfollowAuthor | apply wf_followSeries | apply wf_unfollowSeries
    | apply wf_followCategory | apply wf_unfollowCategory
    | apply wf_checkForNewBooks | apply wf_postFavorites ].
Qed.

Lemma wf_run ops st : wf st = true -> wf (run ops st) = true.
Proof. unfold run. apply wf_fold. intros. now apply wf_exec. Qed.

Lemma wf_new : wf MemStorage.new = true.
Proof. reflexivity. Qed.

(** * The claims *)

(** ** Notifications: read flags *)

Lemma get_map_values {V : Type} (f : V -> V) k (m : JsMap.t V) :
  JsMap.get k (map (fun kv => (fst kv, f (snd kv))) m) = option_map f (JsMap.get k m).
Proof.
  induction m as [|[k' v'] m IH]; simpl; [reflexivity|].
  destruct (k =? k'); [reflexivity | assumption].
Qed.

Lemma get_some_keys {V : Type} k (v : V) (m : JsMap.t V) :
  JsMap.get k m = Some v -> In k (JsMap.keys m).
Proof.
  intros H. apply get_some_In in H. unfold JsMap.keys.
  change k with (fst (k, v)). now apply in_map.
Qed.

Lemma wf_notifications st :
  wf st = true ->
  table_ok Notification.id (MemStorage.notificationId st) (MemStorage.notifications st)
  = true.
Proof. wf_open. assumption. Qed.

(** Operations other than the three notification methods and the matcher
    leave the notifications collection as it is. *)
Lemma exec_notifications_frame st op :
  match op with
  | CreateNotification _ _ | MarkNotificationAsRead _ | MarkAllNotificationsAsRead _
  | CheckForNewBooks _ => True
  | _ => MemStorage.notifications (exec st op) = MemStorage.notifications st
  end.
Proof.
  destruct op; unfold exec; try exact I;
    try (unfold MemStorage.updateBook, MemStorage.updateUserPreferences,
           MemStorage.removeFavorite, MemStorage.addRecentlyViewed,
           MemStorage.followAuthor, MemStorage.unfollowAuthor,
           MemStorage.followSeries, MemStorage.unfollowSeries,
           MemStorage.followCategory, MemStorage.unfollowCategory;
         repeat match goal with
                | |- context [find ?p ?l] => destruct (find p l)
                | |- context [JsMap.get ?k ?m] => destruct (JsMap.get k m)
                end;
         reflexivity).
  - unfold MemStorage.clearRecentlyViewed. cbn [fst]. rewrite clear_fold. reflexivity.
  - unfold Routes.postFavorites. destruct body; [|reflexivity].
    destruct (MemStorage.getUserByUsername st "demo"); [|reflexivity]. cbv zeta.
    destruct (MemStorage.getBook _ _); [|reflexivity].
    destruct (MemStorage.isFavorite _ _ _); reflexivity.
Qed.

Lemma isReadAt_createNotification st now n id :
  wf st = true -> isReadAt st id = true ->
  isReadAt (fst (MemStorage.createNotification st now n)) id = true.
Proof.
  intros Hwf Hr. unfold isReadAt in *. simpl. rewrite get_set.
  destruct (Z.eqb_spec id (MemStorage.notificationId st)) as [->|_]; [|assumption].
  exfalso. apply (table_ok_fresh _ _ _ (wf_notifications _ Hwf)).
  destruct (JsMap.get _ _) eqn:E; [|discriminate]. eapply get_some_keys; eassumption.
Qed.

Lemma isReadAt_markNotificationAsRead st k id :
  isReadAt st id = true ->
  isReadAt (fst (MemStorage.markNotificationAsRead st k)) id = true.
Proof.
  intros Hr. unfold MemStorage.markNotificationAsRead.
  destruct (JsMap.get k (MemStorage.notifications st)) as [n|] eqn:E; [|assumption].
  unfold isReadAt in *. simpl. rewrite get_set.
  destruct (id =? k); [reflexivity | assumption].
Qed.

Lemma isReadAt_markAllNotificationsAsRead st u id :
  wf st = true -> isReadAt st id = true ->
  isReadAt (fst (MemStorage.markAllNotificationsAsRead st u)) id = true.
Proof.
  intros Hwf Hr. rewrite markAll_notifications by assumption.
  unfold isReadAt in *. simpl.
  rewrite (get_map_values
             (fun n => if Notification.userId n =? u then MemStorage.withIsReadTrue n else n)).
  destruct (JsMap.get id (MemStorage.notifications st)) as [n|]; [|discriminate].
  simpl. destruct (Notification.userId n =? u); [reflexivity | assumption].
Qed.

Lemma isReadAt_fold {A : Type} (step : MemStorage.t -> A -> MemStorage.t) id (l : list A) :
  (forall st x, wf st = true -> wf (step st x) = true) ->
  (forall st x, wf st = true -> isReadAt st id = true -> isReadAt (step st x) id = true) ->
  forall st, wf st = true -> isReadAt st id = true -> isReadAt (fold_left step l st) id = true.
Proof.
  intros Hwf Hstep. induction l as [|x l IH]; intros st Hst Hr; simpl; auto.
Qed.

Lemma isReadAt_checkForNewBooks st now id :
  wf st = true -> isReadAt st id = true ->
  isReadAt (NotificationService.checkForNewBooks
              (NotificationService.init StorageInstance.memStorage) st now) id = true.
Proof. now rewrite checkForNewBooks_memStorage. Qed.

Lemma isReadAt_exec st op id :
  wf st = true -> isReadAt st id = true -> isReadAt (exec st op) id = true.
Proof.
  intros Hwf Hr. pose proof (exec_notifications_frame st op) as Hframe.
  destruct op;
    try (unfold isReadAt in *; rewrite Hframe; exact Hr); unfold exec.
  - now apply isReadAt_createNotification.
  - now apply isReadAt_markNotificationAsRead.
  - now apply isReadAt_markAllNotificationsAsRead.
  - now apply isReadAt_checkForNewBooks.
Qed.

Lemma isReadAt_run ops st id :
  wf st = true -> isReadAt st id = true -> isReadAt (run ops st) id = true.
Proof.
  unfold run. apply isReadAt_fold.
  - intros. now apply wf_exec.
  - intros. now apply isReadAt_exec.
Qed.

(** C9: a notification is created with [isRead = false], and under every
    sequence of store operations a notification that is read stays read: the
    flag only moves from false to true. *)
Theorem notification_isRead_one_way (st : MemStorage.t) :
  wf st = true ->
  (forall now n,
     let created := snd (MemStorage.createNotification st now n) in
     Notification.isRead created = false
     /\ JsMap.get (Notification.id created)
          (MemStorage.notifications (fst (MemStorage.createNotification st now n)))
        = Some created)
  /\ (forall ops id, isReadAt st id = true -> isReadAt (run ops st) id = true)
  /\ (forall id n, JsMap.get id (MemStorage.notifications st) = Some n ->
        isReadAt (fst (MemStorage.markNotificationAsRead st id)) id = true).
Proof.
  intros Hwf. repeat split.
  - simpl. rewrite get_set. now rewrite Z.eqb_refl.
  - intros ops id. now apply isReadAt_run.
  - intros id n E. unfold MemStorage.markNotificationAsRead, isReadAt.
    rewrite E. simpl. rewrite get_set. now rewrite Z.eqb_refl.
Qed.

Lemma notification_isRead_one_way_witness :
  let st := run [CreateNotification 5
                   (InsertNotification.mk 1 "Hello" "First message" (Some "info"%string) None);
                 MarkNotificationAsRead 1] MemStorage.new in
  isReadAt st 1 = true
  /\ isReadAt
       (run [CreateNotification 6
               (InsertNotification.mk 1 "Again" "Second message" (Some "info"%string) None);
             MarkAllNotificationsAsRead 1; CheckForNewBooks 7;
             MarkNotificationAsRead 1] st) 1 = true.
Proof.
  split; [reflexivity|].
  refine (proj1 (proj2 (notification_isRead_one_way _ _)) _ 1 _); reflexivity.
Defined.


(** ** markAllNotificationsAsRead *)

(** C10: for every [userId], also one without notifications,
    [markAllNotificationsAsRead(userId)] returns true, sets [isRead] on each
    of that user's notifications and changes no other field of them, leaves
    the other users' notifications and the rest of the store untouched, and
    afterwards [getUnreadNotificationCount(userId)] is 0. *)
Theorem markAllNotificationsAsRead_effect (st : MemStorage.t) (userId : Z) :
  wf st = true ->
  let st' := fst (MemStorage.markAllNotificationsAsRead st userId) in
  snd (MemStorage.markAllNotificationsAsRead st userId) = true
  /\ st' = MemStorage.set_notifications (MemStorage.notifications st') st
  /\ JsMap.keys (MemStorage.notifications st') = JsMap.keys (MemStorage.notifications st)
  /\ (forall id n,
        JsMap.get id (MemStorage.notifications st) = Some n ->
        exists n',
          JsMap.get id (MemStorage.notifications st') = Some n'
          /\ (Notification.userId n = userId ->
               Notification.isRead n' = true
               /\ Notification.id n' = Notification.id n
               /\ Notification.userId n' = Notification.userId n
               /\ Notification.title n' = Notification.title n
               /\ Notification.message n' = Notification.message n
               /\ Notification.type n' = Notification.type n
               /\ Notification.createdAt n' = Notification.createdAt n
               /\ Notification.bookId n' = Notification.bookId n)
          /\ (Notification.userId n <> userId -> n' = n))
  /\ MemStorage.getUnreadNotificationCount st' userId = 0.
Proof.
  intros Hwf st'. subst st'. rewrite markAll_notifications by assumption.
  cbn [snd MemStorage.markAllNotificationsAsRead].
  set (g := fun n => if Notification.userId n =? userId
                     then MemStorage.withIsReadTrue n else n).
  change (map _ (MemStorage.notifications st))
    with (map (fun kv => (fst kv, g (snd kv))) (MemStorage.notifications st)).
  repeat split.
  - unfold JsMap.keys. simpl. rewrite map_map. reflexivity.
  - intros id n Hn. exists (g n). simpl. rewrite get_map_values, Hn. simpl.
    unfold g. split; [reflexivity|]. split.
    + intros He. apply Z.eqb_eq in He. rewrite He. simpl. repeat split.
    + intros Hne. apply Z.eqb_neq in Hne. now rewrite Hne.
  - unfold MemStorage.getUnreadNotificationCount. simpl.
    match goal with |- Z.of_nat (List.length ?l) = 0 => assert (Hnil : l = []) end.
    { apply filter_nil_iff. intros x Hx. unfold JsMap.values in Hx.
      rewrite map_map in Hx. simpl in Hx. apply in_map_iff in Hx.
      destruct Hx as [[k n] [He _]]. simpl in He. subst x. unfold g.
      destruct (Notification.userId n =? userId) eqn:E; simpl.
      - now rewrite andb_false_r.
      - now rewrite E. }
    now rewrite Hnil.
Qed.

Lemma markAllNotificationsAsRead_effect_witness :
  let st := run [CreateNotification 5
                   (InsertNotification.mk 1 "Hello" "First message" (Some "info"%string) None);
                 CreateNotification 6
                   (InsertNotification.mk 2 "Other" "Not for user 1" (Some "info"%string) None)]
                MemStorage.new in
  MemStorage.getUnreadNotificationCount st 1 = 1
  /\ MemStorage.getUnreadNotificationCount
       (fst (MemStorage.markAllNotificationsAsRead st 1)) 1 = 0.
Proof.
  split; [reflexivity|].
  refine (proj2 (proj2 (proj2 (proj2 (markAllNotificationsAsRead_effect _ 1 _))))).
  reflexivity.
Defined.

(** ** Link collections: find, unlink, link *)

Lemma filter_head_find {A : Type} (p : A -> bool) (l : list A) e rest :
  filter p l = e :: rest -> find p l = Some e.
Proof.
  induction l as [|x l IH]; simpl; [discriminate|].
  destruct (p x); [|assumption]. intros H. injection H as -> _. reflexivity.
Qed.

Section LinkTable.
Context {V : Type} (idf : V -> Z).
Implicit Types (m : JsMap.t V) (p : V -> bool).

Lemma filter_values_split p m1 k e m2 :
  (forall x, In x (JsMap.values m1) -> p x = false) ->
  filter p (JsMap.values (m1 ++ (k, e) :: m2))
  = (if p e then [e] else []) ++ filter p (JsMap.values m2)
  /\ filter p (JsMap.values (m1 ++ m2)) = filter p (JsMap.values m2).
Proof.
  intros Hno. apply filter_nil_iff in Hno.
  rewrite !values_app, !filter_app, Hno. simpl. destruct (p e); auto.
Qed.

(** Unlinking: the first row that satisfies [p] goes, the others stay where
    they are. *)
Lemma table_unlink next m p e rest :
  table_ok idf next m = true -> filter p (JsMap.values m) = e :: rest ->
  find p (JsMap.values m) = Some e
  /\ exists m1 m2,
       m = m1 ++ (idf e, e) :: m2
       /\ JsMap.delete (idf e) m = m1 ++ m2
       /\ filter p (JsMap.values (m1 ++ m2)) = rest.
Proof.
  intros Hok Hf. pose proof (filter_head_find _ _ _ _ Hf) as Hfind.
  split; [assumption|].
  destruct (table_find_split idf _ _ _ _ Hok Hfind)
    as [m1 [m2 [Hm [Hno [Hp [Hdel _]]]]]].
  exists m1, m2. repeat split; try assumption.
  destruct (filter_values_split p m1 (idf e) e m2 Hno) as [H1 H2].
  rewrite H2. rewrite Hm, H1, Hp in Hf. simpl in Hf. now injection Hf.
Qed.

(** Linking when no row satisfies [p]: the new row goes last. *)
Lemma table_link next m p e :
  table_ok idf next m = true -> filter p (JsMap.values m) = [] -> p e = true ->
  find p (JsMap.values m) = None
  /\ JsMap.set next e m = m ++ [(next, e)]
  /\ filter p (JsMap.values (m ++ [(next, e)])) = [e].
Proof.
  intros Hok Hf Hp. split; [now apply find_filter_nil|]. split.
  - apply set_fresh. eapply table_ok_fresh; eassumption.
  - rewrite values_app, filter_app, Hf. simpl. now rewrite Hp.
Qed.

(** Uniqueness of a key over the rows, under the three ways a collection
    changes. *)
Context {K : Type} (key : V -> K).

Lemma unique_link m k e :
  (forall x, In x (JsMap.values m) -> key x <> key e) ->
  NoDup (map key (JsMap.values m)) ->
  NoDup (map key (JsMap.values (m ++ [(k, e)]))).
Proof.
  intros Hne Hnd. rewrite values_app, map_app. simpl.
  apply NoDup_app; [assumption | repeat constructor; intros [] |].
  intros x Hx [<-|[]]. apply in_map_iff in Hx. destruct Hx as [y [He Hy]].
  now apply (Hne y).
Qed.

Lemma unique_replace m1 m2 k e e' :
  key e' = key e ->
  NoDup (map key (JsMap.values (m1 ++ (k, e) :: m2))) ->
  NoDup (map key (JsMap.values (m1 ++ (k, e') :: m2))).
Proof.
  intros He. rewrite !values_app, !map_app. simpl. now rewrite He.
Qed.

Lemma unique_delete m k :
  NoDup (map key (JsMap.values m)) ->
  NoDup (map key (JsMap.values (JsMap.delete k m))).
Proof.
  unfold JsMap.values. rewrite !map_map. apply NoDup_map_delete.
Qed.

End LinkTable.

Lemma pairZ_eqb_spec (x y : Z * Z) : pair_eqb Z.eqb Z.eqb x y = true <-> x = y.
Proof. apply pair_eqb_spec; [apply Z.eqb_eq | apply Z.eqb_eq]. Qed.

Lemma pairZs_eqb_spec (x y : Z * string) :
  pair_eqb Z.eqb String.eqb x y = true <-> x = y.
Proof. apply pair_eqb_spec; [apply Z.eqb_eq | apply String.eqb_eq]. Qed.

Lemma pairZ_eqb_false (x y : Z * Z) : pair_eqb Z.eqb Z.eqb x y = false -> x <> y.
Proof. intros H He. apply pairZ_eqb_spec in He. congruence. Qed.

Lemma pairZs_eqb_false (x y : Z * string) :
  pair_eqb Z.eqb String.eqb x y = false -> x <> y.
Proof. intros H He. apply pairZs_eqb_spec in He. congruence. Qed.

Lemma wf_favorites st :
  wf st = true ->
  table_ok Favorite.id (MemStorage.favoriteId st) (MemStorage.favorites st) = true.
Proof. wf_open. assumption. Qed.

Lemma wf_recentlyViewed st :
  wf st = true ->
  table_ok RecentlyViewed.id (MemStorage.recentlyViewedId st)
    (MemStorage.recentlyViewed st) = true.
Proof. wf_open. assumption. Qed.

Lemma wf_followingAuthors st :
  wf st = true ->
  table_ok FollowingAuthor.id (MemStorage.followingAuthorId st)
    (MemStorage.followingAuthors st) = true.
Proof. wf_open. assumption. Qed.

Lemma wf_followingSeries st :
  wf st = true ->
  table_ok FollowingSeries.id (MemStorage.followingSeriesId st)
    (MemStorage.followingSeries st) = true.
Proof. wf_open. assumption. Qed.

Lemma wf_followingCategories st :
  wf st = true ->
  table_ok FollowingCategory.id (MemStorage.followingCategoryId st)
    (MemStorage.followingCategories st) = true.
Proof. wf_open. assumption. Qed.

Lemma isFavorite_rows st u b :
  MemStorage.isFavorite st u b = negb (Nat.eqb (List.length (favoriteRows st u b)) 0).
Proof. apply existsb_filter. Qed.

(** ** Unlink operations *)

(** C6, as the code has it: each unlink operation returns false and leaves
    the store as it is when the pair has no row; when it has rows, the first
    of them is deleted, every other row of the collection stays, and the
    result is true. After a successful [removeFavorite], [isFavorite] is
    false when that row was the pair's only one, and true when the pair had
    more rows. *)
Theorem unlink_operations (st : MemStorage.t) :
  wf st = true ->
  (forall u b,
     (favoriteRows st u b = [] -> MemStorage.removeFavorite st u b = (st, false))
     /\ (forall e rest,
           favoriteRows st u b = e :: rest ->
           exists m1 m2,
             MemStorage.favorites st = m1 ++ (Favorite.id e, e) :: m2
             /\ MemStorage.removeFavorite st u b
                = (MemStorage.set_favorites (m1 ++ m2) st, true)
             /\ favoriteRows (fst (MemStorage.removeFavorite st u b)) u b = rest
             /\ MemStorage.isFavorite (fst (MemStorage.removeFavorite st u b)) u b
                = negb (Nat.eqb (List.length rest) 0)))
  /\ (forall u a,
        (followedAuthorRows st u a = [] -> MemStorage.unfollowAuthor st u a = (st, false))
        /\ (forall e rest,
              followedAuthorRows st u a = e :: rest ->
              exists m1 m2,
                MemStorage.followingAuthors st = m1 ++ (FollowingAuthor.id e, e) :: m2
                /\ MemStorage.unfollowAuthor st u a
                   = (MemStorage.set_followingAuthors (m1 ++ m2) st, true)
                /\ followedAuthorRows (fst (MemStorage.unfollowAuthor st u a)) u a = rest))
  /\ (forall u s,
        (followedSeriesRows st u s = [] -> MemStorage.unfollowSeries st u s = (st, false))
        /\ (forall e rest,
              followedSeriesRows st u s = e :: rest ->
              exists m1 m2,
                MemStorage.followingSeries st = m1 ++ (FollowingSeries.id e, e) :: m2
                /\ MemStorage.unfollowSeries st u s
                   = (MemStorage.set_followingSeries (m1 ++ m2) st, true)
                /\ followedSeriesRows (fst (MemStorage.unfollowSeries st u s)) u s = rest))
  /\ (forall u c,
        (followedCategoryRows st u c = [] ->
         MemStorage.unfollowCategory st u c = (st, false))
        /\ (forall e rest,
              followedCategoryRows st u c = e :: rest ->
              exists m1 m2,
                MemStorage.followingCategories st
                = m1 ++ (FollowingCategory.id e, e) :: m2
                /\ MemStorage.unfollowCategory st u c
                   = (MemStorage.set_followingCategories (m1 ++ m2) st, true)
                /\ followedCategoryRows (fst (MemStorage.unfollowCategory st u c)) u c
                   = rest)).
Proof.
  intros Hwf. repeat split.
  - intros Hnil. unfold MemStorage.removeFavorite.
    now rewrite (proj2 (find_filter_nil _ _) Hnil).
  - intros e rest Hrows.
    destruct (table_unlink Favorite.id _ _ _ _ _ (wf_favorites _ Hwf) Hrows)
      as [Hfind [m1 [m2 [Hm [Hdel Hrest]]]]].
    exists m1, m2. unfold MemStorage.removeFavorite. rewrite Hfind, Hdel.
    repeat split; try assumption.
    rewrite isFavorite_rows. unfold favoriteRows. cbn [fst MemStorage.favorites
      MemStorage.set_favorites]. now rewrite Hrest.
  - intros Hnil. unfold MemStorage.unfollowAuthor.
    now rewrite (proj2 (find_filter_nil _ _) Hnil).
  - intros e rest Hrows.
    destruct (table_unlink FollowingAuthor.id _ _ _ _ _ (wf_followingAuthors _ Hwf) Hrows)
      as [Hfind [m1 [m2 [Hm [Hdel Hrest]]]]].
    exists m1, m2. unfold MemStorage.unfollowAuthor. rewrite Hfind, Hdel.
    repeat split; assumption.
  - intros Hnil. unfold MemStorage.unfollowSeries.
    now rewrite (proj2 (find_filter_nil _ _) Hnil).
  - intros e rest Hrows.
    destruct (table_unlink FollowingSeries.id _ _ _ _ _ (wf_followingSeries _ Hwf) Hrows)
      as [Hfind [m1 [m2 [Hm [Hdel Hrest]]]]].
    exists m1, m2. unfold MemStorage.unfollowSeries. rewrite Hfind, Hdel.
    repeat split; assumption.
  - intros Hnil. unfold MemStorage.unfollowCategory.
    now rewrite (proj2 (find_filter_nil _ _) Hnil).
  - intros e rest Hrows.
    destruct (table_unlink FollowingCategory.id _ _ _ _ _
                (wf_followingCategories _ Hwf) Hrows)
      as [Hfind [m1 [m2 [Hm [Hdel Hrest]]]]].
    exists m1, m2. unfold MemStorage.unfollowCategory. rewrite Hfind, Hdel.
    repeat split; assumption.
Qed.

Lemma unlink_operations_witness :
  let st := run [AddFavorite 10 (InsertFavorite.mk 1 7)] MemStorage.new in
  MemStorage.removeFavorite st 1 8 = (st, false)
  /\ MemStorage.isFavorite (fst (MemStorage.removeFavorite st 1 7)) 1 7 = false.
Proof.
  pose (st := run [AddFavorite 10 (InsertFavorite.mk 1 7)] MemStorage.new).
  destruct (unlink_operations st eq_refl) as [Hfav _].
  split.
  - exact (proj1 (Hfav 1 8) eq_refl).
  - destruct (proj2 (Hfav 1 7) (Favorite.mk 1 1 7 10) [] eq_refl)
      as [m1 [m2 [_ [_ [_ H]]]]].
    exact H.
Defined.

(** C6 as stated fails: [addFavorite] stores a second row for a pair, then a
    successful [removeFavorite] leaves [isFavorite] true. *)
Lemma removeFavorite_duplicate_counterexample :
  let st := run [AddFavorite 10 (InsertFavorite.mk 1 7);
                 AddFavorite 20 (InsertFavorite.mk 1 7)] MemStorage.new in
  snd (MemStorage.removeFavorite st 1 7) = true
  /\ MemStorage.isFavorite (fst (MemStorage.removeFavorite st 1 7)) 1 7 = true.
Proof. split; reflexivity. Qed.

(** ** Follow operations *)

Lemma uniqueFollowedAuthors_iff st :
  uniqueFollowedAuthors st = true
  <-> NoDup (map followedAuthorKey (JsMap.values (MemStorage.followingAuthors st))).
Proof. apply distinct_by_NoDup. apply pairZ_eqb_spec. Qed.

Lemma uniqueFollowedSeries_iff st :
  uniqueFollowedSeries st = true
  <-> NoDup (map followedSeriesKey (JsMap.values (MemStorage.followingSeries st))).
Proof. apply distinct_by_NoDup. apply pairZ_eqb_spec. Qed.

Lemma uniqueFollowedCategories_iff st :
  uniqueFollowedCategories st = true
  <-> NoDup (map followedCategoryKey (JsMap.values (MemStorage.followingCategories st))).
Proof. apply distinct_by_NoDup. apply pairZs_eqb_spec. Qed.

Lemma followAuthor_unique st now f :
  wf st = true -> uniqueFollowedAuthors st = true ->
  uniqueFollowedAuthors (fst (MemStorage.followAuthor st now f)) = true.
Proof.
  intros Hwf Hu. unfold MemStorage.followAuthor.
  destruct (find _ _) as [e|] eqn:E; [assumption|].
  apply uniqueFollowedAuthors_iff. apply uniqueFollowedAuthors_iff in Hu. simpl.
  rewrite set_fresh by (eapply table_ok_fresh; apply wf_followingAuthors; assumption).
  apply unique_link; [|assumption].
  intros x Hx. apply pairZ_eqb_false. exact (find_none _ _ E x Hx).
Qed.

Lemma followSeries_unique st now f :
  wf st = true -> uniqueFollowedSeries st = true ->
  uniqueFollowedSeries (fst (MemStorage.followSeries st now f)) = true.
Proof.
  intros Hwf Hu. unfold MemStorage.followSeries.
  destruct (find _ _) as [e|] eqn:E; [assumption|].
  apply uniqueFollowedSeries_iff. apply uniqueFollowedSeries_iff in Hu. simpl.
  rewrite set_fresh by (eapply table_ok_fresh; apply wf_followingSeries; assumption).
  apply unique_link; [|assumption].
  intros x Hx. apply pairZ_eqb_false. exact (find_none _ _ E x Hx).
Qed.

Lemma followCategory_unique st now f :
  wf st = true -> uniqueFollowedCategories st = true ->
  uniqueFollowedCategories (fst (MemStorage.followCategory st now f)) = true.
Proof.
  intros Hwf Hu. unfold MemStorage.followCategory.
  destruct (find _ _) as [e|] eqn:E; [assumption|].
  apply uniqueFollowedCategories_iff. apply uniqueFollowedCategories_iff in Hu. simpl.
  rewrite set_fresh by (eapply table_ok_fresh; apply wf_followingCategories; assumption).
  apply unique_link; [|assumption].
  intros x Hx. apply pairZs_eqb_false. exact (find_none _ _ E x Hx).
Qed.

(** C7: each follow operation is idempotent. When the pair already has a row,
    the operation returns that row and the store is not modified; otherwise
    exactly one row is appended (fresh id, the pair, the clock's time) and
    returned. A collection without duplicate pairs stays without them. *)
Theorem follow_operations_idempotent (st : MemStorage.t) (now : Z) :
  wf st = true ->
  (forall f,
     let u := InsertFollowingAuthor.userId f in
     let a := InsertFollowingAuthor.authorId f in
     (forall e rest,
        followedAuthorRows st u a = e :: rest -> MemStorage.followAuthor st now f = (st, e))
     /\ (followedAuthorRows st u a = [] ->
         let e := FollowingAuthor.mk (MemStorage.followingAuthorId st) u a now in
         MemStorage.followAuthor st now f
         = (MemStorage.set_followingAuthors
              (MemStorage.followingAuthors st ++ [(MemStorage.followingAuthorId st, e)])
              (MemStorage.set_followingAuthorId (MemStorage.followingAuthorId st + 1) st),
            e)
         /\ followedAuthorRows (fst (MemStorage.followAuthor st now f)) u a = [e])
     /\ (uniqueFollowedAuthors st = true ->
         uniqueFollowedAuthors (fst (MemStorage.followAuthor st now f)) = true))
  /\ (forall f,
        let u := InsertFollowingSeries.userId f in
        let s := InsertFollowingSeries.seriesId f in
        (forall e rest,
           followedSeriesRows st u s = e :: rest ->
           MemStorage.followSeries st now f = (st, e))
        /\ (followedSeriesRows st u s = [] ->
            let e := FollowingSeries.mk (MemStorage.followingSeriesId st) u s now in
            MemStorage.followSeries st now f
            = (MemStorage.set_followingSeries
                 (MemStorage.followingSeries st ++ [(MemStorage.followingSeriesId st, e)])
                 (MemStorage.set_followingSeriesId (MemStorage.followingSeriesId st + 1) st),
               e)
            /\ followedSeriesRows (fst (MemStorage.followSeries st now f)) u s = [e])
        /\ (uniqueFollowedSeries st = true ->
            uniqueFollowedSeries (fst (MemStorage.followSeries st now f)) = true))
  /\ (forall f,
        let u := InsertFollowingCategory.userId f in
        let c := InsertFollowingCategory.category f in
        (forall e rest,
           followedCategoryRows st u c = e :: rest ->
           MemStorage.followCategory st now f = (st, e))
        /\ (followedCategoryRows st u c = [] ->
            let e := FollowingCategory.mk (MemStorage.followingCategoryId st) u c now in
            MemStorage.followCategory st now f
            = (MemStorage.set_followingCategories
                 (MemStorage.followingCategories st
                  ++ [(MemStorage.followingCategoryId st, e)])
                 (MemStorage.set_followingCategoryId
                    (MemStorage.followingCategoryId st + 1) st),
               e)
            /\ followedCategoryRows (fst (MemStorage.followCategory st now f)) u c = [e])
        /\ (uniqueFollowedCategories st = true ->
            uniqueFollowedCategories (fst (MemStorage.followCategory st now f)) = true)).
Proof.
  intros Hwf. split; [|split]; intros f u t; subst u t; (split; [|split]).
  - intros e rest Hrows. unfold MemStorage.followAuthor.
    now rewrite (filter_head_find _ _ _ _ Hrows).
  - intros Hnil e.
    destruct (table_link FollowingAuthor.id _ _ _ e (wf_followingAuthors _ Hwf) Hnil)
      as [Hfind [Hset Hrows]].
    { unfold MemStorage.sameFollowedAuthor. simpl. now rewrite !Z.eqb_refl. }
    unfold MemStorage.followAuthor. rewrite Hfind. cbv zeta.
    cbn [MemStorage.followingAuthors MemStorage.set_followingAuthorId
         MemStorage.followingAuthorId].
    fold e. rewrite Hset. split; [reflexivity | exact Hrows].
  - now apply followAuthor_unique.
  - intros e rest Hrows. unfold MemStorage.followSeries.
    now rewrite (filter_head_find _ _ _ _ Hrows).
  - intros Hnil e.
    destruct (table_link FollowingSeries.id _ _ _ e (wf_followingSeries _ Hwf) Hnil)
      as [Hfind [Hset Hrows]].
    { unfold MemStorage.sameFollowedSeries. simpl. now rewrite !Z.eqb_refl. }
    unfold MemStorage.followSeries. rewrite Hfind. cbv zeta.
    cbn [MemStorage.followingSeries MemStorage.set_followingSeriesId
         MemStorage.followingSeriesId].
    fold e. rewrite Hset. split; [reflexivity | exact Hrows].
  - now apply followSeries_unique.
  - intros e rest Hrows. unfold MemStorage.followCategory.
    now rewrite (filter_head_find _ _ _ _ Hrows).
  - intros Hnil e.
    destruct (table_link FollowingCategory.id _ _ _ e (wf_followingCategories _ Hwf) Hnil)
      as [Hfind [Hset Hrows]].
    { unfold MemStorage.sameFollowedCategory. simpl.
      now rewrite Z.eqb_refl, String.eqb_refl. }
    unfold MemStorage.followCategory. rewrite Hfind. cbv zeta.
    cbn [MemStorage.followingCategories MemStorage.set_followingCategoryId
         MemStorage.followingCategoryId].
    fold e. rewrite Hset. split; [reflexivity | exact Hrows].
  - now apply followCategory_unique.
Qed.

Lemma follow_operations_idempotent_witness :
  let f := InsertFollowingAuthor.mk 1 3 in
  let st1 := fst (MemStorage.followAuthor MemStorage.new 10 f) in
  MemStorage.followAuthor st1 20 f = (st1, FollowingAuthor.mk 1 1 3 10).
Proof.
  pose (f := InsertFollowingAuthor.mk 1 3).
  pose (st1 := fst (MemStorage.followAuthor MemStorage.new 10 f)).
  destruct (follow_operations_idempotent st1 20 eq_refl) as [Hauthor _].
  exact (proj1 (Hauthor f) (FollowingAuthor.mk 1 1 3 10) [] eq_refl).
Defined.

(** ** Recently viewed *)

Lemma uniqueViewed_iff st :
  uniqueViewed st = true
  <-> NoDup (map viewedKey (JsMap.values (MemStorage.recentlyViewed st))).
Proof. apply distinct_by_NoDup. apply pairZ_eqb_spec. Qed.

Lemma sameViewed_key u b e : MemStorage.sameViewed u b e = true -> viewedKey e = (u, b).
Proof.
  unfold MemStorage.sameViewed, viewedKey. rewrite andb_true_iff, !Z.eqb_eq.
  intros [-> ->]. reflexivity.
Qed.

Lemma viewedRows_le1 st u b :
  uniqueViewed st = true -> (List.length (viewedRows st u b) <= 1)%nat.
Proof.
  intros Hu. apply uniqueViewed_iff in Hu.
  apply (NoDup_map_filter_le1 viewedKey _ (u, b)); [|assumption].
  intros x. apply sameViewed_key.
Qed.

Lemma addRecentlyViewed_unique st now rv :
  wf st = true -> uniqueViewed st = true ->
  uniqueViewed (fst (MemStorage.addRecentlyViewed st now rv)) = true.
Proof.
  intros Hwf Hu. apply uniqueViewed_iff. apply uniqueViewed_iff in Hu.
  unfold MemStorage.addRecentlyViewed.
  destruct (find _ _) as [e|] eqn:E; simpl.
  - destruct (table_find_split RecentlyViewed.id _ _ _ _ (wf_recentlyViewed _ Hwf) E)
      as [m1 [m2 [Hm [_ [_ [_ Hset]]]]]].
    rewrite Hset. rewrite Hm in Hu. revert Hu. now apply unique_replace.
  - rewrite set_fresh by (eapply table_ok_fresh; apply wf_recentlyViewed; assumption).
    apply unique_link; [|assumption].
    intros x Hx. apply pairZ_eqb_false. exact (find_none _ _ E x Hx).
Qed.

(** After a call the pair has exactly the returned row, stamped with the
    call's time. *)
Lemma addRecentlyViewed_rows st now rv :
  wf st = true -> uniqueViewed st = true ->
  let r := MemStorage.addRecentlyViewed st now rv in
  viewedRows (fst r) (InsertRecentlyViewed.userId rv) (InsertRecentlyViewed.bookId rv)
  = [snd r]
  /\ RecentlyViewed.viewedAt (snd r) = now
  /\ RecentlyViewed.userId (snd r) = InsertRecentlyViewed.userId rv
  /\ RecentlyViewed.bookId (snd r) = InsertRecentlyViewed.bookId rv.
Proof.
  intros Hwf Hu. pose proof (viewedRows_le1 st (InsertRecentlyViewed.userId rv)
                               (InsertRecentlyViewed.bookId rv) Hu) as Hle.
  unfold viewedRows in *. unfold MemStorage.addRecentlyViewed.
  destruct (find _ _) as [e|] eqn:E; cbv zeta; cbn [fst snd].
  - destruct (table_find_split RecentlyViewed.id _ _ _ _ (wf_recentlyViewed _ Hwf) E)
      as [m1 [m2 [Hm [Hno [Hp [_ Hset]]]]]].
    cbn [MemStorage.recentlyViewed MemStorage.set_recentlyViewed].
    rewrite Hset.
    destruct (filter_values_split
                (MemStorage.sameViewed (InsertRecentlyViewed.userId rv)
                   (InsertRecentlyViewed.bookId rv))
                m1 (RecentlyViewed.id e) e m2 Hno) as [H1 _].
    rewrite Hm, H1, Hp in Hle. simpl in Hle.
    assert (Hnil : filter (MemStorage.sameViewed (InsertRecentlyViewed.userId rv)
                             (InsertRecentlyViewed.bookId rv)) (JsMap.values m2) = []).
    { destruct (filter _ (JsMap.values m2)); [reflexivity | simpl in Hle; lia]. }
    destruct (filter_values_split
                (MemStorage.sameViewed (InsertRecentlyViewed.userId rv)
                   (InsertRecentlyViewed.bookId rv))
                m1 (RecentlyViewed.id e)
                (RecentlyViewed.mk (RecentlyViewed.id e) (RecentlyViewed.userId e)
                   (RecentlyViewed.bookId e) now) m2 Hno) as [H2 _].
    rewrite H2, Hnil. unfold MemStorage.sameViewed in Hp |- *. simpl.
    rewrite Hp. simpl. apply andb_true_iff in Hp. destruct Hp as [Hp1 Hp2].
    apply Z.eqb_eq in Hp1, Hp2. auto.
  - cbn [MemStorage.recentlyViewed MemStorage.set_recentlyViewed
         MemStorage.set_recentlyViewedId MemStorage.recentlyViewedId].
    destruct (table_link RecentlyViewed.id _ _
                (MemStorage.sameViewed (InsertRecentlyViewed.userId rv)
                   (InsertRecentlyViewed.bookId rv))
                (RecentlyViewed.mk (MemStorage.recentlyViewedId st)
                   (InsertRecentlyViewed.userId rv) (InsertRecentlyViewed.bookId rv) now)
                (wf_recentlyViewed _ Hwf))
      as [_ [Hset Hrows]].
    + now apply find_filter_nil.
    + unfold MemStorage.sameViewed. simpl. now rewrite !Z.eqb_refl.
    + rewrite Hset, Hrows. auto.
Qed.

(** A call for a pair that has a row rewrites that row under its id. *)
Lemma addRecentlyViewed_existing st now rv e rest :
  wf st = true ->
  viewedRows st (InsertRecentlyViewed.userId rv) (InsertRecentlyViewed.bookId rv)
  = e :: rest ->
  RecentlyViewed.id (snd (MemStorage.addRecentlyViewed st now rv)) = RecentlyViewed.id e
  /\ JsMap.keys (MemStorage.recentlyViewed (fst (MemStorage.addRecentlyViewed st now rv)))
     = JsMap.keys (MemStorage.recentlyViewed st)
  /\ MemStorage.recentlyViewedId (fst (MemStorage.addRecentlyViewed st now rv))
     = MemStorage.recentlyViewedId st.
Proof.
  intros Hwf Hrows. unfold MemStorage.addRecentlyViewed.
  pose proof (filter_head_find _ _ _ _ Hrows) as Hfind. rewrite Hfind. simpl.
  repeat split. apply keys_set_present.
  destruct (table_ok_find_get _ _ _ _ _ (wf_recentlyViewed _ Hwf) Hfind) as [Hg _].
  eapply get_some_keys; eassumption.
Qed.

Lemma addRecentlyViewed_fold_inv (calls : list (Z * InsertRecentlyViewed.t)) st :
  wf st = true -> uniqueViewed st = true ->
  let st' := fold_left (fun st c => fst (MemStorage.addRecentlyViewed st (fst c) (snd c)))
                       calls st in
  wf st' = true /\ uniqueViewed st' = true.
Proof.
  revert st. induction calls as [|c calls IH]; intros st Hwf Hu; simpl; [auto|].
  apply IH; [now apply wf_addRecentlyViewed | now apply addRecentlyViewed_unique].
Qed.

(** C8: the recently-viewed collection holds at most one row per
    (userId, bookId) after any sequence of [addRecentlyViewed] calls; a second
    call for the same pair leaves one row, the first call's row under the same
    id, with [viewedAt] set to the second call's time. *)
Theorem addRecentlyViewed_one_row_per_pair (st : MemStorage.t) :
  wf st = true -> uniqueViewed st = true ->
  (forall (calls : list (Z * InsertRecentlyViewed.t)) u b,
     let st' := fold_left (fun st c => fst (MemStorage.addRecentlyViewed st (fst c) (snd c)))
                          calls st in
     (List.length (viewedRows st' u b) <= 1)%nat)
  /\ (forall rv t1 t2,
        let u := InsertRecentlyViewed.userId rv in
        let b := InsertRecentlyViewed.bookId rv in
        let r1 := MemStorage.addRecentlyViewed st t1 rv in
        let r2 := MemStorage.addRecentlyViewed (fst r1) t2 rv in
        viewedRows (fst r1) u b = [snd r1]
        /\ viewedRows (fst r2) u b = [snd r2]
        /\ RecentlyViewed.id (snd r2) = RecentlyViewed.id (snd r1)
        /\ RecentlyViewed.viewedAt (snd r2) = t2
        /\ JsMap.keys (MemStorage.recentlyViewed (fst r2))
           = JsMap.keys (MemStorage.recentlyViewed (fst r1))
        /\ MemStorage.recentlyViewedId (fst r2) = MemStorage.recentlyViewedId (fst r1)).
Proof.
  intros Hwf Hu. split.
  - intros calls u b st'. apply viewedRows_le1.
    now apply addRecentlyViewed_fold_inv.
  - intros rv t1 t2 u b r1 r2.
    destruct (addRecentlyViewed_rows st t1 rv Hwf Hu) as [Hr1 _]. fold r1 in Hr1.
    assert (Hwf1 : wf (fst r1) = true) by now apply wf_addRecentlyViewed.
    assert (Hu1 : uniqueViewed (fst r1) = true) by now apply addRecentlyViewed_unique.
    destruct (addRecentlyViewed_rows (fst r1) t2 rv Hwf1 Hu1) as [Hr2 [Ht2 _]].
    fold r2 in Hr2, Ht2.
    destruct (addRecentlyViewed_existing (fst r1) t2 rv (snd r1) [] Hwf1 Hr1)
      as [Hid [Hkeys Hctr]].
    fold r2 in Hid, Hkeys, Hctr. auto 10.
Qed.

Lemma addRecentlyViewed_one_row_per_pair_witness :
  let rv := InsertRecentlyViewed.mk 1 4 in
  let r1 := MemStorage.addRecentlyViewed MemStorage.new 100 rv in
  let r2 := MemStorage.addRecentlyViewed (fst r1) 200 rv in
  viewedRows (fst r2) 1 4 = [snd r2]
  /\ RecentlyViewed.id (snd r2) = RecentlyViewed.id (snd r1)
  /\ RecentlyViewed.viewedAt (snd r2) = 200.
Proof.
  destruct (proj2 (addRecentlyViewed_one_row_per_pair MemStorage.new eq_refl eq_refl)
              (InsertRecentlyViewed.mk 1 4) 100 200) as [_ [H2 [H3 [H4 _]]]].
  exact (conj H2 (conj H3 H4)).
Defined.

(** ** Favorites *)

Lemma uniqueFavorites_iff st :
  uniqueFavorites st = true
  <-> NoDup (map favoriteKey (JsMap.values (MemStorage.favorites st))).
Proof. apply distinct_by_NoDup. apply pairZ_eqb_spec. Qed.

Lemma sameFavorite_key u b f : MemStorage.sameFavorite u b f = true -> favoriteKey f = (u, b).
Proof.
  unfold MemStorage.sameFavorite, favoriteKey. rewrite andb_true_iff, !Z.eqb_eq.
  intros [-> ->]. reflexivity.
Qed.

Lemma favoriteRows_le1 st u b :
  uniqueFavorites st = true -> (List.length (favoriteRows st u b) <= 1)%nat.
Proof.
  intros Hu. apply uniqueFavorites_iff in Hu.
  apply (NoDup_map_filter_le1 favoriteKey _ (u, b)); [|assumption].
  intros x. apply sameFavorite_key.
Qed.

(** [addFavorite] appends its row, whatever the collection holds. *)
Lemma addFavorite_rows st now f :
  wf st = true ->
  let r := MemStorage.addFavorite st now f in
  snd r = Favorite.mk (MemStorage.favoriteId st) (InsertFavorite.userId f)
            (InsertFavorite.bookId f) now
  /\ MemStorage.favorites (fst r)
     = MemStorage.favorites st ++ [(MemStorage.favoriteId st, snd r)]
  /\ MemStorage.favoriteId (fst r) = MemStorage.favoriteId st + 1
  /\ favoriteRows (fst r) (InsertFavorite.userId f) (InsertFavorite.bookId f)
     = favoriteRows st (InsertFavorite.userId f) (InsertFavorite.bookId f) ++ [snd r].
Proof.
  intros Hwf r. subst r. unfold favoriteRows. simpl.
  rewrite set_fresh by (eapply table_ok_fresh; apply wf_favorites; assumption).
  repeat split. rewrite values_app, filter_app. simpl.
  unfold MemStorage.sameFavorite at 2. simpl. now rewrite !Z.eqb_refl.
Qed.

Lemma isFavorite_false_rows st u b :
  MemStorage.isFavorite st u b = false ->
  forall x, In x (JsMap.values (MemStorage.favorites st)) ->
            MemStorage.sameFavorite u b x = false.
Proof.
  unfold MemStorage.isFavorite. intros H x Hx.
  destruct (MemStorage.sameFavorite u b x) eqn:E; [|reflexivity].
  rewrite <- H. symmetry. apply existsb_exists. eauto.
Qed.

Lemma postFavorites_unique st now body :
  wf st = true -> uniqueFavorites st = true ->
  uniqueFavorites (fst (Routes.postFavorites st now body)) = true.
Proof.
  intros Hwf Hu. unfold Routes.postFavorites.
  destruct body as [f|]; [|assumption].
  destruct (MemStorage.getUserByUsername st "demo") as [user|]; [|assumption].
  cbv zeta. destruct (MemStorage.getBook _ _); [|assumption].
  destruct (MemStorage.isFavorite _ _ _) eqn:E; [assumption|].
  cbn [fst]. apply uniqueFavorites_iff. apply uniqueFavorites_iff in Hu.
  destruct (addFavorite_rows st now
              (InsertFavorite.mk (User.id user) (InsertFavorite.bookId f)) Hwf)
    as [Hrow [Hfav _]].
  rewrite Hfav. apply unique_link; [|assumption].
  intros x Hx. rewrite Hrow. apply pairZ_eqb_false.
  exact (isFavorite_false_rows _ _ _ E x Hx).
Qed.

Lemma postFavorites_fold_inv (requests : list (Z * option InsertFavorite.t)) st :
  wf st = true -> uniqueFavorites st = true ->
  let st' := fold_left (fun st q => fst (Routes.postFavorites st (fst q) (snd q)))
                       requests st in
  wf st' = true /\ uniqueFavorites st' = true.
Proof.
  revert st. induction requests as [|q requests IH]; intros st Hwf Hu; simpl; [auto|].
  apply IH; [now apply wf_postFavorites | now apply postFavorites_unique].
Qed.

(** C1, as the code has it: [addFavorite] makes no existence check. Each call
    appends a row under a fresh id, so two calls for one pair leave two more
    rows; [isFavorite] is true after the first call and after the second. The
    check sits in POST /api/favorites, which answers 400 and stores nothing
    when the pair is already a favorite: through that route a pair never gets
    a second row. *)
Theorem addFavorite_appends_route_guards (st : MemStorage.t) :
  wf st = true ->
  (forall now1 now2 f,
     let u := InsertFavorite.userId f in
     let b := InsertFavorite.bookId f in
     let r1 := MemStorage.addFavorite st now1 f in
     let r2 := MemStorage.addFavorite (fst r1) now2 f in
     MemStorage.isFavorite (fst r1) u b = true
     /\ MemStorage.isFavorite (fst r2) u b = true
     /\ favoriteRows (fst r2) u b = favoriteRows st u b ++ [snd r1; snd r2]
     /\ Favorite.id (snd r1) = MemStorage.favoriteId st
     /\ Favorite.id (snd r2) = MemStorage.favoriteId st + 1)
  /\ (forall now f user book,
        MemStorage.getUserByUsername st "demo" = Some user ->
        MemStorage.getBook st (InsertFavorite.bookId f) = Some book ->
        Routes.postFavorites st now (Some f)
        = if MemStorage.isFavorite st (User.id user) (InsertFavorite.bookId f)
          then (st, 400)
          else (fst (MemStorage.addFavorite st now
                       (InsertFavorite.mk (User.id user) (InsertFavorite.bookId f))),
                201))
  /\ (uniqueFavorites st = true ->
      forall (requests : list (Z * option InsertFavorite.t)) u b,
        let st' := fold_left (fun st q => fst (Routes.postFavorites st (fst q) (snd q)))
                             requests st in
        (List.length (favoriteRows st' u b) <= 1)%nat).
Proof.
  intros Hwf. split; [|split].
  - intros now1 now2 f u b r1 r2.
    destruct (addFavorite_rows st now1 f Hwf) as [Hrow1 [_ [Hctr1 Hrows1]]].
    fold r1 u b in Hrow1, Hctr1, Hrows1.
    assert (Hwf1 : wf (fst r1) = true) by now apply wf_addFavorite.
    destruct (addFavorite_rows (fst r1) now2 f Hwf1) as [Hrow2 [_ [_ Hrows2]]].
    fold r2 u b in Hrow2, Hrows2.
    rewrite !isFavorite_rows, Hrows2, Hrows1, <- app_assoc. simpl.
    rewrite !length_app. simpl.
    repeat split; now rewrite Nat.add_comm.
  - intros now f user book Huser Hbook. unfold Routes.postFavorites.
    rewrite Huser. cbv zeta. cbn [InsertFavorite.bookId]. rewrite Hbook.
    destruct (MemStorage.isFavorite _ _ _); reflexivity.
  - intros Hu requests u b st'. apply favoriteRows_le1.
    now apply postFavorites_fold_inv.
Qed.

Lemma addFavorite_appends_route_guards_witness :
  let f := InsertFavorite.mk 1 7 in
  let r1 := MemStorage.addFavorite MemStorage.new 10 f in
  let r2 := MemStorage.addFavorite (fst r1) 20 f in
  MemStorage.isFavorite (fst r1) 1 7 = true
  /\ MemStorage.isFavorite (fst r2) 1 7 = true
  /\ (List.length
        (favoriteRows
           (fold_left (fun st q => fst (Routes.postFavorites st (fst q) (snd q)))
                      [(10%Z, Some f); (20%Z, Some f)] MemStorage.new) 1%Z 7%Z) <= 1)%nat.
Proof.
  destruct (addFavorite_appends_route_guards MemStorage.new eq_refl) as [Hadd [_ Hroute]].
  destruct (Hadd 10 20 (InsertFavorite.mk 1 7)) as [H1 [H2 _]].
  exact (conj H1 (conj H2 (Hroute eq_refl
           [(10, Some (InsertFavorite.mk 1 7)); (20, Some (InsertFavorite.mk 1 7))] 1 7))).
Defined.

(** C1 as stated fails: two [addFavorite] calls for one pair store two rows,
    the second under a new id. *)
Lemma addFavorite_twice_counterexample :
  let f := InsertFavorite.mk 1 7 in
  let r1 := MemStorage.addFavorite MemStorage.new 10 f in
  let r2 := MemStorage.addFavorite (fst r1) 20 f in
  List.length (favoriteRows (fst r2) 1 7) = 2%nat
  /\ Favorite.id (snd r2) <> Favorite.id (snd r1).
Proof. split; [reflexivity | discriminate]. Qed.

(** ** The notification matcher *)

Lemma createNotification_values st now n :
  wf st = true ->
  JsMap.values (MemStorage.notifications (fst (MemStorage.createNotification st now n)))
  = JsMap.values (MemStorage.notifications st)
    ++ [snd (MemStorage.createNotification st now n)].
Proof.
  intros Hwf. simpl.
  rewrite set_fresh by (eapply table_ok_fresh; apply wf_notifications; assumption).
  now rewrite values_app.
Qed.




(** C2: on the store of the constructor plus one book flagged new, the demo
    user (id 1) has a preferences row with both sets empty, so the match
    policy of the specification holds for the book and the user has no
    notification about it; a matcher run throws at [getNewReleases] before it
    looks at any book, and the user has no notification afterwards. *)
Theorem checkForNewBooks_matches_no_book :
  let newBook :=
    InsertBook.mk "g1" "Title" "Author" None None (Some ["Mystery"%string])
      (Some "9-12 years"%string) None None (Some true) in
  let st := fst (MemStorage.createBook MemStorage.new newBook) in
  let book := snd (MemStorage.createBook MemStorage.new newBook) in
  let prefs := UserPreferences.mk 1 1 (Some []) (Some []) (Some true) in
  let service := NotificationService.init StorageInstance.memStorage in
  MemStorage.getUser st 1 = Some (User.mk 1 "demo" "password")
  /\ MemStorage.getUserPreferences st 1 = Some prefs
  /\ MemStorage.getBook st (Book.id book) = Some book
  /\ Book.isNew book = Some true
  /\ specifiedMatch prefs book = true
  /\ notifiedAbout st 1 (Book.id book) = false
  /\ forall now,
       NotificationService.tryCheckForNewBooks StorageInstance.memStorage st now
       = (st, Throw "TypeError: this.storage.getNewReleases is not a function")
       /\ notifiedAbout (NotificationService.checkForNewBooks service st now) 1
            (Book.id book) = false
       /\ MemStorage.getNotifications
            (NotificationService.checkForNewBooks service st now) 1 = [].
Proof.
  intros newBook st book prefs service.
  do 6 (split; [vm_compute; reflexivity|]).
  intros now. split; [apply tryCheckForNewBooks_memStorage|].
  subst service. rewrite checkForNewBooks_memStorage.
  split; vm_compute; reflexivity.
Qed.

(** ** getBooks: filter, sort, page *)

Lemma firstn_incl {A : Type} n (l : list A) x : In x (firstn n l) -> In x l.
Proof.
  revert l. induction n as [|n IH]; intros [|y l]; simpl; try tauto.
  intros [H|H]; [now left | right; auto].
Qed.

Section SortDesc.
Context {A : Type} (key : A -> Z).

Lemma insert_desc_perm x l : Permutation (insert_desc key x l) (x :: l).
Proof.
  induction l as [|y l IH]; simpl; [reflexivity|].
  destruct (key y <=? key x); [reflexivity|].
  rewrite IH. apply perm_swap.
Qed.

Lemma sort_desc_perm l : Permutation (sort_desc key l) l.
Proof.
  induction l as [|x l IH]; simpl; [reflexivity|].
  rewrite insert_desc_perm. now constructor.
Qed.

Lemma insert_desc_sorted x l :
  StronglySorted (fun a b => key b <= key a) l ->
  StronglySorted (fun a b => key b <= key a) (insert_desc key x l).
Proof.
  induction l as [|y l IH]; simpl; intros Hs.
  - repeat constructor.
  - inversion Hs as [|? ? Hl Hy]; subst.
    destruct (Z.leb_spec (key y) (key x)).
    + constructor; [assumption|]. constructor; [assumption|].
      eapply Forall_impl; [|exact Hy]. simpl. intros; lia.
    + constructor; [now apply IH|].
      eapply Permutation_Forall; [symmetry; apply insert_desc_perm|].
      constructor; [lia | assumption].
Qed.

Lemma sort_desc_sorted l : StronglySorted (fun a b => key b <= key a) (sort_desc key l).
Proof.
  induction l as [|x l IH]; simpl; [constructor | now apply insert_desc_sorted].
Qed.




End SortDesc.

(** A window with non-negative bounds: skip [start], keep [count]. *)
Lemma slice_window {A : Type} (l : list A) (start count : Z) :
  0 <= start -> 0 <= count ->
  slice l start (start + count) = firstn (Z.to_nat count) (skipn (Z.to_nat start) l).
Proof.
  intros Hs Hc. unfold slice, slice_index.
  destruct (Z.ltb_spec start 0); [lia|].
  destruct (Z.ltb_spec (start + count) 0); [lia|].
  set (len := Z.of_nat (List.length l)).
  destruct (Z.le_gt_cases len start) as [Hge|Hlt].
  - rewrite (Z.min_r start len), (Z.min_r (start + count) len) by lia.
    rewrite (skipn_all2 (n := Z.to_nat len) l) by (unfold len; lia).
    rewrite (skipn_all2 (n := Z.to_nat start) l) by (unfold len in Hge; lia).
    now rewrite !firstn_nil.
  - rewrite (Z.min_l start len) by lia.
    destruct (Z.le_gt_cases (start + count) len) as [Hle|Hgt].
    + rewrite (Z.min_l (start + count) len) by lia. f_equal. lia.
    + rewrite (Z.min_r (start + count) len) by lia.
      rewrite !firstn_all2; [reflexivity | |]; rewrite length_skipn; unfold len in *; lia.
Qed.

Lemma slice_prefix {A : Type} (l : list A) (count : Z) :
  0 <= count -> slice l 0 count = firstn (Z.to_nat count) l.
Proof. intros Hc. apply (slice_window l 0 count); lia. Qed.

Lemma wf_books st :
  wf st = true -> table_ok Book.id (MemStorage.bookId st) (MemStorage.books st) = true.
Proof. wf_open. assumption. Qed.

(** In a table the rows' ids are the keys, so they are distinct. *)
Lemma table_ids_NoDup {V : Type} (idf : V -> Z) next (m : JsMap.t V) :
  table_ok idf next m = true -> NoDup (map idf (JsMap.values m)).
Proof.
  intros Hok. apply table_ok_iff in Hok. destruct Hok as [Hnd Hall].
  replace (map idf (JsMap.values m)) with (JsMap.keys m); [assumption|].
  unfold JsMap.keys, JsMap.values. rewrite map_map. apply map_ext_in.
  intros [k v] Hin. simpl. symmetry. now apply Hall.
Qed.

(** Dropping rows keeps their keys distinct. *)
Lemma distinct_keys_filter {Row Key : Type} (key : Row -> Key) (keep : Row -> bool) :
  forall rows : list Row,
    NoDup (map key rows) -> NoDup (map key (filter keep rows)).
Proof.
  intros rows. induction rows as [|r rows IH]; simpl; intros Hnd; [constructor|].
  inversion Hnd as [|? ? Hr Hrows]; subst.
  destruct (keep r); simpl; [|auto]. constructor; [|auto].
  intros Hin. apply Hr. apply in_map_iff in Hin. destruct Hin as [y [He Hy]].
  apply filter_In in Hy. rewrite <- He. apply in_map. tauto.
Qed.

(** Without paging, [getBooks] is the filtered collection in descending id
    order. *)
Lemma getBooks_unpaged st options :
  MemStorage.getBooks st (withoutPaging options)
  = sort_desc Book.id (filter (passesFilters options) (JsMap.values (MemStorage.books st))).
Proof.
  unfold MemStorage.getBooks, withoutPaging, passesFilters. simpl.
  f_equal.
  destruct (BookOptions.category options) as [c|];
    destruct (BookOptions.ageRange options) as [a|];
    destruct (BookOptions.isNew options) as [n|]; simpl;
    repeat match goal with
           | |- context [negb ?b] => destruct b; simpl
           end;
    induction (JsMap.values (MemStorage.books st)) as [|x l IH]; simpl;
    try reflexivity; try rewrite <- IH;
    repeat match goal with
           | |- context [MemStorage.hasCategory ?c x] =>
               destruct (MemStorage.hasCategory c x); simpl
           | |- context [MemStorage.hasAgeRange ?a x] =>
               destruct (MemStorage.hasAgeRange a x); simpl
           | |- context [MemStorage.hasIsNew ?n x] =>
               destruct (MemStorage.hasIsNew n x); simpl
           end;
    reflexivity.
Qed.

(** The paging of [getBooks], over the unpaged result. *)
Lemma getBooks_paged st options :
  MemStorage.getBooks st options
  = let all := MemStorage.getBooks st (withoutPaging options) in
    if truthy_number (BookOptions.offset options) && truthy_number (BookOptions.limit options)
    then match BookOptions.offset options, BookOptions.limit options with
         | Some offset, Some limit => slice all offset (offset + limit)
         | _, _ => all
         end
    else if truthy_number (BookOptions.limit options)
         then match BookOptions.limit options with
              | Some limit => slice all 0 limit
              | None => all
              end
         else all.
Proof.
  unfold MemStorage.getBooks, withoutPaging. simpl.
  destruct (BookOptions.offset options) as [o|];
    destruct (BookOptions.limit options) as [l|]; simpl; try reflexivity.
  destruct (negb (o =? 0)); reflexivity.
Qed.





(** * Further properties of the store, the routes and the helpers *)

(** ** More facts about lists and maps *)

Lemma find_app {A : Type} (p : A -> bool) (l1 l2 : list A) :
  find p (l1 ++ l2) = match find p l1 with
                      | Some x => Some x
                      | None => find p l2
                      end.
Proof.
  induction l1 as [|x l1 IH]; simpl; [reflexivity|].
  destruct (p x); [reflexivity | assumption].
Qed.

Lemma set_get_same {V : Type} k (v : V) (m : JsMap.t V) :
  JsMap.get k m = Some v -> JsMap.set k v m = m.
Proof.
  induction m as [|[k' v'] m IH]; simpl; [discriminate|].
  destruct (Z.eqb_spec k k') as [->|Hne].
  - intros H. now injection H as ->.
  - intros H. now rewrite IH.
Qed.

Lemma set_set {V : Type} k (v v' : V) (m : JsMap.t V) :
  JsMap.set k v' (JsMap.set k v m) = JsMap.set k v' m.
Proof.
  induction m as [|[k0 v0] m IH]; simpl.
  - now rewrite Z.eqb_refl.
  - destruct (Z.eqb_spec k k0) as [->|Hne]; simpl.
    + now rewrite Z.eqb_refl.
    + destruct (Z.eqb_spec k k0); [contradiction|]. now rewrite IH.
Qed.

Lemma keys_set_get {V : Type} k (v v' : V) (m : JsMap.t V) :
  JsMap.get k m = Some v -> JsMap.keys (JsMap.set k v' m) = JsMap.keys m.
Proof. intros H. apply keys_set_present. eapply get_some_keys; eassumption. Qed.

(** The position of a key: a write under it replaces the row there. *)
Lemma get_split {V : Type} k (v : V) (m : JsMap.t V) :
  JsMap.get k m = Some v ->
  exists m1 m2,
    m = m1 ++ (k, v) :: m2
    /\ forall v', JsMap.set k v' m = m1 ++ (k, v') :: m2.
Proof.
  induction m as [|[k' v0] m IH]; simpl; [discriminate|].
  destruct (Z.eqb_spec k k') as [->|Hne].
  - intros H. injection H as ->. exists [], m. split; [reflexivity|].
    intros v'. reflexivity.
  - intros H. destruct (IH H) as [m1 [m2 [Hm Hset]]].
    exists ((k', v0) :: m1), m2. split.
    + simpl. now rewrite Hm at 1.
    + intros v'. simpl. now rewrite Hset.
Qed.

Lemma delete_fresh {V : Type} k (m : JsMap.t V) :
  ~ In k (JsMap.keys m) -> JsMap.delete k m = m.
Proof.
  induction m as [|[k' v'] m IH]; simpl; intros H; [reflexivity|].
  destruct (Z.eqb_spec k k') as [->|Hne].
  - exfalso. apply H. now left.
  - rewrite IH; [reflexivity|]. intros Hin. apply H. now right.
Qed.

Lemma delete_appended {V : Type} k (v : V) (m : JsMap.t V) :
  ~ In k (JsMap.keys m) -> JsMap.delete k (m ++ [(k, v)]) = m.
Proof.
  induction m as [|[k' v'] m IH]; simpl; intros H.
  - now rewrite Z.eqb_refl.
  - destruct (Z.eqb_spec k k') as [->|Hne].
    + exfalso. apply H. now left.
    + rewrite IH; [reflexivity|]. intros Hin. apply H. now right.
Qed.

(** A fold of deletes over rows that all sit further down leaves the head. *)
Lemma fold_delete_cons {V : Type} (idf : V -> Z) (l : list V) k0 v0 (m : JsMap.t V) :
  (forall n, In n l -> idf n <> k0) ->
  fold_left (fun m n => JsMap.delete (idf n) m) l ((k0, v0) :: m)
  = (k0, v0) :: fold_left (fun m n => JsMap.delete (idf n) m) l m.
Proof.
  revert m. induction l as [|n l IH]; intros m Hl; simpl; [reflexivity|].
  destruct (Z.eqb_spec (idf n) k0) as [He|_].
  - exfalso. apply (Hl n); [now left | assumption].
  - apply IH. intros n' Hn'. apply Hl. now right.
Qed.

(** Collect the rows that satisfy [p], then delete each under its id: the
    rows that do not satisfy [p] remain, in their order. *)
Lemma fold_delete_filter {V : Type} (idf : V -> Z) (p : V -> bool) next (m : JsMap.t V) :
  table_ok idf next m = true ->
  fold_left (fun m n => JsMap.delete (idf n) m) (filter p (JsMap.values m)) m
  = filter (fun kv => negb (p (snd kv))) m.
Proof.
  rewrite table_ok_iff. intros [Hnd Hall].
  induction m as [|[k0 v0] m IH]; simpl; [reflexivity|].
  inversion Hnd as [|? ? Hx Hl]; subst.
  assert (Hk0 : idf v0 = k0) by (apply (Hall k0 v0); now left).
  assert (Hrest : forall n, In n (filter p (JsMap.values m)) -> idf n <> k0).
  { intros n Hn. apply filter_In in Hn. destruct Hn as [Hn _].
    apply In_values in Hn. destruct Hn as [k Hin].
    assert (idf n = k) by (apply (Hall k n); now right). subst k.
    intros He. apply Hx. rewrite <- He. unfold JsMap.keys.
    change (idf n) with (fst (idf n, n)). now apply in_map. }
  assert (IH' := IH Hl (fun k v Hin => Hall k v (or_intror Hin))).
  destruct (p v0); simpl.
  - rewrite Hk0, Z.eqb_refl. exact IH'.
  - rewrite fold_delete_cons by assumption. now rewrite IH'.
Qed.

(** ** What an operation touches *)

Lemma set_notifications_eta st :
  MemStorage.set_notifications (MemStorage.notifications st)
    (MemStorage.set_notificationId (MemStorage.notificationId st) st) = st.
Proof. now destruct st. Qed.

(** A matcher run in the shape of an operation that writes notifications:
    it writes back what is there. *)
Lemma checkForNewBooks_frame st now :
  exists N c,
    NotificationService.checkForNewBooks
      (NotificationService.init StorageInstance.memStorage) st now
    = MemStorage.set_notifications N (MemStorage.set_notificationId c st)
    /\ MemStorage.notificationId st <= c.
Proof.
  exists (MemStorage.notifications st), (MemStorage.notificationId st).
  rewrite checkForNewBooks_memStorage.
  split; [symmetry; apply set_notifications_eta | lia].
Qed.

(** Opens [exec st op] for each operation into the field writes it makes. *)
Ltac exec_open st :=
  unfold exec,
    MemStorage.createUser, MemStorage.createBook, MemStorage.updateBook,
    MemStorage.createUserPreferences, MemStorage.updateUserPreferences,
    MemStorage.addFavorite, MemStorage.removeFavorite, MemStorage.createNotification,
    MemStorage.markNotificationAsRead, MemStorage.addRecentlyViewed,
    MemStorage.createAuthor, MemStorage.createBookSeries,
    MemStorage.followAuthor, MemStorage.unfollowAuthor,
    MemStorage.followSeries, MemStorage.unfollowSeries,
    MemStorage.followCategory, MemStorage.unfollowCategory,
    Routes.postFavorites;
  repeat match goal with
         | |- context [find ?p ?l] => destruct (find p l)
         | |- context [JsMap.get ?k (MemStorage.books st)] =>
             destruct (JsMap.get k (MemStorage.books st))
         | |- context [JsMap.get ?k (MemStorage.notifications st)] =>
             destruct (JsMap.get k (MemStorage.notifications st))
         | |- context [MemStorage.getUserByUsername st ?u] =>
             destruct (MemStorage.getUserByUsername st u)
         | |- context [MemStorage.getBook st ?b] => destruct (MemStorage.getBook st b)
         | |- context [MemStorage.isFavorite st ?u ?b] =>
             destruct (MemStorage.isFavorite st u b)
         | |- context [match ?body with Some _ => _ | None => (st, 400) end] =>
             destruct body
         | |- context [MemStorage.markAllNotificationsAsRead st ?u] =>
             unfold MemStorage.markAllNotificationsAsRead; cbn [fst];
             rewrite markAll_fold
         | |- context [MemStorage.clearRecentlyViewed st ?u] =>
             unfold MemStorage.clearRecentlyViewed; cbn [fst];
             rewrite clear_fold
         | |- context [NotificationService.checkForNewBooks _ st ?now] =>
             let N := fresh "N" in
             let c := fresh "c" in
             let Hc := fresh "Hc" in
             let He := fresh "He" in
             destruct (checkForNewBooks_frame st now) as [N [c [He Hc]]];
             rewrite He; clear He
         end;
  cbn [fst snd].

(** The id counters never go down. *)
Lemma exec_counters st op :
  MemStorage.userId st <= MemStorage.userId (exec st op)
  /\ MemStorage.bookId st <= MemStorage.bookId (exec st op)
  /\ MemStorage.userPreferencesId st <= MemStorage.userPreferencesId (exec st op)
  /\ MemStorage.favoriteId st <= MemStorage.favoriteId (exec st op)
  /\ MemStorage.notificationId st <= MemStorage.notificationId (exec st op)
  /\ MemStorage.recentlyViewedId st <= MemStorage.recentlyViewedId (exec st op)
  /\ MemStorage.authorId st <= MemStorage.authorId (exec st op)
  /\ MemStorage.bookSeriesId st <= MemStorage.bookSeriesId (exec st op)
  /\ MemStorage.followingAuthorId st <= MemStorage.followingAuthorId (exec st op)
  /\ MemStorage.followingSeriesId st <= MemStorage.followingSeriesId (exec st op)
  /\ MemStorage.followingCategoryId st <= MemStorage.followingCategoryId (exec st op).
Proof.
  destruct op; exec_open st; simpl; repeat split; lia.
Qed.

(** ** Stores reachable from the constructor *)

Lemma run_counters ops st :
  MemStorage.userId st <= MemStorage.userId (run ops st)
  /\ MemStorage.bookId st <= MemStorage.bookId (run ops st)
  /\ MemStorage.favoriteId st <= MemStorage.favoriteId (run ops st)
  /\ MemStorage.notificationId st <= MemStorage.notificationId (run ops st).
Proof.
  revert st. induction ops as [|op ops IH]; intros st; [simpl; lia|].
  change (run (op :: ops) st) with (run ops (exec st op)).
  destruct (IH (exec st op)) as [I1 [I2 [I3 I4]]].
  destruct (exec_counters st op) as [E1 [E2 [_ [E4 [E5 _]]]]].
  repeat split; lia.
Qed.

(** X1: In every store built by the constructor and any sequence of operations,
    each collection holds its rows under their own ids, without repeated keys
    and below the id counter; so a lookup by id returns a row carrying that
    id. *)
Theorem reachable_store_well_formed (ops : list Op) :
  let st := run ops MemStorage.new in
  wf st = true
  /\ (forall id user, MemStorage.getUser st id = Some user ->
        User.id user = id /\ id < MemStorage.userId st)
  /\ (forall id book, MemStorage.getBook st id = Some book ->
        Book.id book = id /\ id < MemStorage.bookId st)
  /\ (forall id author, MemStorage.getAuthor st id = Some author ->
        Author.id author = id /\ id < MemStorage.authorId st)
  /\ (forall id series, MemStorage.getBookSeriesById st id = Some series ->
        BookSeries.id series = id /\ id < MemStorage.bookSeriesId st).
Proof.
  intros st. assert (Hwf : wf st = true) by (apply wf_run; apply wf_new).
  split; [assumption|]. revert Hwf. wf_open.
  repeat split; eapply table_ok_get; eassumption.
Qed.

(** X2: Ids are never handed out twice: a row created after any further
    operations, deletions included, gets a larger id than a row created
    before. *)
Theorem ids_never_reused (st : MemStorage.t) (ops : list Op) :
  (forall u1 u2,
     User.id (snd (MemStorage.createUser st u1))
     < User.id (snd (MemStorage.createUser
                       (run ops (fst (MemStorage.createUser st u1))) u2)))
  /\ (forall b1 b2,
        Book.id (snd (MemStorage.createBook st b1))
        < Book.id (snd (MemStorage.createBook
                          (run ops (fst (MemStorage.createBook st b1))) b2)))
  /\ (forall now1 now2 f1 f2,
        Favorite.id (snd (MemStorage.addFavorite st now1 f1))
        < Favorite.id (snd (MemStorage.addFavorite
                              (run ops (fst (MemStorage.addFavorite st now1 f1)))
                              now2 f2)))
  /\ (forall now1 now2 n1 n2,
        Notification.id (snd (MemStorage.createNotification st now1 n1))
        < Notification.id (snd (MemStorage.createNotification
                                  (run ops (fst (MemStorage.createNotification st now1 n1)))
                                  now2 n2))).
Proof.
  repeat split; intros.
  - pose proof (run_counters ops (fst (MemStorage.createUser st u1))) as H.
    simpl in *. lia.
  - pose proof (run_counters ops (fst (MemStorage.createBook st b1))) as H.
    simpl in *. lia.
  - pose proof (run_counters ops (fst (MemStorage.addFavorite st now1 f1))) as H.
    simpl in *. lia.
  - pose proof (run_counters ops (fst (MemStorage.createNotification st now1 n1))) as H.
    simpl in *. lia.
Qed.

Lemma clearRecentlyViewed_unique st u :
  uniqueViewed st = true -> uniqueViewed (fst (MemStorage.clearRecentlyViewed st u)) = true.
Proof.
  intros Hu. apply uniqueViewed_iff. apply uniqueViewed_iff in Hu.
  unfold MemStorage.clearRecentlyViewed. cbn [fst]. rewrite clear_fold. simpl.
  generalize (filter (fun entry => RecentlyViewed.userId entry =? u)
                     (JsMap.values (MemStorage.recentlyViewed st))).
  intros l. revert Hu. generalize (MemStorage.recentlyViewed st).
  induction l as [|x l IH]; intros m Hm; simpl; [assumption|].
  apply IH. now apply unique_delete.
Qed.

Lemma exec_uniqueViewed st op :
  wf st = true -> uniqueViewed st = true -> uniqueViewed (exec st op) = true.
Proof.
  intros Hwf Hu. destruct op;
    try (unfold uniqueViewed in *; exec_open st; exact Hu).
  - now apply addRecentlyViewed_unique.
  - now apply clearRecentlyViewed_unique.
Qed.

Lemma unfollowAuthor_unique st u a :
  uniqueFollowedAuthors st = true ->
  uniqueFollowedAuthors (fst (MemStorage.unfollowAuthor st u a)) = true.
Proof.
  intros Hu. unfold MemStorage.unfollowAuthor. destruct (find _ _); [|assumption].
  apply uniqueFollowedAuthors_iff. apply uniqueFollowedAuthors_iff in Hu.
  simpl. now apply unique_delete.
Qed.

Lemma unfollowSeries_unique st u s :
  uniqueFollowedSeries st = true ->
  uniqueFollowedSeries (fst (MemStorage.unfollowSeries st u s)) = true.
Proof.
  intros Hu. unfold MemStorage.unfollowSeries. destruct (find _ _); [|assumption].
  apply uniqueFollowedSeries_iff. apply uniqueFollowedSeries_iff in Hu.
  simpl. now apply unique_delete.
Qed.

Lemma unfollowCategory_unique st u c :
  uniqueFollowedCategories st = true ->
  uniqueFollowedCategories (fst (MemStorage.unfollowCategory st u c)) = true.
Proof.
  intros Hu. unfold MemStorage.unfollowCategory. destruct (find _ _); [|assumption].
  apply uniqueFollowedCategories_iff. apply uniqueFollowedCategories_iff in Hu.
  simpl. now apply unique_delete.
Qed.

Lemma exec_uniqueFollowedAuthors st op :
  wf st = true -> uniqueFollowedAuthors st = true ->
  uniqueFollowedAuthors (exec st op) = true.
Proof.
  intros Hwf Hu. destruct op;
    try (unfold uniqueFollowedAuthors in *; exec_open st; exact Hu).
  - now apply followAuthor_unique.
  - now apply unfollowAuthor_unique.
Qed.

Lemma exec_uniqueFollowedSeries st op :
  wf st = true -> uniqueFollowedSeries st = true ->
  uniqueFollowedSeries (exec st op) = true.
Proof.
  intros Hwf Hu. destruct op;
    try (unfold uniqueFollowedSeries in *; exec_open st; exact Hu).
  - now apply followSeries_unique.
  - now apply unfollowSeries_unique.
Qed.

Lemma exec_uniqueFollowedCategories st op :
  wf st = true -> uniqueFollowedCategories st = true ->
  uniqueFollowedCategories (exec st op) = true.
Proof.
  intros Hwf Hu. destruct op;
    try (unfold uniqueFollowedCategories in *; exec_open st; exact Hu).
  - now apply followCategory_unique.
  - now apply unfollowCategory_unique.
Qed.

Lemma run_links_unique ops st :
  wf st = true ->
  uniqueViewed st = true /\ uniqueFollowedAuthors st = true
  /\ uniqueFollowedSeries st = true /\ uniqueFollowedCategories st = true ->
  uniqueViewed (run ops st) = true /\ uniqueFollowedAuthors (run ops st) = true
  /\ uniqueFollowedSeries (run ops st) = true
  /\ uniqueFollowedCategories (run ops st) = true.
Proof.
  revert st. induction ops as [|op ops IH]; intros st Hwf H; simpl; [assumption|].
  destruct H as [H1 [H2 [H3 H4]]].
  apply IH; [now apply wf_exec|].
  auto using exec_uniqueViewed, exec_uniqueFollowedAuthors, exec_uniqueFollowedSeries,
    exec_uniqueFollowedCategories.
Qed.

Lemma sameFollowedAuthor_key u a e :
  MemStorage.sameFollowedAuthor u a e = true -> followedAuthorKey e = (u, a).
Proof.
  unfold MemStorage.sameFollowedAuthor, followedAuthorKey.
  rewrite andb_true_iff, !Z.eqb_eq. intros [-> ->]. reflexivity.
Qed.

Lemma sameFollowedSeries_key u s e :
  MemStorage.sameFollowedSeries u s e = true -> followedSeriesKey e = (u, s).
Proof.
  unfold MemStorage.sameFollowedSeries, followedSeriesKey.
  rewrite andb_true_iff, !Z.eqb_eq. intros [-> ->]. reflexivity.
Qed.

Lemma sameFollowedCategory_key u c e :
  MemStorage.sameFollowedCategory u c e = true -> followedCategoryKey e = (u, c).
Proof.
  unfold MemStorage.sameFollowedCategory, followedCategoryKey.
  rewrite andb_true_iff, Z.eqb_eq, String.eqb_eq. intros [-> ->]. reflexivity.
Qed.

Lemma followedAuthorRows_le1 st u a :
  uniqueFollowedAuthors st = true -> (List.length (followedAuthorRows st u a) <= 1)%nat.
Proof.
  intros Hu. apply uniqueFollowedAuthors_iff in Hu.
  apply (NoDup_map_filter_le1 followedAuthorKey _ (u, a)); [|assumption].
  intros x. apply sameFollowedAuthor_key.
Qed.

Lemma followedSeriesRows_le1 st u s :
  uniqueFollowedSeries st = true -> (List.length (followedSeriesRows st u s) <= 1)%nat.
Proof.
  intros Hu. apply uniqueFollowedSeries_iff in Hu.
  apply (NoDup_map_filter_le1 followedSeriesKey _ (u, s)); [|assumption].
  intros x. apply sameFollowedSeries_key.
Qed.

Lemma followedCategoryRows_le1 st u c :
  uniqueFollowedCategories st = true ->
  (List.length (followedCategoryRows st u c) <= 1)%nat.
Proof.
  intros Hu. apply uniqueFollowedCategories_iff in Hu.
  apply (NoDup_map_filter_le1 followedCategoryKey _ (u, c)); [|assumption].
  intros x. apply sameFollowedCategory_key.
Qed.

(** X3: In every store built by the constructor and any sequence of operations,
    the recently-viewed collection and the three following collections hold
    at most one row per (user, target) pair. *)
Theorem reachable_links_unique (ops : list Op) :
  let st := run ops MemStorage.new in
  (forall u b, (List.length (viewedRows st u b) <= 1)%nat)
  /\ (forall u a, (List.length (followedAuthorRows st u a) <= 1)%nat)
  /\ (forall u s, (List.length (followedSeriesRows st u s) <= 1)%nat)
  /\ (forall u c, (List.length (followedCategoryRows st u c) <= 1)%nat).
Proof.
  intros st.
  destruct (run_links_unique ops MemStorage.new wf_new) as [H1 [H2 [H3 H4]]].
  { repeat split. }
  fold st in H1, H2, H3, H4.
  auto using viewedRows_le1, followedAuthorRows_le1, followedSeriesRows_le1,
    followedCategoryRows_le1.
Qed.

(** ** Users, books and preferences: create, look up, update *)

Lemma wf_users st :
  wf st = true -> table_ok User.id (MemStorage.userId st) (MemStorage.users st) = true.
Proof. wf_open. assumption. Qed.

Lemma wf_userPreferences st :
  wf st = true ->
  table_ok UserPreferences.id (MemStorage.userPreferencesId st)
    (MemStorage.userPreferences st) = true.
Proof. wf_open. assumption. Qed.

(** [find] over a table after a row was appended under the counter. *)
Lemma find_after_insert {V : Type} (idf : V -> Z) (p : V -> bool) next v (m : JsMap.t V) :
  table_ok idf next m = true ->
  find p (JsMap.values (JsMap.set next v m))
  = match find p (JsMap.values m) with
    | Some x => Some x
    | None => if p v then Some v else None
    end.
Proof.
  intros Hok. rewrite set_fresh by (eapply table_ok_fresh; eassumption).
  rewrite values_app, find_app. simpl. destruct (p v); reflexivity.
Qed.

(** X4: [createBook] stores the book under the next id: [getBook] of that id
    returns it, every other id resolves as before, and [getBookByGoogleId]
    returns the earliest stored book with the [googleId], the new one only
    when no stored book had it ([createBook] does not check the [googleId]). *)
Theorem createBook_lookup (st : MemStorage.t) (insertBook : InsertBook.t) :
  wf st = true ->
  let st' := fst (MemStorage.createBook st insertBook) in
  let book := snd (MemStorage.createBook st insertBook) in
  Book.id book = MemStorage.bookId st
  /\ MemStorage.getBook st (Book.id book) = None
  /\ MemStorage.getBook st' (Book.id book) = Some book
  /\ (forall id, id <> Book.id book -> MemStorage.getBook st' id = MemStorage.getBook st id)
  /\ JsMap.values (MemStorage.books st') = JsMap.values (MemStorage.books st) ++ [book]
  /\ MemStorage.getBookByGoogleId st' (InsertBook.googleId insertBook)
     = match MemStorage.getBookByGoogleId st (InsertBook.googleId insertBook) with
       | Some existing => Some existing
       | None => Some book
       end.
Proof.
  intros Hwf. pose proof (wf_books _ Hwf) as Hok. simpl.
  unfold MemStorage.getBook, MemStorage.getBookByGoogleId. simpl.
  split; [reflexivity|]. split.
  { apply get_none_iff. eapply table_ok_fresh; eassumption. }
  split; [now rewrite get_set, Z.eqb_refl|]. split.
  { intros id Hne. rewrite get_set. destruct (Z.eqb_spec id (MemStorage.bookId st));
      [contradiction | reflexivity]. }
  split.
  { rewrite set_fresh by (eapply table_ok_fresh; eassumption). now rewrite values_app. }
  rewrite (find_after_insert Book.id _ _ _ _ Hok). simpl.
  now rewrite String.eqb_refl.
Qed.

Lemma createBook_lookup_witness :
  let b := InsertBook.mk "g1" "Title" "Author" None None None None None None None in
  MemStorage.getBook (fst (MemStorage.createBook MemStorage.new b)) 1
  = Some (snd (MemStorage.createBook MemStorage.new b)).
Proof.
  exact (proj1 (proj2 (proj2 (createBook_lookup MemStorage.new
           (InsertBook.mk "g1" "Title" "Author" None None None None None None None)
           eq_refl)))).
Defined.

(** X5: [updateBook] on a missing id returns [undefined] and changes nothing; on a
    stored id it keeps the id, takes each of the ten other fields from the
    update when the update has it and from the stored book otherwise, stores
    the merged book there, adds no row and leaves every other book; the empty
    update leaves the whole store as it is. *)
Theorem updateBook_merges (st : MemStorage.t) (id : Z) (bookUpdate : BookUpdate.t) :
  (MemStorage.getBook st id = None -> MemStorage.updateBook st id bookUpdate = (st, None))
  /\ (forall book,
        MemStorage.getBook st id = Some book ->
        exists updated,
          snd (MemStorage.updateBook st id bookUpdate) = Some updated
          /\ Book.id updated = Book.id book
          /\ Book.googleId updated
             = override (Book.googleId book) (BookUpdate.googleId bookUpdate)
          /\ Book.title updated
             = override (Book.title book) (BookUpdate.title bookUpdate)
          /\ Book.author updated
             = override (Book.author book) (BookUpdate.author bookUpdate)
          /\ Book.description updated
             = override (Book.description book) (BookUpdate.description bookUpdate)
          /\ Book.thumbnail updated
             = override (Book.thumbnail book) (BookUpdate.thumbnail bookUpdate)
          /\ Book.categories updated
             = override (Book.categories book) (BookUpdate.categories bookUpdate)
          /\ Book.ageRange updated
             = override (Book.ageRange book) (BookUpdate.ageRange bookUpdate)
          /\ Book.publishedDate updated
             = override (Book.publishedDate book) (BookUpdate.publishedDate bookUpdate)
          /\ Book.rating updated
             = override (Book.rating book) (BookUpdate.rating bookUpdate)
          /\ Book.isNew updated
             = override (Book.isNew book) (BookUpdate.isNew bookUpdate)
          /\ MemStorage.getBook (fst (MemStorage.updateBook st id bookUpdate)) id
             = Some updated
          /\ (forall id', id' <> id ->
                MemStorage.getBook (fst (MemStorage.updateBook st id bookUpdate)) id'
                = MemStorage.getBook st id')
          /\ JsMap.keys (MemStorage.books (fst (MemStorage.updateBook st id bookUpdate)))
             = JsMap.keys (MemStorage.books st)
          /\ MemStorage.updateBook st id emptyBookUpdate = (st, Some book)).
Proof.
  unfold MemStorage.getBook, MemStorage.updateBook. split.
  - intros H. now rewrite H.
  - intros book H. rewrite H. eexists. split; [reflexivity|].
    simpl. repeat split.
    + now rewrite get_set, Z.eqb_refl.
    + intros id' Hne. rewrite get_set.
      destruct (Z.eqb_spec id' id); [contradiction | reflexivity].
    + eapply keys_set_get; eassumption.
    + unfold override. simpl.
      replace (Book.mk _ _ _ _ _ _ _ _ _ _ _) with book by now destruct book.
      rewrite (set_get_same _ _ _ H). now destruct st.
Qed.

(** The row [getUserPreferences] returns, and its place in the collection. *)
Lemma wf_find_prefs st u prefs :
  wf st = true ->
  MemStorage.getUserPreferences st u = Some prefs ->
  UserPreferences.userId prefs = u
  /\ exists m1 m2,
       MemStorage.userPreferences st = m1 ++ (UserPreferences.id prefs, prefs) :: m2
       /\ (forall x, In x (JsMap.values m1) -> (UserPreferences.userId x =? u) = false)
       /\ (forall v', JsMap.set (UserPreferences.id prefs) v' (MemStorage.userPreferences st)
                      = m1 ++ (UserPreferences.id prefs, v') :: m2).
Proof.
  intros Hwf Hf. unfold MemStorage.getUserPreferences in Hf.
  destruct (table_find_split UserPreferences.id _ _ _ _ (wf_userPreferences _ Hwf) Hf)
    as [m1 [m2 [Hm [Hno [Hp [_ Hset]]]]]].
  split; [now apply Z.eqb_eq|]. exists m1, m2. auto.
Qed.

(** X6: [updateUserPreferences] for a user without a row returns [undefined] and
    changes nothing. For a user with a row, and an update that leaves
    [userId] alone, the merged row replaces the old one under the same id,
    [getUserPreferences] returns it, no row is added, and applying the same
    update again changes nothing more. *)
Theorem updateUserPreferences_merges (st : MemStorage.t) (userId : Z)
    (prefsUpdate : UserPreferencesUpdate.t) :
  wf st = true ->
  (MemStorage.getUserPreferences st userId = None ->
   MemStorage.updateUserPreferences st userId prefsUpdate = (st, None))
  /\ (forall prefs,
        MemStorage.getUserPreferences st userId = Some prefs ->
        UserPreferencesUpdate.userId prefsUpdate = None ->
        let r := MemStorage.updateUserPreferences st userId prefsUpdate in
        exists updated,
          snd r = Some updated
          /\ UserPreferences.id updated = UserPreferences.id prefs
          /\ UserPreferences.userId updated = userId
          /\ UserPreferences.preferredCategories updated
             = override (UserPreferences.preferredCategories prefs)
                        (UserPreferencesUpdate.preferredCategories prefsUpdate)
          /\ UserPreferences.preferredAgeRanges updated
             = override (UserPreferences.preferredAgeRanges prefs)
                        (UserPreferencesUpdate.preferredAgeRanges prefsUpdate)
          /\ UserPreferences.notificationsEnabled updated
             = override (UserPreferences.notificationsEnabled prefs)
                        (UserPreferencesUpdate.notificationsEnabled prefsUpdate)
          /\ MemStorage.getUserPreferences (fst r) userId = Some updated
          /\ JsMap.keys (MemStorage.userPreferences (fst r))
             = JsMap.keys (MemStorage.userPreferences st)
          /\ MemStorage.updateUserPreferences (fst r) userId prefsUpdate
             = (fst r, Some updated)).
Proof.
  intros Hwf. split.
  - intros H. unfold MemStorage.updateUserPreferences.
    unfold MemStorage.getUserPreferences in H. now rewrite H.
  - intros prefs Hf Hnone r.
    destruct (wf_find_prefs st userId prefs Hwf Hf) as [Hu [m1 [m2 [Hm [Hno Hset]]]]].
    subst r. unfold MemStorage.updateUserPreferences.
    unfold MemStorage.getUserPreferences in Hf. rewrite Hf. rewrite Hnone.
    cbn [override fst snd].
    set (updated := UserPreferences.mk _ _ _ _ _).
    assert (Hfind' : find (fun p => UserPreferences.userId p =? userId)
                       (JsMap.values (m1 ++ (UserPreferences.id prefs, updated) :: m2))
                     = Some updated).
    { rewrite values_app, find_app.
      rewrite (proj2 (find_none_iff _ _) Hno). simpl.
      now rewrite Hu, Z.eqb_refl. }
    exists updated. split; [reflexivity|].
    split; [reflexivity|]. split; [exact Hu|].
    split; [reflexivity|]. split; [reflexivity|]. split; [reflexivity|].
    split.
    { unfold MemStorage.getUserPreferences. simpl. now rewrite Hset. }
    split.
    { simpl. rewrite Hset, Hm. unfold JsMap.keys. rewrite !map_app. reflexivity. }
    simpl. rewrite Hset, Hfind'. cbn [override].
    assert (Hsame : UserPreferences.mk (UserPreferences.id updated)
                      (UserPreferences.userId updated)
                      (override (UserPreferences.preferredCategories updated)
                         (UserPreferencesUpdate.preferredCategories prefsUpdate))
                      (override (UserPreferences.preferredAgeRanges updated)
                         (UserPreferencesUpdate.preferredAgeRanges prefsUpdate))
                      (override (UserPreferences.notificationsEnabled updated)
                         (UserPreferencesUpdate.notificationsEnabled prefsUpdate))
                    = updated).
    { subst updated. simpl.
      destruct (UserPreferencesUpdate.preferredCategories prefsUpdate),
        (UserPreferencesUpdate.preferredAgeRanges prefsUpdate),
        (UserPreferencesUpdate.notificationsEnabled prefsUpdate); reflexivity. }
    rewrite Hsame. f_equal.
    assert (Hset' : JsMap.set (UserPreferences.id updated) updated
                      (m1 ++ (UserPreferences.id prefs, updated) :: m2)
                    = m1 ++ (UserPreferences.id prefs, updated) :: m2).
    { apply set_get_same. apply In_get.
      - pose proof (wf_userPreferences _ Hwf) as Hok. apply table_ok_iff in Hok.
        destruct Hok as [Hnd _]. rewrite Hm in Hnd. unfold JsMap.keys in *.
        rewrite map_app in *. exact Hnd.
      - apply in_or_app. right. now left. }
    simpl in Hset'. simpl. rewrite Hset'. reflexivity.
Qed.

Lemma updateUserPreferences_merges_witness :
  let update := UserPreferencesUpdate.mk None (Some (Some ["Fantasy"%string])) None None in
  let r := MemStorage.updateUserPreferences MemStorage.new 1 update in
  exists updated,
    MemStorage.getUserPreferences (fst r) 1 = Some updated
    /\ UserPreferences.preferredCategories updated = Some ["Fantasy"%string]
    /\ MemStorage.updateUserPreferences (fst r) 1 update = (fst r, Some updated).
Proof.
  destruct (proj2 (updateUserPreferences_merges MemStorage.new 1
                     (UserPreferencesUpdate.mk None (Some (Some ["Fantasy"%string]))
                        None None) eq_refl)
              (UserPreferences.mk 1 1 (Some []) (Some []) (Some true)) eq_refl eq_refl)
    as [updated [_ [_ [_ [H1 [_ [_ [H2 [_ H3]]]]]]]]].
  exists updated. exact (conj H2 (conj H1 H3)).
Defined.

(** X7: [createUserPreferences] does not replace: the row is stored under the
    next id, but when the user already has a row [getUserPreferences] keeps
    returning the older one; the new row is returned only for a user that had
    none. *)
Theorem createUserPreferences_does_not_replace (st : MemStorage.t)
    (prefs : InsertUserPreferences.t) :
  wf st = true ->
  let r := MemStorage.createUserPreferences st prefs in
  UserPreferences.id (snd r) = MemStorage.userPreferencesId st
  /\ JsMap.values (MemStorage.userPreferences (fst r))
     = JsMap.values (MemStorage.userPreferences st) ++ [snd r]
  /\ MemStorage.getUserPreferences (fst r) (InsertUserPreferences.userId prefs)
     = match MemStorage.getUserPreferences st (InsertUserPreferences.userId prefs) with
       | Some older => Some older
       | None => Some (snd r)
       end
  /\ (forall u, u <> InsertUserPreferences.userId prefs ->
        MemStorage.getUserPreferences (fst r) u = MemStorage.getUserPreferences st u).
Proof.
  intros Hwf. pose proof (wf_userPreferences _ Hwf) as Hok. simpl.
  unfold MemStorage.getUserPreferences. simpl.
  split; [reflexivity|]. split.
  { rewrite set_fresh by (eapply table_ok_fresh; eassumption). now rewrite values_app. }
  split.
  - rewrite (find_after_insert UserPreferences.id _ _ _ _ Hok). simpl.
    now rewrite Z.eqb_refl.
  - intros u Hne. rewrite (find_after_insert UserPreferences.id _ _ _ _ Hok). simpl.
    destruct (Z.eqb_spec (InsertUserPreferences.userId prefs) u); [congruence|].
    destruct (find _ _); reflexivity.
Qed.

Lemma createUserPreferences_does_not_replace_witness :
  let prefs := InsertUserPreferences.mk 1 (Some ["Mystery"%string]) None (Some false) in
  MemStorage.getUserPreferences (fst (MemStorage.createUserPreferences MemStorage.new prefs)) 1
  = Some (UserPreferences.mk 1 1 (Some []) (Some []) (Some true)).
Proof.
  exact (proj1 (proj2 (proj2 (createUserPreferences_does_not_replace MemStorage.new
           (InsertUserPreferences.mk 1 (Some ["Mystery"%string]) None (Some false))
           eq_refl)))).
Defined.

(** X8: [createUser] stores the user under the next id, and [getUser] of that id
    returns it; user names are not checked: when the name is taken,
    [getUserByUsername] keeps returning the user that had it first. *)
Theorem createUser_lookup (st : MemStorage.t) (insertUser : InsertUser.t) :
  wf st = true ->
  let r := MemStorage.createUser st insertUser in
  MemStorage.getUser st (User.id (snd r)) = None
  /\ MemStorage.getUser (fst r) (User.id (snd r)) = Some (snd r)
  /\ (forall id, id <> User.id (snd r) ->
        MemStorage.getUser (fst r) id = MemStorage.getUser st id)
  /\ MemStorage.getUserByUsername (fst r) (InsertUser.username insertUser)
     = match MemStorage.getUserByUsername st (InsertUser.username insertUser) with
       | Some first => Some first
       | None => Some (snd r)
       end
  /\ MemStorage.userId (fst r) = MemStorage.userId st + 1
  /\ MemStorage.userPreferencesId (fst r) = MemStorage.userPreferencesId st + 1.
Proof.
  intros Hwf. pose proof (wf_users _ Hwf) as Hok. simpl.
  unfold MemStorage.getUser, MemStorage.getUserByUsername. simpl.
  split.
  { apply get_none_iff. eapply table_ok_fresh; eassumption. }
  split; [now rewrite get_set, Z.eqb_refl|]. split.
  { intros id Hne. rewrite get_set. destruct (Z.eqb_spec id (MemStorage.userId st));
      [contradiction | reflexivity]. }
  split; [|split; reflexivity].
  rewrite (find_after_insert User.id _ _ _ _ Hok). simpl.
  now rewrite String.eqb_refl.
Qed.

Lemma createUser_lookup_witness :
  let r := MemStorage.createUser MemStorage.new (InsertUser.mk "demo" "other") in
  User.id (snd r) = 2
  /\ MemStorage.getUserByUsername (fst r) "demo" = Some (User.mk 1 "demo" "password").
Proof.
  split; [reflexivity|].
  exact (proj1 (proj2 (proj2 (proj2 (createUser_lookup MemStorage.new
           (InsertUser.mk "demo" "other") eq_refl))))).
Defined.

(** ** createUser and the default preferences *)

(** [createUser] keeps "every stored preferences row belongs to a user id
    that was handed out". *)
Lemma createUser_preferencesReferToUsers st u :
  wf st = true ->
  preferencesReferToUsers st = true ->
  preferencesReferToUsers (fst (MemStorage.createUser st u)) = true.
Proof.
  intros Hwf Hfk. pose proof (wf_userPreferences _ Hwf) as Hok.
  unfold preferencesReferToUsers in *. simpl.
  rewrite set_fresh by (eapply table_ok_fresh; eassumption).
  rewrite values_app, forallb_app. simpl.
  rewrite andb_true_r. apply andb_true_iff. split.
  - rewrite forallb_forall in *. intros p Hp. specialize (Hfk p Hp).
    apply Z.ltb_lt in Hfk. apply Z.ltb_lt. lia.
  - apply Z.ltb_lt. lia.
Qed.

(** C5: right after [createUser(u)] returns the stored user with its
    assigned id, both inserts are done: [getUser] of the id returns the user
    and a preferences row for the id with empty [preferredCategories] and
    [preferredAgeRanges] and [notificationsEnabled = true] is stored.
    [getUserPreferences] of the id returns the earliest stored row for the
    id: the default row when no row for the id was stored before, as in
    every store whose preference rows belong to ids already handed out (the
    constructor's store is one, and [createUser] keeps it so), and the older
    row otherwise. *)
Theorem createUser_default_preferences (st : MemStorage.t) (u : InsertUser.t) :
  wf st = true ->
  let st' := fst (MemStorage.createUser st u) in
  let user := snd (MemStorage.createUser st u) in
  let defaults :=
    UserPreferences.mk (MemStorage.userPreferencesId st) (User.id user)
      (Some []) (Some []) (Some true) in
  User.id user = MemStorage.userId st
  /\ User.username user = InsertUser.username u
  /\ User.password user = InsertUser.password u
  /\ MemStorage.getUser st' (User.id user) = Some user
  /\ JsMap.values (MemStorage.userPreferences st')
     = JsMap.values (MemStorage.userPreferences st) ++ [defaults]
  /\ MemStorage.getUserPreferences st' (User.id user)
     = match MemStorage.getUserPreferences st (User.id user) with
       | Some older => Some older
       | None => Some defaults
       end
  /\ (preferencesReferToUsers st = true ->
      MemStorage.getUserPreferences st' (User.id user) = Some defaults
      /\ preferencesReferToUsers st' = true)
  /\ preferencesReferToUsers MemStorage.new = true.
Proof.
  intros Hwf st' user defaults.
  pose proof (wf_userPreferences _ Hwf) as Hok.
  assert (Hfind : MemStorage.getUserPreferences st' (User.id user)
                  = match MemStorage.getUserPreferences st (User.id user) with
                    | Some older => Some older
                    | None => Some defaults
                    end).
  { subst st' user defaults. unfold MemStorage.getUserPreferences. simpl.
    rewrite (find_after_insert UserPreferences.id _ _ _ _ Hok). simpl.
    now rewrite Z.eqb_refl. }
  split; [reflexivity|]. split; [reflexivity|]. split; [reflexivity|]. split.
  { subst st' user. unfold MemStorage.getUser. simpl.
    now rewrite get_set, Z.eqb_refl. }
  split.
  { subst st' user defaults. simpl.
    rewrite set_fresh by (eapply table_ok_fresh; eassumption).
    now rewrite values_app. }
  split; [exact Hfind|]. split; [|vm_compute; reflexivity].
  intros Hfk. split; [|now apply createUser_preferencesReferToUsers].
  rewrite Hfind.
  assert (Hnone : MemStorage.getUserPreferences st (User.id user) = None).
  { unfold MemStorage.getUserPreferences. apply find_none_iff. intros p Hp.
    unfold preferencesReferToUsers in Hfk. rewrite forallb_forall in Hfk.
    specialize (Hfk p Hp). apply Z.ltb_lt in Hfk. apply Z.eqb_neq.
    subst user. simpl. lia. }
  now rewrite Hnone.
Qed.

Lemma createUser_default_preferences_witness :
  let r := MemStorage.createUser MemStorage.new (InsertUser.mk "ann" "secret") in
  User.id (snd r) = 2
  /\ MemStorage.getUser (fst r) 2 = Some (snd r)
  /\ MemStorage.getUserPreferences (fst r) 2
     = Some (UserPreferences.mk 2 2 (Some []) (Some []) (Some true)).
Proof.
  intros r.
  assert (Hwf : wf MemStorage.new = true) by (vm_compute; reflexivity).
  destruct (createUser_default_preferences MemStorage.new (InsertUser.mk "ann" "secret")
              Hwf) as [H1 [_ [_ [H4 [_ [_ [H7 _]]]]]]].
  split; [exact H1|]. split; [exact H4|].
  apply H7. vm_compute; reflexivity.
Defined.

(** On a store that holds a preferences row for the id the next user gets,
    [getUserPreferences] of the new user returns that older row, which is
    not the default one. *)
Lemma createUser_older_preferences_counterexample :
  let older :=
    InsertUserPreferences.mk 2 (Some ["Fantasy"%string]) (Some []) (Some false) in
  let st := run [CreateUserPreferences older] MemStorage.new in
  let r := MemStorage.createUser st (InsertUser.mk "ann" "secret") in
  wf st = true
  /\ User.id (snd r) = 2
  /\ MemStorage.getUserPreferences (fst r) (User.id (snd r))
     = Some (UserPreferences.mk 2 2 (Some ["Fantasy"%string]) (Some []) (Some false))
  /\ ~ (exists prefs,
          MemStorage.getUserPreferences (fst r) (User.id (snd r)) = Some prefs
          /\ UserPreferences.preferredCategories prefs = Some []
          /\ UserPreferences.preferredAgeRanges prefs = Some []
          /\ UserPreferences.notificationsEnabled prefs = Some true).
Proof.
  intros older st r.
  assert (Hget : MemStorage.getUserPreferences (fst r) (User.id (snd r))
                 = Some (UserPreferences.mk 2 2 (Some ["Fantasy"%string]) (Some [])
                           (Some false)))
    by (vm_compute; reflexivity).
  split; [vm_compute; reflexivity|]. split; [vm_compute; reflexivity|].
  split; [exact Hget|].
  intros [prefs [Hp [Hc _]]]. rewrite Hget in Hp. injection Hp as <-.
  discriminate Hc.
Qed.

(** ** Favorites and notifications: what the queries return *)

Lemma length_flat_map_option {A B : Type} (f : A -> option B) (l : list A) :
  (List.length (flat_map (fun x => match f x with Some y => [y] | None => [] end) l)
   <= List.length l)%nat.
Proof.
  induction l as [|x l IH]; simpl; [lia|].
  rewrite length_app. destruct (f x); simpl; lia.
Qed.

(** X9: [getFavorites] and [isFavorite] agree on stored books: a book is in the
    user's favorites list exactly when [isFavorite] holds for its id; rows
    whose book is not stored are dropped, so the list is never longer than
    the user's rows. *)
Theorem getFavorites_agrees_with_isFavorite (st : MemStorage.t) (userId : Z) :
  wf st = true ->
  (forall book,
     In book (MemStorage.getFavorites st userId) ->
     MemStorage.getBook st (Book.id book) = Some book
     /\ MemStorage.isFavorite st userId (Book.id book) = true)
  /\ (forall bookId book,
        MemStorage.getBook st bookId = Some book ->
        MemStorage.isFavorite st userId bookId = true ->
        In book (MemStorage.getFavorites st userId))
  /\ (List.length (MemStorage.getFavorites st userId)
      <= List.length (filter (fun fav => (Favorite.userId fav =? userId)%Z)
                             (JsMap.values (MemStorage.favorites st))))%nat.
Proof.
  intros Hwf. pose proof (wf_books _ Hwf) as Hok.
  unfold MemStorage.getFavorites, MemStorage.getBook, MemStorage.isFavorite.
  split; [|split].
  - intros book Hin. apply in_flat_map in Hin. destruct Hin as [fav [Hfav Hb]].
    apply filter_In in Hfav. destruct Hfav as [Hfav Hu].
    destruct (JsMap.get (Favorite.bookId fav) (MemStorage.books st)) as [b|] eqn:E;
      [|destruct Hb].
    destruct Hb as [<-|[]].
    destruct (table_ok_get _ _ _ _ _ Hok E) as [Hid _].
    rewrite Hid. split; [assumption|].
    apply existsb_exists. exists fav. split; [assumption|].
    unfold MemStorage.sameFavorite. now rewrite Hu, Z.eqb_refl.
  - intros bookId book Hg Hfav. apply existsb_exists in Hfav.
    destruct Hfav as [fav [Hin Hsame]]. unfold MemStorage.sameFavorite in Hsame.
    apply andb_true_iff in Hsame. destruct Hsame as [Hu Hb]. apply Z.eqb_eq in Hb.
    apply in_flat_map. exists fav. split.
    + apply filter_In. auto.
    + rewrite Hb, Hg. now left.
  - apply (length_flat_map_option
             (fun fav => JsMap.get (Favorite.bookId fav) (MemStorage.books st))).
Qed.

Lemma getFavorites_agrees_with_isFavorite_witness :
  let b := InsertBook.mk "g1" "Title" "Author" None None None None None None None in
  let st := run [CreateBook b; AddFavorite 5 (InsertFavorite.mk 1 1);
                 AddFavorite 6 (InsertFavorite.mk 1 9)] MemStorage.new in
  In (snd (MemStorage.createBook MemStorage.new b)) (MemStorage.getFavorites st 1).
Proof.
  intros b st.
  refine (proj1 (proj2 (getFavorites_agrees_with_isFavorite st 1 _)) 1 _ _ _);
    vm_compute; reflexivity.
Defined.

Section SortStable.
Context {A : Type} (key : A -> Z).

Lemma insert_desc_filter x l t :
  StronglySorted (fun a b => key b <= key a) l ->
  filter (fun y => key y =? t) (insert_desc key x l)
  = if key x =? t then x :: filter (fun y => key y =? t) l
    else filter (fun y => key y =? t) l.
Proof.
  induction l as [|y l IH]; simpl; intros Hs; [reflexivity|].
  inversion Hs as [|? ? Hl Hy]; subst.
  destruct (Z.leb_spec (key y) (key x)); simpl; [reflexivity|].
  rewrite (IH Hl).
  destruct (Z.eqb_spec (key x) t), (Z.eqb_spec (key y) t); try reflexivity. lia.
Qed.

(** The sort is stable: rows with one key value keep their order. *)
Lemma sort_desc_stable l t :
  filter (fun y => key y =? t) (sort_desc key l) = filter (fun y => key y =? t) l.
Proof.
  induction l as [|x l IH]; simpl; [reflexivity|].
  rewrite insert_desc_filter by apply sort_desc_sorted. now rewrite IH.
Qed.

End SortStable.

(** X10: [getNotifications] returns exactly the user's notifications, newest
    first; notifications with the same time stay in the order they are
    stored. *)
Theorem getNotifications_newest_first (st : MemStorage.t) (userId : Z) :
  let mine := filter (fun n => Notification.userId n =? userId)
                     (JsMap.values (MemStorage.notifications st)) in
  Permutation (MemStorage.getNotifications st userId) mine
  /\ Forall (fun n => Notification.userId n = userId) (MemStorage.getNotifications st userId)
  /\ StronglySorted (fun a b => Notification.createdAt b <= Notification.createdAt a)
       (MemStorage.getNotifications st userId)
  /\ (forall t,
        filter (fun n => Notification.createdAt n =? t) (MemStorage.getNotifications st userId)
        = filter (fun n => Notification.createdAt n =? t) mine).
Proof.
  intros mine. unfold MemStorage.getNotifications. fold mine.
  split; [apply sort_desc_perm|]. split; [|split].
  - apply Forall_forall. intros n Hn.
    apply (Permutation_in _ (sort_desc_perm Notification.createdAt mine)) in Hn.
    apply filter_In in Hn. now apply Z.eqb_eq.
  - apply sort_desc_sorted.
  - intros t. apply sort_desc_stable.
Qed.

Lemma unread_app (l1 l2 : list Notification.t) u :
  Z.of_nat
    (List.length (filter (fun n => (Notification.userId n =? u)
                                   && negb (Notification.isRead n)) (l1 ++ l2)))
  = Z.of_nat
      (List.length (filter (fun n => (Notification.userId n =? u)
                                     && negb (Notification.isRead n)) l1))
    + Z.of_nat
        (List.length (filter (fun n => (Notification.userId n =? u)
                                       && negb (Notification.isRead n)) l2)).
Proof. rewrite filter_app, length_app. lia. Qed.

(** X11: The unread count moves by one at a time: [createNotification] raises it
    for the notification's user, [markNotificationAsRead] lowers it for the
    user of an unread notification; other users' counts stay, and marking a
    read or a missing notification changes nothing. *)
Theorem unread_count_steps (st : MemStorage.t) :
  wf st = true ->
  (forall now n u,
     MemStorage.getUnreadNotificationCount (fst (MemStorage.createNotification st now n)) u
     = MemStorage.getUnreadNotificationCount st u
       + (if InsertNotification.userId n =? u then 1 else 0))
  /\ (forall id n u,
        JsMap.get id (MemStorage.notifications st) = Some n ->
        Notification.isRead n = false ->
        MemStorage.getUnreadNotificationCount
          (fst (MemStorage.markNotificationAsRead st id)) u
        = MemStorage.getUnreadNotificationCount st u
          - (if Notification.userId n =? u then 1 else 0))
  /\ (forall id n,
        JsMap.get id (MemStorage.notifications st) = Some n ->
        Notification.isRead n = true ->
        MemStorage.markNotificationAsRead st id = (st, Some n))
  /\ (forall id,
        JsMap.get id (MemStorage.notifications st) = None ->
        MemStorage.markNotificationAsRead st id = (st, None)).
Proof.
  intros Hwf. split; [|split; [|split]].
  - intros now n u. unfold MemStorage.getUnreadNotificationCount.
    rewrite createNotification_values by assumption.
    rewrite unread_app. simpl.
    destruct (InsertNotification.userId n =? u); simpl; lia.
  - intros id n u Hg Hunread.
    unfold MemStorage.getUnreadNotificationCount, MemStorage.markNotificationAsRead.
    rewrite Hg. simpl.
    destruct (get_split _ _ _ Hg) as [m1 [m2 [Hm Hset]]].
    rewrite Hset, Hm, !values_app, !unread_app. simpl.
    rewrite Hunread. destruct (Notification.userId n =? u); simpl; lia.
  - intros id n Hg Hread. unfold MemStorage.markNotificationAsRead. rewrite Hg.
    assert (Hsame : MemStorage.withIsReadTrue n = n).
    { destruct n. simpl in Hread. subst. reflexivity. }
    rewrite Hsame, (set_get_same _ _ _ Hg). now destruct st.
  - intros id Hg. unfold MemStorage.markNotificationAsRead. now rewrite Hg.
Qed.

Lemma unread_count_steps_witness :
  let n := InsertNotification.mk 1 "Hello" "First message" (Some "info"%string) None in
  let st1 := fst (MemStorage.createNotification MemStorage.new 5 n) in
  MemStorage.getUnreadNotificationCount st1 1 = 1
  /\ MemStorage.getUnreadNotificationCount (fst (MemStorage.markNotificationAsRead st1 1)) 1
     = 0.
Proof.
  pose (n := InsertNotification.mk 1 "Hello" "First message" (Some "info"%string) None).
  pose (st1 := fst (MemStorage.createNotification MemStorage.new 5 n)).
  split.
  - exact (proj1 (unread_count_steps MemStorage.new eq_refl) 5 n 1).
  - exact (proj1 (proj2 (unread_count_steps st1 eq_refl)) 1
             (snd (MemStorage.createNotification MemStorage.new 5 n)) 1 eq_refl eq_refl).
Defined.

(** ** Following: follow, check, unfollow *)

Lemma isFollowingAuthor_rows st u a :
  MemStorage.isFollowingAuthor st u a
  = negb (Nat.eqb (List.length (followedAuthorRows st u a)) 0).
Proof. apply existsb_filter. Qed.

Lemma isFollowingSeries_rows st u s :
  MemStorage.isFollowingSeries st u s
  = negb (Nat.eqb (List.length (followedSeriesRows st u s)) 0).
Proof. apply existsb_filter. Qed.

Lemma isFollowingCategory_rows st u c :
  MemStorage.isFollowingCategory st u c
  = negb (Nat.eqb (List.length (followedCategoryRows st u c)) 0).
Proof. apply existsb_filter. Qed.

Lemma followAuthor_then_unfollow st now f :
  wf st = true ->
  let u := InsertFollowingAuthor.userId f in
  let a := InsertFollowingAuthor.authorId f in
  let st1 := fst (MemStorage.followAuthor st now f) in
  let r := MemStorage.unfollowAuthor st1 u a in
  MemStorage.isFollowingAuthor st1 u a = true
  /\ snd r = true
  /\ (MemStorage.isFollowingAuthor st u a = false ->
      MemStorage.followingAuthors (fst r) = MemStorage.followingAuthors st
      /\ MemStorage.isFollowingAuthor (fst r) u a = false)
  /\ (uniqueFollowedAuthors st = true -> MemStorage.isFollowingAuthor (fst r) u a = false).
Proof.
  intros Hwf u a st1 r.
  assert (Hwf1 : wf st1 = true) by now apply wf_followAuthor.
  destruct (followedAuthorRows st u a) as [|e rest] eqn:Erows.
  - (* not followed before: one row is appended, then removed *)
    pose (e := FollowingAuthor.mk (MemStorage.followingAuthorId st) u a now).
    destruct (table_link FollowingAuthor.id _ _ _ e (wf_followingAuthors _ Hwf) Erows)
      as [Hfind [Hset Hrows]].
    { unfold MemStorage.sameFollowedAuthor. simpl. now rewrite !Z.eqb_refl. }
    assert (Hst1 : MemStorage.followingAuthors st1
                   = MemStorage.followingAuthors st
                     ++ [(MemStorage.followingAuthorId st, e)]).
    { subst st1. unfold MemStorage.followAuthor. fold u a. rewrite Hfind. simpl.
      fold e. exact Hset. }
    assert (Hrows1 : followedAuthorRows st1 u a = [e]).
    { unfold followedAuthorRows. rewrite Hst1. exact Hrows. }
    assert (Hr : MemStorage.followingAuthors (fst r) = MemStorage.followingAuthors st).
    { subst r. unfold MemStorage.unfollowAuthor.
      rewrite (filter_head_find _ _ _ _ Hrows1). simpl. rewrite Hst1.
      apply delete_appended. eapply table_ok_fresh. apply wf_followingAuthors.
      exact Hwf. }
    assert (Hafter : MemStorage.isFollowingAuthor (fst r) u a = false).
    { rewrite isFollowingAuthor_rows. unfold followedAuthorRows. rewrite Hr.
      fold (followedAuthorRows st u a). now rewrite Erows. }
    split; [now rewrite isFollowingAuthor_rows, Hrows1|]. split.
    { subst r. unfold MemStorage.unfollowAuthor.
      now rewrite (filter_head_find _ _ _ _ Hrows1). }
    split; auto.
  - (* followed before: follow changes nothing *)
    assert (Hst1 : st1 = st).
    { subst st1. unfold MemStorage.followAuthor. fold u a.
      now rewrite (filter_head_find _ _ _ _ Erows). }
    subst r. rewrite Hst1.
    split; [now rewrite isFollowingAuthor_rows, Erows|]. split.
    { unfold MemStorage.unfollowAuthor. now rewrite (filter_head_find _ _ _ _ Erows). }
    split.
    { rewrite isFollowingAuthor_rows, Erows. discriminate. }
    intros Hu. pose proof (followedAuthorRows_le1 st u a Hu) as Hle.
    rewrite Erows in Hle. destruct rest; [|simpl in Hle; lia].
    destruct (table_unlink FollowingAuthor.id _ _ _ _ _ (wf_followingAuthors _ Hwf) Erows)
      as [Hfind [m1 [m2 [Hm [Hdel Hrest]]]]].
    rewrite isFollowingAuthor_rows. unfold followedAuthorRows, MemStorage.unfollowAuthor.
    rewrite Hfind. simpl. now rewrite Hdel, Hrest.
Qed.

Lemma followSeries_then_unfollow st now f :
  wf st = true ->
  let u := InsertFollowingSeries.userId f in
  let a := InsertFollowingSeries.seriesId f in
  let st1 := fst (MemStorage.followSeries st now f) in
  let r := MemStorage.unfollowSeries st1 u a in
  MemStorage.isFollowingSeries st1 u a = true
  /\ snd r = true
  /\ (MemStorage.isFollowingSeries st u a = false ->
      MemStorage.followingSeries (fst r) = MemStorage.followingSeries st
      /\ MemStorage.isFollowingSeries (fst r) u a = false)
  /\ (uniqueFollowedSeries st = true -> MemStorage.isFollowingSeries (fst r) u a = false).
Proof.
  intros Hwf u a st1 r.
  assert (Hwf1 : wf st1 = true) by now apply wf_followSeries.
  destruct (followedSeriesRows st u a) as [|e rest] eqn:Erows.
  - (* not followed before: one row is appended, then removed *)
    pose (e := FollowingSeries.mk (MemStorage.followingSeriesId st) u a now).
    destruct (table_link FollowingSeries.id _ _ _ e (wf_followingSeries _ Hwf) Erows)
      as [Hfind [Hset Hrows]].
    { unfold MemStorage.sameFollowedSeries. simpl. now rewrite !Z.eqb_refl. }
    assert (Hst1 : MemStorage.followingSeries st1
                   = MemStorage.followingSeries st
                     ++ [(MemStorage.followingSeriesId st, e)]).
    { subst st1. unfold MemStorage.followSeries. fold u a. rewrite Hfind. simpl.
      fold e. exact Hset. }
    assert (Hrows1 : followedSeriesRows st1 u a = [e]).
    { unfold followedSeriesRows. rewrite Hst1. exact Hrows. }
    assert (Hr : MemStorage.followingSeries (fst r) = MemStorage.followingSeries st).
    { subst r. unfold MemStorage.unfollowSeries.
      rewrite (filter_head_find _ _ _ _ Hrows1). simpl. rewrite Hst1.
      apply delete_appended. eapply table_ok_fresh. apply wf_followingSeries.
      exact Hwf. }
    assert (Hafter : MemStorage.isFollowingSeries (fst r) u a = false).
    { rewrite isFollowingSeries_rows. unfold followedSeriesRows. rewrite Hr.
      fold (followedSeriesRows st u a). now rewrite Erows. }
    split; [now rewrite isFollowingSeries_rows, Hrows1|]. split.
    { subst r. unfold MemStorage.unfollowSeries.
      now rewrite (filter_head_find _ _ _ _ Hrows1). }
    split; auto.
  - (* followed before: follow changes nothing *)
    assert (Hst1 : st1 = st).
    { subst st1. unfold MemStorage.followSeries. fold u a.
      now rewrite (filter_head_find _ _ _ _ Erows). }
    subst r. rewrite Hst1.
    split; [now rewrite isFollowingSeries_rows, Erows|]. split.
    { unfold MemStorage.unfollowSeries. now rewrite (filter_head_find _ _ _ _ Erows). }
    split.
    { rewrite isFollowingSeries_rows, Erows. discriminate. }
    intros Hu. pose proof (followedSeriesRows_le1 st u a Hu) as Hle.
    rewrite Erows in Hle. destruct rest; [|simpl in Hle; lia].
    destruct (table_unlink FollowingSeries.id _ _ _ _ _ (wf_followingSeries _ Hwf) Erows)
      as [Hfind [m1 [m2 [Hm [Hdel Hrest]]]]].
    rewrite isFollowingSeries_rows. unfold followedSeriesRows, MemStorage.unfollowSeries.
    rewrite Hfind. simpl. now rewrite Hdel, Hrest.
Qed.

Lemma followCategory_then_unfollow st now f :
  wf st = true ->
  let u := InsertFollowingCategory.userId f in
  let a := InsertFollowingCategory.category f in
  let st1 := fst (MemStorage.followCategory st now f) in
  let r := MemStorage.unfollowCategory st1 u a in
  MemStorage.isFollowingCategory st1 u a = true
  /\ snd r = true
  /\ (MemStorage.isFollowingCategory st u a = false ->
      MemStorage.followingCategories (fst r) = MemStorage.followingCategories st
      /\ MemStorage.isFollowingCategory (fst r) u a = false)
  /\ (uniqueFollowedCategories st = true -> MemStorage.isFollowingCategory (fst r) u a = false).
Proof.
  intros Hwf u a st1 r.
  assert (Hwf1 : wf st1 = true) by now apply wf_followCategory.
  destruct (followedCategoryRows st u a) as [|e rest] eqn:Erows.
  - (* not followed before: one row is appended, then removed *)
    pose (e := FollowingCategory.mk (MemStorage.followingCategoryId st) u a now).
    destruct (table_link FollowingCategory.id _ _ _ e (wf_followingCategories _ Hwf) Erows)
      as [Hfind [Hset Hrows]].
    { unfold MemStorage.sameFollowedCategory. simpl. now rewrite Z.eqb_refl, String.eqb_refl. }
    assert (Hst1 : MemStorage.followingCategories st1
                   = MemStorage.followingCategories st
                     ++ [(MemStorage.followingCategoryId st, e)]).
    { subst st1. unfold MemStorage.followCategory. fold u a. rewrite Hfind. simpl.
      fold e. exact Hset. }
    assert (Hrows1 : followedCategoryRows st1 u a = [e]).
    { unfold followedCategoryRows. rewrite Hst1. exact Hrows. }
    assert (Hr : MemStorage.followingCategories (fst r) = MemStorage.followingCategories st).
    { subst r. unfold MemStorage.unfollowCategory.
      rewrite (filter_head_find _ _ _ _ Hrows1). simpl. rewrite Hst1.
      apply delete_appended. eapply table_ok_fresh. apply wf_followingCategories.
      exact Hwf. }
    assert (Hafter : MemStorage.isFollowingCategory (fst r) u a = false).
    { rewrite isFollowingCategory_rows. unfold followedCategoryRows. rewrite Hr.
      fold (followedCategoryRows st u a). now rewrite Erows. }
    split; [now rewrite isFollowingCategory_rows, Hrows1|]. split.
    { subst r. unfold MemStorage.unfollowCategory.
      now rewrite (filter_head_find _ _ _ _ Hrows1). }
    split; auto.
  - (* followed before: follow changes nothing *)
    assert (Hst1 : st1 = st).
    { subst st1. unfold MemStorage.followCategory. fold u a.
      now rewrite (filter_head_find _ _ _ _ Erows). }
    subst r. rewrite Hst1.
    split; [now rewrite isFollowingCategory_rows, Erows|]. split.
    { unfold MemStorage.unfollowCategory. now rewrite (filter_head_find _ _ _ _ Erows). }
    split.
    { rewrite isFollowingCategory_rows, Erows. discriminate. }
    intros Hu. pose proof (followedCategoryRows_le1 st u a Hu) as Hle.
    rewrite Erows in Hle. destruct rest; [|simpl in Hle; lia].
    destruct (table_unlink FollowingCategory.id _ _ _ _ _ (wf_followingCategories _ Hwf) Erows)
      as [Hfind [m1 [m2 [Hm [Hdel Hrest]]]]].
    rewrite isFollowingCategory_rows. unfold followedCategoryRows, MemStorage.unfollowCategory.
    rewrite Hfind. simpl. now rewrite Hdel, Hrest.
Qed.

(** X12: Following and unfollowing compose, for authors, series and categories
    alike: after [follow] the check is true and [unfollow] succeeds; when the
    pair was not followed before, [unfollow] puts the collection back as it
    was, and in a collection without duplicate pairs the check is false
    afterwards. *)
Theorem follow_then_unfollow (st : MemStorage.t) (now : Z) :
  wf st = true ->
  (forall f,
     let u := InsertFollowingAuthor.userId f in
     let a := InsertFollowingAuthor.authorId f in
     let st1 := fst (MemStorage.followAuthor st now f) in
     let r := MemStorage.unfollowAuthor st1 u a in
     MemStorage.isFollowingAuthor st1 u a = true
     /\ snd r = true
     /\ (MemStorage.isFollowingAuthor st u a = false ->
         MemStorage.followingAuthors (fst r) = MemStorage.followingAuthors st
         /\ MemStorage.isFollowingAuthor (fst r) u a = false)
     /\ (uniqueFollowedAuthors st = true ->
         MemStorage.isFollowingAuthor (fst r) u a = false))
  /\ (forall f,
        let u := InsertFollowingSeries.userId f in
        let s := InsertFollowingSeries.seriesId f in
        let st1 := fst (MemStorage.followSeries st now f) in
        let r := MemStorage.unfollowSeries st1 u s in
        MemStorage.isFollowingSeries st1 u s = true
        /\ snd r = true
        /\ (MemStorage.isFollowingSeries st u s = false ->
            MemStorage.followingSeries (fst r) = MemStorage.followingSeries st
            /\ MemStorage.isFollowingSeries (fst r) u s = false)
        /\ (uniqueFollowedSeries st = true ->
            MemStorage.isFollowingSeries (fst r) u s = false))
  /\ (forall f,
        let u := InsertFollowingCategory.userId f in
        let c := InsertFollowingCategory.category f in
        let st1 := fst (MemStorage.followCategory st now f) in
        let r := MemStorage.unfollowCategory st1 u c in
        MemStorage.isFollowingCategory st1 u c = true
        /\ snd r = true
        /\ (MemStorage.isFollowingCategory st u c = false ->
            MemStorage.followingCategories (fst r) = MemStorage.followingCategories st
            /\ MemStorage.isFollowingCategory (fst r) u c = false)
        /\ (uniqueFollowedCategories st = true ->
            MemStorage.isFollowingCategory (fst r) u c = false)).
Proof.
  intros Hwf. split; [|split]; intros f.
  - now apply followAuthor_then_unfollow.
  - now apply followSeries_then_unfollow.
  - now apply followCategory_then_unfollow.
Qed.

Lemma follow_then_unfollow_witness :
  let f := InsertFollowingCategory.mk 1 "Fantasy" in
  let st1 := fst (MemStorage.followCategory MemStorage.new 10 f) in
  MemStorage.isFollowingCategory st1 1 "Fantasy" = true
  /\ MemStorage.isFollowingCategory
       (fst (MemStorage.unfollowCategory st1 1 "Fantasy")) 1 "Fantasy" = false.
Proof.
  destruct (proj2 (proj2 (follow_then_unfollow MemStorage.new 10 eq_refl))
              (InsertFollowingCategory.mk 1 "Fantasy")) as [H1 [_ [_ H4]]].
  split; [exact H1 | apply H4; vm_compute; reflexivity].
Defined.

Lemma NoDup_categories_of_user (u : Z) (l : list FollowingCategory.t) :
  NoDup (map followedCategoryKey l) ->
  NoDup (map FollowingCategory.category
             (filter (fun entry => FollowingCategory.userId entry =? u) l)).
Proof.
  induction l as [|x l IH]; simpl; intros Hnd; [constructor|].
  inversion Hnd as [|? ? Hx Hl]; subst.
  destruct (Z.eqb_spec (FollowingCategory.userId x) u) as [Hu|_]; simpl; [|auto].
  constructor; [|auto]. intros Hin. apply Hx.
  apply in_map_iff in Hin. destruct Hin as [y [Hc Hy]].
  apply filter_In in Hy. destruct Hy as [Hy Hyu]. apply Z.eqb_eq in Hyu.
  apply in_map_iff. exists y. split; [|assumption].
  unfold followedCategoryKey. congruence.
Qed.

(** X13: [getFollowingCategories] lists exactly the categories for which
    [isFollowingCategory] holds, and in every store built by the constructor
    and any sequence of operations it lists no category twice. *)
Theorem getFollowingCategories_consistent (userId : Z) :
  (forall st category,
     In category (MemStorage.getFollowingCategories st userId)
     <-> MemStorage.isFollowingCategory st userId category = true)
  /\ (forall ops, NoDup (MemStorage.getFollowingCategories (run ops MemStorage.new) userId)).
Proof.
  split.
  - intros st category.
    unfold MemStorage.getFollowingCategories, MemStorage.isFollowingCategory.
    rewrite in_map_iff, existsb_exists. split.
    + intros [e [Hc He]]. apply filter_In in He. destruct He as [He Hu].
      exists e. split; [assumption|]. unfold MemStorage.sameFollowedCategory.
      rewrite Hu, Hc. simpl. apply String.eqb_refl.
    + intros [e [He Hs]]. unfold MemStorage.sameFollowedCategory in Hs.
      apply andb_true_iff in Hs. destruct Hs as [Hu Hc]. apply String.eqb_eq in Hc.
      exists e. split; [assumption|]. apply filter_In. auto.
  - intros ops. unfold MemStorage.getFollowingCategories.
    apply NoDup_categories_of_user. apply uniqueFollowedCategories_iff.
    apply (run_links_unique ops MemStorage.new wf_new). repeat split.
Qed.

(** ** Recently viewed: the list and its clearing *)

Lemma slice_nil {A : Type} (start stop : Z) : slice (@nil A) start stop = [].
Proof. unfold slice. now rewrite skipn_nil, firstn_nil. Qed.

(** X14: For a limit that is not negative, [getRecentlyViewed] returns at most
    [limit] books; each is a stored book that the user has an entry for. *)
Theorem getRecentlyViewed_bounded (st : MemStorage.t) (userId limit : Z) :
  0 <= limit ->
  (List.length (MemStorage.getRecentlyViewed st userId limit) <= Z.to_nat limit)%nat
  /\ (forall book,
        In book (MemStorage.getRecentlyViewed st userId limit) ->
        exists entry,
          In entry (JsMap.values (MemStorage.recentlyViewed st))
          /\ RecentlyViewed.userId entry = userId
          /\ MemStorage.getBook st (RecentlyViewed.bookId entry) = Some book).
Proof.
  intros Hl. unfold MemStorage.getRecentlyViewed.
  rewrite slice_prefix by assumption. split.
  - eapply Nat.le_trans.
    + apply (length_flat_map_option
               (fun entry => JsMap.get (RecentlyViewed.bookId entry) (MemStorage.books st))).
    + rewrite length_firstn. lia.
  - intros book Hin. apply in_flat_map in Hin. destruct Hin as [entry [He Hb]].
    apply firstn_incl in He.
    apply (Permutation_in _ (sort_desc_perm RecentlyViewed.viewedAt _)) in He.
    apply filter_In in He. destruct He as [He Hu]. apply Z.eqb_eq in Hu.
    exists entry. split; [assumption|]. split; [assumption|].
    unfold MemStorage.getBook.
    destruct (JsMap.get (RecentlyViewed.bookId entry) (MemStorage.books st));
      [|destruct Hb].
    destruct Hb as [->|[]]. reflexivity.
Qed.

Lemma getRecentlyViewed_bounded_witness :
  (List.length (MemStorage.getRecentlyViewed
                  (run [AddRecentlyViewed 5 (InsertRecentlyViewed.mk 1 1)] MemStorage.new)
                  1 10) <= Z.to_nat 10)%nat.
Proof.
  refine (proj1 (getRecentlyViewed_bounded _ 1 10 _)). lia.
Defined.

Lemma values_filter {V : Type} (p : V -> bool) (m : JsMap.t V) :
  JsMap.values (filter (fun kv => p (snd kv)) m) = filter p (JsMap.values m).
Proof.
  induction m as [|[k v] m IH]; simpl; [reflexivity|].
  destruct (p v); simpl; now rewrite IH.
Qed.

(** X15: [clearRecentlyViewed] returns true, removes every entry of the user and
    nothing else: the entries of other users stay in their order, the rest of
    the store is untouched, and the user's recently-viewed list is empty
    afterwards. *)
Theorem clearRecentlyViewed_effect (st : MemStorage.t) (userId : Z) :
  wf st = true ->
  let r := MemStorage.clearRecentlyViewed st userId in
  snd r = true
  /\ fst r = MemStorage.set_recentlyViewed
               (filter (fun kv => negb (RecentlyViewed.userId (snd kv) =? userId))
                       (MemStorage.recentlyViewed st)) st
  /\ (forall limit, MemStorage.getRecentlyViewed (fst r) userId limit = [])
  /\ (forall b, viewedRows (fst r) userId b = [])
  /\ (forall u b, u <> userId -> viewedRows (fst r) u b = viewedRows st u b).
Proof.
  intros Hwf r.
  assert (Hr : fst r = MemStorage.set_recentlyViewed
                         (filter (fun kv => negb (RecentlyViewed.userId (snd kv) =? userId))
                                 (MemStorage.recentlyViewed st)) st).
  { subst r. unfold MemStorage.clearRecentlyViewed. cbn [fst]. rewrite clear_fold.
    f_equal.
    apply (fold_delete_filter RecentlyViewed.id
             (fun entry => RecentlyViewed.userId entry =? userId)
             (MemStorage.recentlyViewedId st)).
    now apply wf_recentlyViewed. }
  split; [reflexivity|]. split; [exact Hr|]. rewrite Hr.
  unfold MemStorage.getRecentlyViewed, viewedRows. simpl.
  rewrite (values_filter (fun e => negb (RecentlyViewed.userId e =? userId))).
  split; [|split].
  - intros limit. rewrite filter_filter.
    match goal with |- context [sort_desc _ ?l] => assert (Hnil : l = []) end.
    { apply filter_nil_iff. intros x _. destruct (RecentlyViewed.userId x =? userId);
        reflexivity. }
    rewrite Hnil. simpl. now rewrite slice_nil.
  - intros b. rewrite filter_filter. apply filter_nil_iff. intros x _.
    unfold MemStorage.sameViewed.
    destruct (RecentlyViewed.userId x =? userId); reflexivity.
  - intros u b Hne. rewrite filter_filter. apply filter_ext. intros x.
    unfold MemStorage.sameViewed.
    destruct (Z.eqb_spec (RecentlyViewed.userId x) userId) as [He|_]; simpl;
      [|reflexivity].
    destruct (Z.eqb_spec (RecentlyViewed.userId x) u); [congruence | reflexivity].
Qed.

Lemma clearRecentlyViewed_effect_witness :
  let st := run [AddRecentlyViewed 5 (InsertRecentlyViewed.mk 1 1);
                 AddRecentlyViewed 6 (InsertRecentlyViewed.mk 2 1)] MemStorage.new in
  viewedRows (fst (MemStorage.clearRecentlyViewed st 1)) 1 1 = []
  /\ viewedRows (fst (MemStorage.clearRecentlyViewed st 1)) 2 1 = viewedRows st 2 1.
Proof.
  intros st.
  assert (Hwf : wf st = true) by (vm_compute; reflexivity).
  destruct (clearRecentlyViewed_effect st 1 Hwf) as [_ [_ [_ [H1 H2]]]].
  split; [apply H1 | apply H2; discriminate].
Defined.

(** ** getBooks: pages fit together *)

Lemma firstn_add {A : Type} (a b : nat) (l : list A) :
  firstn (a + b) l = firstn a l ++ firstn b (skipn a l).
Proof.
  revert l. induction a as [|a IH]; intros l; simpl; [reflexivity|].
  destruct l as [|x l]; simpl; [now rewrite firstn_nil | now rewrite IH].
Qed.

Lemma skipn_add {A : Type} (a b : nat) (l : list A) :
  skipn (a + b) l = skipn b (skipn a l).
Proof.
  revert l. induction a as [|a IH]; intros l; simpl; [reflexivity|].
  destruct l as [|x l]; simpl; [now rewrite skipn_nil | apply IH].
Qed.

Lemma getBooks_window st options limit offset :
  0 < limit -> 0 <= offset ->
  MemStorage.getBooks st (withPaging options limit offset)
  = firstn (Z.to_nat limit)
      (skipn (Z.to_nat offset) (MemStorage.getBooks st (withoutPaging options))).
Proof.
  intros Hl Ho. rewrite getBooks_paged. cbv zeta.
  change (withoutPaging (withPaging options limit offset)) with (withoutPaging options).
  unfold withPaging. cbn [BookOptions.limit BookOptions.offset truthy_number].
  destruct (Z.eqb_spec limit 0) as [?|_]; [lia|].
  destruct (Z.eqb_spec offset 0) as [->|_]; simpl.
  - apply slice_prefix; lia.
  - apply slice_window; lia.
Qed.

Lemma slice_sublist_NoDup {A B : Type} (f : A -> B) (l : list A) start stop :
  NoDup (map f l) -> NoDup (map f (slice l start stop)).
Proof.
  intros Hnd. unfold slice.
  generalize (Z.to_nat (slice_index (Z.of_nat (List.length l)) stop
                        - slice_index (Z.of_nat (List.length l)) start)).
  generalize (Z.to_nat (slice_index (Z.of_nat (List.length l)) start)).
  intros a b.
  assert (Hskip : NoDup (map f (skipn a l))).
  { rewrite <- (firstn_skipn a l) in Hnd. rewrite map_app in Hnd.
    now apply NoDup_app_remove_l in Hnd. }
  rewrite <- (firstn_skipn b (skipn a l)) in Hskip. rewrite map_app in Hskip.
  now apply NoDup_app_remove_r in Hskip.
Qed.

(** X16: Paging neither repeats nor skips: no book comes twice in a result, and
    for a positive page size two consecutive pages are, joined, the page of
    double size at the same offset. *)
Theorem getBooks_pages_fit (st : MemStorage.t) (options : BookOptions.t) :
  wf st = true ->
  NoDup (map Book.id (MemStorage.getBooks st options))
  /\ (forall limit offset,
        0 < limit -> 0 <= offset ->
        MemStorage.getBooks st (withPaging options limit offset)
        ++ MemStorage.getBooks st (withPaging options limit (offset + limit))
        = MemStorage.getBooks st (withPaging options (2 * limit) offset)).
Proof.
  intros Hwf. split.
  - assert (Hall : NoDup (map Book.id (MemStorage.getBooks st (withoutPaging options)))).
    { rewrite getBooks_unpaged.
      eapply Permutation_NoDup.
      - apply Permutation_map. symmetry. apply sort_desc_perm.
      - apply distinct_keys_filter. eapply table_ids_NoDup. apply wf_books. exact Hwf. }
    rewrite getBooks_paged. cbv zeta.
    destruct (truthy_number (BookOptions.offset options)
              && truthy_number (BookOptions.limit options)).
    + destruct (BookOptions.offset options), (BookOptions.limit options);
        try assumption. now apply slice_sublist_NoDup.
    + destruct (truthy_number (BookOptions.limit options)); [|assumption].
      destruct (BookOptions.limit options); [|assumption].
      now apply slice_sublist_NoDup.
  - intros limit offset Hl Ho. rewrite !getBooks_window by lia.
    replace (Z.to_nat (offset + limit)) with (Z.to_nat offset + Z.to_nat limit)%nat by lia.
    replace (Z.to_nat (2 * limit)) with (Z.to_nat limit + Z.to_nat limit)%nat by lia.
    rewrite skipn_add. now rewrite firstn_add.
Qed.

Lemma getBooks_pages_fit_witness :
  let book := fun g => InsertBook.mk g "Title" "Author" None None None None None None None in
  let st := run [CreateBook (book "g1"%string); CreateBook (book "g2"%string);
                 CreateBook (book "g3"%string)] MemStorage.new in
  let all := BookOptions.mk None None None None None in
  map Book.id (MemStorage.getBooks st (withPaging all 1 1)) = [2]
  /\ MemStorage.getBooks st (withPaging all 1 1) ++ MemStorage.getBooks st (withPaging all 1 2)
     = MemStorage.getBooks st (withPaging all 2 1).
Proof.
  intros book st all. split; [vm_compute; reflexivity|].
  refine (proj2 (getBooks_pages_fit st all _) 1 1 _ _); [vm_compute; reflexivity | lia | lia].
Defined.

(** ** searchBooks *)

Lemma lowerAscii_idempotent c : lowerAscii (lowerAscii c) = lowerAscii c.
Proof. destruct c as [[] [] [] [] [] [] [] []]; reflexivity. Qed.

Lemma toLowerCase_idempotent s : toLowerCase (toLowerCase s) = toLowerCase s.
Proof.
  induction s as [|c s IH]; simpl; [reflexivity|].
  now rewrite lowerAscii_idempotent, IH.
Qed.

Lemma prefix_refl s : String.prefix s s = true.
Proof.
  induction s as [|c s IH]; simpl; [reflexivity|].
  destruct (ascii_dec c c); [assumption | contradiction].
Qed.

Lemma str_includes_unfold s sub :
  str_includes s sub
  = if String.prefix sub s then true
    else match s with
         | EmptyString => false
         | String _ s' => str_includes s' sub
         end.
Proof. destruct s; reflexivity. Qed.

Lemma str_includes_refl s : str_includes s s = true.
Proof. now rewrite str_includes_unfold, prefix_refl. Qed.

Lemma str_includes_empty s : str_includes s EmptyString = true.
Proof. destruct s; reflexivity. Qed.

(** X17: [searchBooks] with the empty query returns every book in storage order;
    the letter case of the query does not matter; and searching for a stored
    book's title, in any letter case, returns that book. *)
Theorem searchBooks_ignores_case (st : MemStorage.t) :
  MemStorage.searchBooks st EmptyString = JsMap.values (MemStorage.books st)
  /\ (forall query,
        MemStorage.searchBooks st (toLowerCase query) = MemStorage.searchBooks st query)
  /\ (forall query book,
        In book (JsMap.values (MemStorage.books st)) ->
        toLowerCase query = toLowerCase (Book.title book) ->
        In book (MemStorage.searchBooks st query)).
Proof.
  unfold MemStorage.searchBooks. split; [|split].
  - simpl. induction (JsMap.values (MemStorage.books st)) as [|b l IH]; simpl;
      [reflexivity|].
    rewrite str_includes_empty. simpl. now rewrite IH.
  - intros query. now rewrite toLowerCase_idempotent.
  - intros query book Hin He. apply filter_In. split; [assumption|].
    rewrite He, str_includes_refl. reflexivity.
Qed.

(** ** determineAgeRange *)

Lemma categoryAgeRange_in (categories : list string) ageRange :
  GoogleBooksApi.categoryAgeRange categories = Some ageRange -> In ageRange AGE_RANGES.
Proof.
  induction categories as [|c cs IH]; simpl; [discriminate|].
  repeat match goal with
         | |- context [if ?b then _ else _] => destruct b
         end;
    try (intros H; injection H as <-; simpl; tauto).
  exact IH.
Qed.

(** X18: [determineAgeRange] always returns one of the four [AGE_RANGES], never
    the empty string it starts from; a category that names an age group wins
    over the description and the page count. *)
Theorem determineAgeRange_in_AGE_RANGES (volumeInfo : GoogleBooksApi.VolumeInfo) :
  In (GoogleBooksApi.determineAgeRange volumeInfo) AGE_RANGES
  /\ (forall categories ageRange,
        GoogleBooksApi.categories volumeInfo = Some categories ->
        GoogleBooksApi.categoryAgeRange categories = Some ageRange ->
        GoogleBooksApi.determineAgeRange volumeInfo = ageRange).
Proof.
  unfold GoogleBooksApi.determineAgeRange. split.
  - destruct (GoogleBooksApi.categoryAgeRange _) as [r|] eqn:E.
    + eapply categoryAgeRange_in. exact E.
    + repeat match goal with
             | |- context [if ?b then _ else _] => destruct b
             end; simpl; tauto.
  - intros categories ageRange Hc Hr. now rewrite Hc, Hr.
Qed.

(** ** GET /api/books/search: books from the external source *)

Lemma uniqueGoogleIds_iff st :
  uniqueGoogleIds st = true
  <-> NoDup (map Book.googleId (JsMap.values (MemStorage.books st))).
Proof. apply distinct_by_NoDup. apply String.eqb_eq. Qed.

Lemma saveNewBooks_cons st books g gs :
  Routes.saveNewBooks st books (g :: gs)
  = match MemStorage.getBookByGoogleId st (InsertBook.googleId g) with
    | Some _ => Routes.saveNewBooks st books gs
    | None =>
        Routes.saveNewBooks (fst (MemStorage.createBook st g))
          (books ++ [snd (MemStorage.createBook st g)]) gs
    end.
Proof.
  unfold Routes.saveNewBooks. simpl.
  destruct (MemStorage.getBookByGoogleId st (InsertBook.googleId g)); reflexivity.
Qed.

(** What the loop keeps, for the store and the response so far. *)
Lemma saveNewBooks_inv (googleBooks : list InsertBook.t) st books :
  wf st = true -> uniqueGoogleIds st = true ->
  wf (fst (Routes.saveNewBooks st books googleBooks)) = true
  /\ uniqueGoogleIds (fst (Routes.saveNewBooks st books googleBooks)) = true
  /\ (exists created,
        snd (Routes.saveNewBooks st books googleBooks) = books ++ created
        /\ JsMap.values (MemStorage.books (fst (Routes.saveNewBooks st books googleBooks)))
           = JsMap.values (MemStorage.books st) ++ created)
  /\ (forall g, In g googleBooks ->
        exists b,
          In b (JsMap.values
                  (MemStorage.books (fst (Routes.saveNewBooks st books googleBooks))))
          /\ Book.googleId b = InsertBook.googleId g).
Proof.
  revert st books.
  induction googleBooks as [|g gs IH]; intros st books Hwf Hu.
  - unfold Routes.saveNewBooks. simpl. repeat split; try assumption.
    + exists []. now rewrite !app_nil_r.
    + intros g [].
  - rewrite saveNewBooks_cons.
    destruct (MemStorage.getBookByGoogleId st (InsertBook.googleId g)) as [existing|] eqn:E.
    + destruct (IH st books Hwf Hu) as [H1 [H2 [H3 H4]]].
      repeat split; try assumption.
      intros g' [<-|Hg']; [|now apply H4].
      unfold MemStorage.getBookByGoogleId in E. apply find_some in E.
      destruct E as [Hin He]. apply String.eqb_eq in He.
      destruct H3 as [created [_ Hvals]].
      exists existing. split; [|assumption].
      rewrite Hvals. apply in_or_app. now left.
    + pose proof (wf_books _ Hwf) as Hok.
      set (st1 := fst (MemStorage.createBook st g)).
      set (b1 := snd (MemStorage.createBook st g)).
      assert (Hvals1 : JsMap.values (MemStorage.books st1)
                       = JsMap.values (MemStorage.books st) ++ [b1]).
      { subst st1 b1. simpl.
        rewrite set_fresh by (eapply table_ok_fresh; eassumption).
        now rewrite values_app. }
      assert (Hwf1 : wf st1 = true) by now apply wf_createBook.
      assert (Hu1 : uniqueGoogleIds st1 = true).
      { apply uniqueGoogleIds_iff. apply uniqueGoogleIds_iff in Hu.
        rewrite Hvals1, map_app. simpl.
        apply NoDup_app; [assumption | repeat constructor; intros [] |].
        intros x Hx [<-|[]]. apply in_map_iff in Hx. destruct Hx as [y [He Hy]].
        unfold MemStorage.getBookByGoogleId in E.
        pose proof (find_none _ _ E y Hy) as Hn. simpl in Hn.
        apply String.eqb_neq in Hn. apply Hn. subst b1. simpl in He. exact He. }
      destruct (IH st1 (books ++ [b1]) Hwf1 Hu1) as [H1 [H2 [H3 H4]]].
      repeat split; try assumption.
      * destruct H3 as [created [Hs Hv]]. exists (b1 :: created). split.
        -- rewrite Hs, <- app_assoc. reflexivity.
        -- rewrite Hv, Hvals1, <- app_assoc. reflexivity.
      * intros g' [<-|Hg']; [|now apply H4].
        destruct H3 as [created [_ Hv]]. exists b1. split.
        -- rewrite Hv, Hvals1. apply in_or_app. left. apply in_or_app. right. now left.
        -- reflexivity.
Qed.

(** X19: GET /api/books/search answers 400 without a query and 200 otherwise. It
    consults the external source only when fewer than 5 stored books match,
    and stores a book from it only when no stored book has its [googleId]:
    stored books are never changed or removed, [googleId]s that were unique
    stay unique, the response is the local matches followed by the books
    created, and each book the source returned is in the store afterwards
    under its [googleId]. *)
Theorem getBooksSearch_ingests_once (st : MemStorage.t) (query : option string)
    (googleBooks : option (list InsertBook.t)) :
  wf st = true -> uniqueGoogleIds st = true ->
  let st' := fst (fst (Routes.getBooksSearch st query googleBooks)) in
  let status := snd (fst (Routes.getBooksSearch st query googleBooks)) in
  let sent := snd (Routes.getBooksSearch st query googleBooks) in
  wf st' = true
  /\ uniqueGoogleIds st' = true
  /\ (match query with
      | None => status = 400 /\ st' = st
      | Some q =>
          if String.eqb q EmptyString then status = 400 /\ st' = st
          else
            status = 200
            /\ exists created,
                 sent = MemStorage.searchBooks st q ++ created
                 /\ JsMap.values (MemStorage.books st')
                    = JsMap.values (MemStorage.books st) ++ created
                 /\ ((5 <= Z.of_nat (List.length (MemStorage.searchBooks st q))
                      \/ googleBooks = None) -> created = [] /\ st' = st)
                 /\ (Z.of_nat (List.length (MemStorage.searchBooks st q)) < 5 ->
                     forall gs g, googleBooks = Some gs -> In g gs ->
                       exists b, In b (JsMap.values (MemStorage.books st'))
                                 /\ Book.googleId b = InsertBook.googleId g)
      end).
Proof.
  intros Hwf Hu. unfold Routes.getBooksSearch.
  destruct query as [q|]; [|simpl; auto].
  destruct (String.eqb q EmptyString); [simpl; auto|].
  destruct (Z.ltb_spec (Z.of_nat (List.length (MemStorage.searchBooks st q))) 5)
    as [Hlt|Hge].
  - destruct googleBooks as [gs|].
    + destruct (saveNewBooks_inv gs st (MemStorage.searchBooks st q) Hwf Hu)
        as [H1 [H2 [[created [Hs Hv]] H4]]].
      destruct (Routes.saveNewBooks st (MemStorage.searchBooks st q) gs) as [st1 sent1].
      simpl in *. split; [assumption|]. split; [assumption|]. split; [reflexivity|].
      exists created. split; [assumption|]. split; [assumption|]. split.
      * intros [Hc|Hc]; [lia | discriminate].
      * intros _ gs' g He Hg. injection He as <-. now apply H4.
    + simpl. split; [assumption|]. split; [assumption|]. split; [reflexivity|].
      exists []. rewrite !app_nil_r. repeat split; try reflexivity.
      intros _ gs g He. discriminate.
  - simpl. split; [assumption|]. split; [assumption|]. split; [reflexivity|].
    exists []. rewrite !app_nil_r. repeat split; try reflexivity.
    intros Hlt. lia.
Qed.

Lemma getBooksSearch_ingests_once_witness :
  let g := InsertBook.mk "g1" "Dragon Tales" "A. Writer" None None None None None None None in
  let r := Routes.getBooksSearch MemStorage.new (Some "dragon"%string) (Some [g; g]) in
  wf (fst (fst r)) = true
  /\ uniqueGoogleIds (fst (fst r)) = true
  /\ List.length (JsMap.values (MemStorage.books (fst (fst r)))) = 1%nat.
Proof.
  intros g r.
  destruct (getBooksSearch_ingests_once MemStorage.new (Some "dragon"%string)
              (Some [g; g]) eq_refl eq_refl) as [H1 [H2 _]].
  split; [exact H1|]. split; [exact H2 | vm_compute; reflexivity].
Defined.

(** ** Matcher runs among other operations *)

(** X20: a matcher run never changes the store, so the matcher runs can be
    dropped from any sequence of operations without changing the store the
    sequence ends in. *)
Theorem matcher_runs_can_be_dropped (ops : list Op) (st : MemStorage.t) :
  run ops st = run (filter (fun op => negb (isCheckForNewBooks op)) ops) st.
Proof.
  unfold run. revert st. induction ops as [|op ops IH]; intros st; [reflexivity|].
  cbn [fold_left filter].
  destruct op; cbn [isCheckForNewBooks negb fold_left exec];
    rewrite ?checkForNewBooks_memStorage; apply IH.
Qed.

(** ** The favorites routes: add, then delete *)

(** X21: POST /api/favorites takes the user from the demo account and not from
    the body. For a stored book that is not a favorite it answers 201 and the
    book is a favorite; a second POST answers 400 and stores nothing; DELETE
    then answers 200, puts the favorites collection back as it was, and a
    second DELETE answers 404. DELETE with an id that does not parse answers
    400. *)
Theorem favorites_routes_round_trip (st : MemStorage.t) (now now' : Z)
    (body : InsertFavorite.t) (user : User.t) (book : Book.t) :
  wf st = true ->
  MemStorage.getUserByUsername st "demo" = Some user ->
  MemStorage.getBook st (InsertFavorite.bookId body) = Some book ->
  MemStorage.isFavorite st (User.id user) (InsertFavorite.bookId body) = false ->
  let bookId := InsertFavorite.bookId body in
  let posted := Routes.postFavorites st now (Some body) in
  let deleted := Routes.deleteFavorites (fst posted) (Some bookId) in
  snd posted = 201
  /\ MemStorage.isFavorite (fst posted) (User.id user) bookId = true
  /\ In book (MemStorage.getFavorites (fst posted) (User.id user))
  /\ Routes.postFavorites (fst posted) now' (Some body) = (fst posted, 400)
  /\ snd deleted = 200
  /\ MemStorage.favorites (fst deleted) = MemStorage.favorites st
  /\ MemStorage.isFavorite (fst deleted) (User.id user) bookId = false
  /\ Routes.deleteFavorites (fst deleted) (Some bookId) = (fst deleted, 404)
  /\ Routes.deleteFavorites st None = (st, 400).
Proof.
  intros Hwf Huser Hbook Hnot bookId posted deleted.
  fold bookId in Hbook, Hnot.
  set (f := InsertFavorite.mk (User.id user) bookId).
  assert (Hposted : posted = (fst (MemStorage.addFavorite st now f), 201)).
  { subst posted. unfold Routes.postFavorites. rewrite Huser. cbv zeta.
    cbn [InsertFavorite.bookId]. fold bookId. rewrite Hbook, Hnot. reflexivity. }
  pose proof (addFavorite_rows st now f Hwf) as Hadd. cbv zeta in Hadd.
  set (st1 := fst (MemStorage.addFavorite st now f)) in *.
  set (e := snd (MemStorage.addFavorite st now f)) in *.
  destruct Hadd as [Hrow [Hfav [_ Hrows]]].
  change (InsertFavorite.userId f) with (User.id user) in Hrow, Hrows.
  change (InsertFavorite.bookId f) with bookId in Hrow, Hrows.
  assert (Hnil : favoriteRows st (User.id user) bookId = []).
  { rewrite isFavorite_rows in Hnot. destruct (favoriteRows st (User.id user) bookId);
      [reflexivity | discriminate]. }
  rewrite Hnil in Hrows. cbn [app] in Hrows.
  assert (Hfst : fst posted = st1) by now rewrite Hposted.
  assert (Hwf1 : wf st1 = true) by (subst st1; now apply wf_addFavorite).
  assert (Huser1 : MemStorage.getUserByUsername st1 "demo" = Some user) by exact Huser.
  assert (Hbook1 : MemStorage.getBook st1 bookId = Some book) by exact Hbook.
  assert (Hfav1 : MemStorage.isFavorite st1 (User.id user) bookId = true).
  { now rewrite isFavorite_rows, Hrows. }
  assert (Hdel : MemStorage.removeFavorite st1 (User.id user) bookId
                 = (MemStorage.set_favorites (MemStorage.favorites st) st1, true)).
  { unfold MemStorage.removeFavorite.
    rewrite (filter_head_find _ _ _ _ Hrows). f_equal. f_equal.
    rewrite Hfav. rewrite Hrow at 1. cbn [Favorite.id].
    apply delete_appended. eapply table_ok_fresh. apply wf_favorites. exact Hwf. }
  assert (Hdeleted : deleted
                     = (MemStorage.set_favorites (MemStorage.favorites st) st1, 200)).
  { subst deleted. rewrite Hfst. unfold Routes.deleteFavorites.
    rewrite Huser1, Hdel. reflexivity. }
  assert (Hgone : MemStorage.isFavorite
                    (MemStorage.set_favorites (MemStorage.favorites st) st1)
                    (User.id user) bookId = false) by exact Hnot.
  rewrite Hdeleted, Hfst. cbn [fst snd].
  split; [now rewrite Hposted|]. split; [assumption|]. split.
  { unfold MemStorage.getFavorites. apply in_flat_map. exists e. split.
    - apply filter_In. split.
      + rewrite Hfav, values_app. apply in_or_app. right. now left.
      + rewrite Hrow. simpl. apply Z.eqb_refl.
    - rewrite Hrow. cbn [Favorite.bookId].
      unfold MemStorage.getBook in Hbook1. rewrite Hbook1. now left. }
  split.
  { unfold Routes.postFavorites. rewrite Huser1. cbv zeta.
    cbn [InsertFavorite.bookId]. fold bookId. now rewrite Hbook1, Hfav1. }
  split; [reflexivity|]. split; [reflexivity|]. split; [assumption|]. split.
  - unfold Routes.deleteFavorites.
    assert (Hu2 : MemStorage.getUserByUsername
                    (MemStorage.set_favorites (MemStorage.favorites st) st1) "demo"
                  = Some user) by exact Huser.
    rewrite Hu2. unfold MemStorage.removeFavorite.
    assert (Hf2 : find (MemStorage.sameFavorite (User.id user) bookId)
                    (JsMap.values
                       (MemStorage.favorites
                          (MemStorage.set_favorites (MemStorage.favorites st) st1)))
                  = None).
    { apply find_filter_nil. exact Hnil. }
    now rewrite Hf2.
  - reflexivity.
Qed.

Lemma favorites_routes_round_trip_witness :
  let b := InsertBook.mk "g1" "Title" "Author" None None None None None None None in
  let st := run [CreateBook b] MemStorage.new in
  let posted := Routes.postFavorites st 5 (Some (InsertFavorite.mk 99 1)) in
  snd posted = 201
  /\ MemStorage.isFavorite (fst posted) 1 1 = true
  /\ snd (Routes.deleteFavorites (fst posted) (Some 1)) = 200.
Proof.
  intros b st posted.
  assert (Hwf : wf st = true) by (vm_compute; reflexivity).
  assert (Hu : MemStorage.getUserByUsername st "demo" = Some (User.mk 1 "demo" "password"))
    by (vm_compute; reflexivity).
  assert (Hb : MemStorage.getBook st (InsertFavorite.bookId (InsertFavorite.mk 99 1))
               = Some (snd (MemStorage.createBook MemStorage.new b)))
    by (vm_compute; reflexivity).
  assert (Hn : MemStorage.isFavorite st (User.id (User.mk 1 "demo" "password"))
                 (InsertFavorite.bookId (InsertFavorite.mk 99 1)) = false)
    by (vm_compute; reflexivity).
  destruct (favorites_routes_round_trip st 5 6 (InsertFavorite.mk 99 1) _ _ Hwf Hu Hb Hn)
    as [H1 [H2 [_ [_ [H5 _]]]]].
  exact (conj H1 (conj H2 H5)).
Defined.

(** ** Instances of the statements above on concrete stores *)

Lemma reachable_store_well_formed_witness :
  User.id (User.mk 1 "demo" "password") = 1
  /\ 1 < MemStorage.userId (run [] MemStorage.new).
Proof.
  refine (proj1 (proj2 (reachable_store_well_formed [])) 1 (User.mk 1 "demo" "password") _).
  vm_compute; reflexivity.
Defined.

Lemma updateBook_merges_witness :
  let b := InsertBook.mk "g1" "Title" "Author" None None None None None None None in
  let st := fst (MemStorage.createBook MemStorage.new b) in
  let bookUpdate :=
    BookUpdate.mk None (Some "Other"%string) None None None None None None None None in
  exists updated,
    snd (MemStorage.updateBook st 1 bookUpdate) = Some updated
    /\ Book.id updated = 1
    /\ Book.title updated = "Other"%string
    /\ Book.author updated = "Author"%string.
Proof.
  intros b st bookUpdate.
  destruct (proj2 (updateBook_merges st 1 bookUpdate)
              (snd (MemStorage.createBook MemStorage.new b)))
    as [updated [H1 [H2 [_ [H3 [H4 _]]]]]].
  - vm_compute; reflexivity.
  - exists updated. split; [exact H1|]. split; [exact H2|]. split; [exact H3 | exact H4].
Defined.

Lemma searchBooks_ignores_case_witness :
  let b := InsertBook.mk "g1" "Title" "Author" None None None None None None None in
  let r := MemStorage.createBook MemStorage.new b in
  In (snd r) (MemStorage.searchBooks (fst r) "TITLE").
Proof.
  intros b r.
  refine (proj2 (proj2 (searchBooks_ignores_case (fst r))) "TITLE"%string (snd r) _ _);
    vm_compute; [left|]; reflexivity.
Defined.

Lemma determineAgeRange_in_AGE_RANGES_witness :
  GoogleBooksApi.determineAgeRange
    (GoogleBooksApi.mkVolumeInfo (Some ["Picture Book"%string])
       (Some "for ages 9-12"%string) (Some 500))
  = "3-5 years"%string.
Proof.
  refine (proj2 (determineAgeRange_in_AGE_RANGES _) ["Picture Book"%string] _ _ _);
    vm_compute; reflexivity.
Defined.
